(** * Korean statistics analyzer: the pipeline of [utils.js] and [main.js]

    A shallow embedding of the actor's validation, normalisation and
    orchestration code, and the properties its specification states
    about them.

    Conventions of the embedding.

    - A JavaScript value that reaches the program is JSON data (the actor
      input, an HTTP response body, a key-value store entry): [jsvalue].
      Strings are their UTF-8 bytes; on well-formed text a substring test on
      bytes agrees with [String.prototype.includes] on UTF-16 code units.
    - A thrown exception is an [Error] with its [message]; a computation
      that can throw returns a [result].
    - Built-ins of the host whose behaviour is fixed by the language and not
      by this repository (Unicode case mapping, white space trimming,
      [parseInt], [parseFloat], string conversion, the text of engine
      errors) are the operations of the class [Host].  Every property is
      proved for an arbitrary host; [node] is an executable host for worked
      examples.
    - [ToString] fails on some JSON data ([stringable]); so do the
      built-ins and the template literals that apply it, and the program
      with them.
    - Wall-clock values ([new Date().toISOString()]) are the token
      [CurrentTime].  What is printed on the console is not part of the
      model; the building of a logged message is, where it can throw. *)

From Stdlib Require Import String Ascii List ZArith QArith Bool Lia DecimalString.
Import ListNotations.
Local Open Scope string_scope.
Local Open Scope Z_scope.

(** ** JavaScript values *)

Inductive number :=
| NaN
| Infinity (negative : bool)
| Finite (q : Q).

#[warnings="-register-all"]
Inductive jsvalue :=
| VUndefined
| VNull
| VBool (b : bool)
| VNum (n : number)
| VStr (s : string)
| VArr (elems : list jsvalue)
| VObj (props : list (string * jsvalue)).

Definition numberOfZ (z : Z) : number := Finite (inject_Z z).

Definition numberTruthy (n : number) : bool :=
  match n with
  | NaN => false
  | Infinity _ => true
  | Finite q => negb (Qeq_bool q 0)
  end.

(** [ToBoolean]. *)
Definition truthy (v : jsvalue) : bool :=
  match v with
  | VUndefined | VNull => false
  | VBool b => b
  | VNum n => numberTruthy n
  | VStr s => negb (s =? "")%string
  | VArr _ | VObj _ => true
  end.

(** [a || b] on values. *)
Definition js_or (a b : jsvalue) : jsvalue := if truthy a then a else b.

Fixpoint lookup (key : string) (props : list (string * jsvalue)) : jsvalue :=
  match props with
  | [] => VUndefined
  | (k, v) :: rest => if (key =? k)%string then v else lookup key rest
  end.

(** [Object.hasOwn(v, key)], on the properties of [v]. *)
Fixpoint hasKey (key : string) (props : list (string * jsvalue)) : bool :=
  match props with
  | [] => false
  | (k, _) :: rest => (key =? k)%string || hasKey key rest
  end.

(** Whether [ToString] yields a string.  On JSON data it does, except on an
    object with an own [toString] property: no JSON value is callable, so
    the property is passed over, [Object.prototype.valueOf] hands back the
    object, and the conversion throws.  An array is joined, which converts
    each of its elements but [null] and [undefined]. *)
Fixpoint stringable (v : jsvalue) : bool :=
  match v with
  | VObj props => negb (hasKey "toString" props)
  | VArr elems => forallb stringable elems
  | _ => true
  end.

(** [hay.includes(needle)] on strings. *)
Fixpoint includes (hay needle : string) : bool :=
  prefix needle hay ||
  match hay with
  | EmptyString => false
  | String _ rest => includes rest needle
  end.

Definition strEq (v : jsvalue) (s : string) : bool :=
  match v with
  | VStr t => (t =? s)%string
  | _ => false
  end.

(** ** Exceptions *)

Record Error := mkError { message : string }.

Inductive type_error :=
| ReadOfNullish (base : jsvalue) (prop : string)
| NotAFunction (callee : string)
| NotPrimitive.

Inductive result (A : Type) :=
| Ok (a : A)
| Throw (e : Error).
Arguments Ok {A} a.
Arguments Throw {A} e.

Definition bind {A B : Type} (c : result A) (k : A -> result B) : result B :=
  match c with
  | Ok a => k a
  | Throw e => Throw e
  end.

Notation "x <- c ;; k" := (bind c (fun x => k))
  (at level 61, c at next level, right associativity).

(** ** The host *)

Class Host := {
  (** [String.prototype.toLowerCase] *)
  toLowerCase : string -> string;
  (** [String.prototype.trim] *)
  trim : string -> string;
  (** [parseInt(v)], for [v] that [ToString] converts; [None] is [NaN].
      The result is the integer the digits denote; the engine rounds it to
      a double, which changes none of the comparisons with 0, 1, 100 and 500
      made on it here. *)
  parseInt : jsvalue -> option Z;
  (** [parseFloat(v)], for [v] that [ToString] converts *)
  parseFloat : jsvalue -> number;
  (** the string that [ToString] makes of [v], when it makes one *)
  toString : jsvalue -> string;
  (** the message of a [TypeError] raised by the engine *)
  typeErrorMessage : type_error -> string;
  (** the strings that [for (const c of s.slice(0, n))] yields *)
  sliceChars : string -> Z -> list string;
  (** [parseInt(undefined)] is [NaN] *)
  parseInt_undefined : parseInt VUndefined = None
}.

Section Utils.
Context {host : Host}.

Definition typeError {A : Type} (t : type_error) : result A :=
  Throw (mkError (typeErrorMessage t)).

(** [ToString(v)], as a template literal applies it to [v]. *)
Definition toStringOf (v : jsvalue) : result string :=
  if stringable v then Ok (toString v) else typeError NotPrimitive.

(** [parseInt(v)]: the argument is converted to a string first. *)
Definition parseIntOf (v : jsvalue) : result (option Z) :=
  if stringable v then Ok (parseInt v) else typeError NotPrimitive.

(** [parseFloat(v)]: the argument is converted to a string first. *)
Definition parseFloatOf (v : jsvalue) : result number :=
  if stringable v then Ok (parseFloat v) else typeError NotPrimitive.

(** The argument of a call [logProgress(`... ${v} ...`)]: the template
    literal converts [v] to a string before [logProgress] is entered.  What
    [logProgress] then prints is not modelled. *)
Definition logLine (v : jsvalue) : result unit :=
  text <- toStringOf v ;; Ok tt.

(** [v.key], for the property names this program reads: none of them is an
    own or inherited property of a string, an array, a number or a boolean. *)
Definition getProp (v : jsvalue) (key : string) : result jsvalue :=
  match v with
  | VUndefined | VNull => typeError (ReadOfNullish v key)
  | VObj props => Ok (lookup key props)
  | _ => Ok VUndefined
  end.

(** [v?.trim()]: [None] is [undefined]. *)
Definition optTrim (expr : string) (v : jsvalue) : result (option string) :=
  match v with
  | VUndefined | VNull => Ok None
  | VStr s => Ok (Some (trim s))
  | _ => typeError (NotAFunction expr)
  end.

(** [t || d] for [t] a string or [undefined]. *)
Definition strOr (t : option string) (d : string) : string :=
  match t with
  | Some s => if (s =? "")%string then d else s
  | None => d
  end.

(** [n || d] for [n] the result of [parseInt]. *)
Definition intOr (n : option Z) (d : Z) : Z :=
  match n with
  | Some 0 => d
  | Some z => z
  | None => d
  end.

(** *** [handleApiError] *)

(** What [apiClient.get] rejects with, or what the [try] block throws. *)
Record RequestError := {
  response : option (Z * jsvalue);  (* status, data *)
  request : bool;                   (* error.request is truthy *)
  errorMessage : string
}.

Definition plainError (msg : string) : RequestError :=
  {| response := None; request := false; errorMessage := msg |}.

(** [data?.message || data?.error || 'Unknown API error'] *)
Definition apiErrorMsg (data : jsvalue) : jsvalue :=
  let field key :=
    match data with
    | VObj props => lookup key props
    | _ => VUndefined
    end in
  js_or (js_or (field "message") (field "error")) (VStr "Unknown API error").

(** The exception that a call of [handleApiError] ends with: the error it
    builds, or the [TypeError] of the template literal of its first branch
    when what the server sent as its message cannot be made a string. *)
Definition handleApiError (error : RequestError) (context : string) : Error :=
  match response error with
  | Some (status, data) =>
      match toStringOf (apiErrorMsg data) with
      | Ok msg =>
          mkError ("KOSIS API Error (" ++ context ++ "): Status "
                   ++ toString (VNum (numberOfZ status)) ++ " - " ++ msg)
      | Throw e => e
      end
  | None =>
      if request error
      then mkError ("KOSIS API Error (" ++ context
                    ++ "): No response received from server.")
      else mkError ("KOSIS API Error (" ++ context ++ "): "
                    ++ errorMessage error)
  end.

(** The outcome of one [apiClient.get]. *)
Inductive axios_result :=
| Resolved (data : jsvalue)
| Rejected (error : RequestError).

Definition isArray (v : jsvalue) : bool :=
  match v with
  | VArr _ => true
  | _ => false
  end.

(** [data.length !== undefined] *)
Definition hasLength (data : jsvalue) : bool :=
  match data with
  | VArr _ | VStr _ => true
  | VObj props =>
      match lookup "length" props with
      | VUndefined => false
      | _ => true
      end
  | _ => false
  end.

(** *** [getStatsList], [getStatsData], after the HTTP call has settled *)

Definition getStatsList (http : axios_result) : result jsvalue :=
  match http with
  | Resolved data =>
      if truthy data && isArray data then Ok data
      else if truthy data && hasLength data then Ok data
      else Throw (handleApiError
                    (plainError "Invalid response format from KOSIS API")
                    "getStatsList")
  | Rejected error => Throw (handleApiError error "getStatsList")
  end.

(** The [catch] block of [getStatsData]: the context is built from the
    table id before [handleApiError] is called. *)
Definition getStatsDataCatch {A : Type} (error : RequestError)
    (tableId : jsvalue) : result A :=
  id <- toStringOf tableId ;;
  Throw (handleApiError error ("getStatsData for " ++ id)).

Definition getStatsData (http : axios_result) (tableId : jsvalue)
  : result (list jsvalue) :=
  match http with
  | Resolved (VArr rows) => Ok rows
  | Resolved _ =>
      getStatsDataCatch (plainError "Invalid response format from KOSIS API")
        tableId
  | Rejected error => getStatsDataCatch error tableId
  end.

(** *** [determineDataType] *)

(** [v.toLowerCase()] *)
Definition toLowerCaseOf (expr : string) (v : jsvalue) : result string :=
  match v with
  | VUndefined | VNull => typeError (ReadOfNullish v "toLowerCase")
  | VStr s => Ok (toLowerCase s)
  | _ => typeError (NotAFunction (expr ++ ".toLowerCase"))
  end.

Definition determineDataType (statName : jsvalue) : result string :=
  name <- toLowerCaseOf "statName" statName ;;
  if includes name "인구" || includes name "population" then Ok "population"
  else if includes name "경제" || includes name "gdp"
          || includes name "경제성장" then Ok "economic"
  else if includes name "노동" || includes name "고용"
          || includes name "취업" then Ok "labor"
  else if includes name "산업" || includes name "제조업" then Ok "industry"
  else if includes name "교육" || includes name "학교" then Ok "education"
  else if includes name "의료" || includes name "보건"
          || includes name "건강" then Ok "health"
  else if includes name "환경" || includes name "오염" then Ok "environment"
  else if includes name "주택" || includes name "부동산" then Ok "housing"
  else if includes name "소득" || includes name "소비"
          || includes name "가계" then Ok "income"
  else if includes name "물가" || includes name "가격" then Ok "prices"
  else Ok "general".

(** *** [validateInput] *)

Record Configuration := {
  searchKeyword : string;
  vwCd : string;
  parentId : string;
  maxItems : Z;
  includeMetadata : bool;
  outputFormat : string;
  delayBetweenRequests : Z
}.

(** [Boolean(v !== false)] *)
Definition notFalse (v : jsvalue) : bool :=
  match v with
  | VBool false => false
  | _ => true
  end.

(** [['structured', 'raw', 'both'].includes(v) ? v : 'structured'] *)
Definition formatOf (v : jsvalue) : string :=
  match v with
  | VStr s =>
      if existsb (String.eqb s) ["structured"; "raw"; "both"]
      then s else "structured"
  | _ => "structured"
  end.

Definition validateInput (input : jsvalue) : result Configuration :=
  kw <- getProp input "searchKeyword" ;;
  kw' <- optTrim "input.searchKeyword?.trim" kw ;;
  vw <- getProp input "vwCd" ;;
  vw' <- optTrim "input.vwCd?.trim" vw ;;
  pid <- getProp input "parentId" ;;
  pid' <- optTrim "input.parentId?.trim" pid ;;
  mx <- getProp input "maxItems" ;;
  mx' <- parseIntOf mx ;;
  meta <- getProp input "includeMetadata" ;;
  fmt <- getProp input "outputFormat" ;;
  dl <- getProp input "delayBetweenRequests" ;;
  dl' <- parseIntOf dl ;;
  Ok {| searchKeyword := strOr kw' "";
        vwCd := strOr vw' "MT_ZTITLE";
        parentId := strOr pid' "A";
        maxItems := Z.min (Z.max (intOr mx' 10) 1) 100;
        includeMetadata := notFalse meta;
        outputFormat := formatOf fmt;
        delayBetweenRequests := Z.max (intOr dl' 1000) 500 |}.

(** *** [createKosisApiClient] *)

Definition createKosisApiClient (apiKey : jsvalue) : result unit :=
  if negb (truthy apiKey)
  then Throw (mkError "KOSIS API Key is required. Please set KOSIS_API_KEY environment variable.")
  else Ok tt.

(** *** [normalizeStatisticalData] *)

Inductive timestamp :=
| Provided (v : jsvalue)
| CurrentTime.

Inductive table_metadata :=
| NoMetadata
| MetaInfo (tableId : jsvalue) (note : string) (lastUpdated : timestamp).

Inductive metadata_blob :=
| RowMetadata (tableTitle c1 c2 c3 item originalData : jsvalue)
| ErrorMetadata (error : string) (rawData : jsvalue)
| DemoMetadata (tableTitle : string) (categories : list (string * string))
    (note : string).

Record NormalizedRecord := {
  statName : jsvalue;
  surveyDate : jsvalue;
  region : jsvalue;
  category1 : jsvalue;
  category2 : jsvalue;
  value : number;
  unit_ : jsvalue;
  sourceTableId : jsvalue;
  dataType : string;
  lastUpdated : timestamp;
  metadata : metadata_blob;
  extractedAt : timestamp
}.

Definition getMetaInfo (statsDataId : jsvalue) : table_metadata :=
  MetaInfo statsDataId "Metadata retrieved from KOSIS API" CurrentTime.

(** [v.includes(needle)] *)
Definition includesOf (expr : string) (v : jsvalue) (needle : string)
  : result bool :=
  match v with
  | VUndefined | VNull => typeError (ReadOfNullish v "includes")
  | VStr s => Ok (includes s needle)
  | VArr elems => Ok (existsb (fun e => strEq e needle) elems)
  | _ => typeError (NotAFunction (expr ++ ".includes"))
  end.

(** The body of the [forEach] callback, up to the [push]. *)
Definition normalizeItem (tableId item : jsvalue) : result NormalizedRecord :=
  tbl_nm <- getProp item "TBL_NM" ;;
  let name := js_or tbl_nm (VStr "Unknown Statistic") in
  dt <- getProp item "DT" ;;
  parsed <- parseFloatOf dt ;;
  let val := if numberTruthy parsed then parsed else numberOfZ 0 in
  unit_nm <- getProp item "UNIT_NM" ;;
  prd_de <- getProp item "PRD_DE" ;;
  c1_nm <- getProp item "C1_NM" ;;
  itm_nm <- getProp item "ITM_NM" ;;
  c2_nm <- getProp item "C2_NM" ;;
  isRegion <- (if truthy c1_nm then includesOf "item.C1_NM" c1_nm "지역"
               else Ok false) ;;
  kind <- determineDataType name ;;
  lst_chn_de <- getProp item "LST_CHN_DE" ;;
  c3_nm <- getProp item "C3_NM" ;;
  Ok {| statName := name;
        surveyDate := js_or prd_de (VStr "Unknown Period");
        region := if isRegion then c1_nm else VStr "Korea";
        category1 := js_or (js_or c1_nm itm_nm) (VStr "General");
        category2 := js_or c2_nm (VStr "");
        value := val;
        unit_ := js_or unit_nm (VStr "");
        sourceTableId := tableId;
        dataType := kind;
        lastUpdated := if truthy lst_chn_de then Provided lst_chn_de
                       else CurrentTime;
        metadata := RowMetadata name c1_nm c2_nm c3_nm itm_nm item;
        extractedAt := CurrentTime |}.

(** [rawData.forEach(...)]: the array [normalizedData] when the loop ends,
    and the exception that ended it, if one did. *)
Fixpoint forEachItem (tableId : jsvalue) (rows : list jsvalue)
    (normalizedData : list NormalizedRecord)
  : list NormalizedRecord * option Error :=
  match rows with
  | [] => (normalizedData, None)
  | item :: rest =>
      match normalizeItem tableId item with
      | Ok r => forEachItem tableId rest (normalizedData ++ [r])
      | Throw e => (normalizedData, Some e)
      end
  end.

(** The record pushed by the [catch] block. *)
Definition errorRecord (tableId : jsvalue) (error : Error) (rawData : jsvalue)
  : NormalizedRecord :=
  {| statName := VStr "Error Processing Data";
     surveyDate := VStr "Unknown Date";
     region := VStr "Korea";
     category1 := VStr "Error";
     category2 := VStr "";
     value := numberOfZ 0;
     unit_ := VStr "";
     sourceTableId := tableId;
     dataType := "error";
     lastUpdated := CurrentTime;
     metadata := ErrorMetadata (message error) rawData;
     extractedAt := CurrentTime |}.

(** [if (!Array.isArray(rawData)) rawData = [rawData]] *)
Definition rowsOf (rawData : jsvalue) : list jsvalue :=
  match rawData with
  | VArr rows => rows
  | other => [other]
  end.

Definition normalizeStatisticalData (rawData : jsvalue)
    (meta : table_metadata) (tableId : jsvalue) : list NormalizedRecord :=
  let rawData := VArr (rowsOf rawData) in
  match forEachItem tableId (rowsOf rawData) [] with
  | (normalizedData, None) => normalizedData
  | (normalizedData, Some error) =>
      normalizedData ++ [errorRecord tableId error rawData]
  end.

End Utils.

(** ** [main.js]: the orchestrator *)

Record SearchParams := {
  sp_vwCd : string;
  sp_parentId : string;
  sp_searchKeyword : option string
}.

Record RegistrationInfo := {
  url : string;
  note : string;
  warning : string
}.

(** The records handed to [Actor.pushData]. *)
Inductive output :=
| DataPoint (r : NormalizedRecord)
| RawOutput (tableId tableInfo : jsvalue) (meta : table_metadata)
    (rawData : list jsvalue)
| TableError (tableId tableTitle : jsvalue) (error : string)
| NoData (searchParams : SearchParams)
| Summary (tablesProcessed totalDataPoints : nat)
    (searchCriteria : Configuration)
| RunError (error : string) (input : Configuration)
| DemoSummary (demoDataPoints : nat) (searchCriteria : Configuration)
    (registrationInfo : RegistrationInfo).

(** The [type] field of a record; data points and the no-data message have
    none. *)
Definition outputType (o : output) : option string :=
  match o with
  | DataPoint _ | NoData _ => None
  | RawOutput _ _ _ _ => Some "raw"
  | TableError _ _ _ | RunError _ _ => Some "error"
  | Summary _ _ _ => Some "summary"
  | DemoSummary _ _ _ => Some "demo_summary"
  end.

(** What a run does to its collaborators, in order. *)
Inductive event :=
| CallGetStatsList (params : SearchParams)
| CallGetMetaInfo (tableId : jsvalue)
| CallGetStatsData (tableId orgId : jsvalue)
| Emit (o : output)                      (* pushData resolved *)
| EmitFailed (o : output) (e : Error)    (* pushData rejected *)
| Sleep (ms : Z)
| RenderChart (data : list NormalizedRecord).

(** The collaborators of a run.  A collaborator that is called more than
    once answers by the history of the run so far. *)
Record World := {
  actorInput : jsvalue;                    (* Actor.getInput() *)
  envKey : option string;                  (* process.env.KOSIS_API_KEY *)
  storedKey : jsvalue;                     (* Actor.getValue('KOSIS_API_KEY') *)
  listResponse : SearchParams -> axios_result;
  dataResponse : list event -> jsvalue -> jsvalue -> axios_result;
  pushData : list event -> output -> option Error;
  renderChart : list event -> list NormalizedRecord -> option Error
}.

(** The history and the local variables of [mainLogic] that outlive an
    iteration of its loop. *)
Record State := {
  trace : list event;
  processedTables : nat;
  totalDataPoints : nat;
  allNormalizedData : list NormalizedRecord
}.

Definition initial : State :=
  {| trace := []; processedTables := 0; totalDataPoints := 0;
     allNormalizedData := [] |}.

Definition Run (A : Type) : Type := State -> result A * State.

Definition ret {A : Type} (a : A) : Run A := fun st => (Ok a, st).

Definition andThen {A B : Type} (c : Run A) (k : A -> Run B) : Run B :=
  fun st =>
    match c st with
    | (Ok a, st') => k a st'
    | (Throw e, st') => (Throw e, st')
    end.

Definition lift {A : Type} (r : result A) : Run A := fun st => (r, st).

(** [try { body } catch (e) { handler e }] *)
Definition tryCatch {A : Type} (body : Run A) (handler : Error -> Run A)
  : Run A :=
  fun st =>
    match body st with
    | (Ok a, st') => (Ok a, st')
    | (Throw e, st') => handler e st'
    end.

Declare Scope run_scope.
Delimit Scope run_scope with run.
Notation "x <~ c ;; k" := (andThen c (fun x => k))
  (at level 61, c at next level, right associativity) : run_scope.
Notation "c ;;; k" := (andThen c (fun _ => k))
  (at level 61, right associativity) : run_scope.

Definition extend (events : list event) (st : State) : State :=
  {| trace := trace st ++ events;
     processedTables := processedTables st;
     totalDataPoints := totalDataPoints st;
     allNormalizedData := allNormalizedData st |}.

Definition observe (e : event) (st : State) : State := extend [e] st.

Definition modify (f : State -> State) : Run unit := fun st => (Ok tt, f st).

Definition gets {A : Type} (f : State -> A) : Run A := fun st => (Ok (f st), st).

Definition mark (e : event) : Run unit := fun st => (Ok tt, observe e st).

Definition when (b : bool) (c : Run unit) : Run unit :=
  if b then c else ret tt.

Fixpoint forEach {A : Type} (xs : list A) (body : A -> Run unit) : Run unit :=
  match xs with
  | [] => ret tt
  | x :: rest => andThen (body x) (fun _ => forEach rest body)
  end.

(** [xs.slice(0, n)] *)
Definition slice0 {A : Type} (xs : list A) (n : Z) : list A :=
  if n <? 0 then firstn (Z.to_nat (Z.of_nat (length xs) + n)) xs
  else firstn (Z.to_nat n) xs.

Definition kosisRegistration : RegistrationInfo :=
  {| url := "https://kosis.kr/openapi/index/index.jsp";
     note := "Register for KOSIS API access (Korean phone number or i-PIN required)";
     warning := "KOSIS API key registration requires Korean identity verification" |}.

Definition demoNote : string := "This is demo data for Korean statistics".

Definition demoRecord (name date cat1 cat2 : string) (val : Q)
    (unitName id kind updated : string) (cats : list (string * string))
  : NormalizedRecord :=
  {| statName := VStr name;
     surveyDate := VStr date;
     region := VStr "전국";
     category1 := VStr cat1;
     category2 := VStr cat2;
     value := Finite val;
     unit_ := VStr unitName;
     sourceTableId := VStr id;
     dataType := kind;
     lastUpdated := Provided (VStr updated);
     metadata := DemoMetadata name cats demoNote;
     extractedAt := CurrentTime |}.

Definition demoData : list NormalizedRecord :=
  [ demoRecord "인구총조사 총인구" "2020년" "총인구" "계" (51829023 # 1)
      "명" "demo_001" "population" "2021-08-31T00:00:00Z"
      [("area", "전국"); ("gender", "계")];
    demoRecord "경제활동인구조사 취업자수" "2023년 12월" "취업자" "전체"
      (28432000 # 1) "명" "demo_002" "labor" "2024-01-15T00:00:00Z"
      [("area", "전국"); ("employment", "취업자")];
    demoRecord "국내총생산(GDP)" "2023년" "실질GDP" "연간" (2080000 # 1)
      "십억원" "demo_003" "economic" "2024-03-26T00:00:00Z"
      [("type", "실질GDP"); ("period", "연간")];
    demoRecord "소비자물가지수" "2024년 8월" "총지수" "전월대비" (1023 # 10)
      "지수" "demo_004" "prices" "2024-09-01T00:00:00Z"
      [("type", "총지수"); ("comparison", "전월대비")] ].

Section Main.
Context {host : Host}.
Variable w : World.

Local Open Scope run_scope.

(** [await Actor.pushData(o)] *)
Definition emit (o : output) : Run unit :=
  fun st =>
    match pushData w (trace st) o with
    | None => (Ok tt, observe (Emit o) st)
    | Some e => (Throw e, observe (EmitFailed o e) st)
    end.

(** [await sleep(ms)] *)
Definition sleep (ms : Z) : Run unit := mark (Sleep ms).

(** *** [runDemoMode] *)

(** [v.toLowerCase().includes(keyword)]; every field of [demoData] that the
    filter reads is a string. *)
Definition lowerIncludes (v : jsvalue) (keyword : string) : bool :=
  match v with
  | VStr s => includes (toLowerCase s) keyword
  | _ => false
  end.

Definition demoMatch (keyword : string) (item : NormalizedRecord) : bool :=
  lowerIncludes (statName item) keyword
  || lowerIncludes (category1 item) keyword
  || includes (toLowerCase (dataType item)) keyword.

Definition filteredData (input : Configuration) : list NormalizedRecord :=
  let filtered :=
    if negb (searchKeyword input =? "")%string
    then filter (demoMatch (toLowerCase (searchKeyword input))) demoData
    else demoData in
  slice0 filtered (maxItems input).

Definition runDemoMode (input : Configuration) : Run unit :=
  forEach (filteredData input) (fun dataPoint => emit (DataPoint dataPoint)) ;;;
  emit (DemoSummary (length (filteredData input)) input kosisRegistration).

(** *** [buildSearchParams] *)

Definition buildSearchParams (input : Configuration) : SearchParams :=
  {| sp_vwCd := if (vwCd input =? "")%string then "MT_ZTITLE" else vwCd input;
     sp_parentId := if (parentId input =? "")%string then "A"
                    else parentId input;
     sp_searchKeyword := if (searchKeyword input =? "")%string then None
                         else Some (searchKeyword input) |}.

(** *** The loop of [mainLogic] over the tables *)

Definition resetCounters (st : State) : State :=
  {| trace := trace st; processedTables := 0; totalDataPoints := 0;
     allNormalizedData := [] |}.

Definition countTable (st : State) : State :=
  {| trace := trace st;
     processedTables := S (processedTables st);
     totalDataPoints := totalDataPoints st;
     allNormalizedData := allNormalizedData st |}.

Definition countDataPoint (st : State) : State :=
  {| trace := trace st;
     processedTables := processedTables st;
     totalDataPoints := S (totalDataPoints st);
     allNormalizedData := allNormalizedData st |}.

Definition collect (rs : list NormalizedRecord) (st : State) : State :=
  {| trace := trace st;
     processedTables := processedTables st;
     totalDataPoints := totalDataPoints st;
     allNormalizedData := allNormalizedData st ++ rs |}.

(** [table.TBL_ID || table.LIST_ID || `table_${processedTables}`] *)
Definition tableIdOf (table : jsvalue) (n : nat) : result jsvalue :=
  tbl_id <- getProp table "TBL_ID" ;;
  list_id <- getProp table "LIST_ID" ;;
  Ok (js_or (js_or tbl_id list_id)
        (VStr ("table_" ++ toString (VNum (numberOfZ (Z.of_nat n)))))).

(** [table.TBL_NM || table.LIST_NM || 'Unknown Table'] *)
Definition tableTitleOf (table : jsvalue) : result jsvalue :=
  tbl_nm <- getProp table "TBL_NM" ;;
  list_nm <- getProp table "LIST_NM" ;;
  Ok (js_or (js_or tbl_nm list_nm) (VStr "Unknown Table")).

(** [await getStatsData(apiClient, tableId, statsParams)] *)
Definition fetchStatsData (tableId orgId : jsvalue) : Run (list jsvalue) :=
  fun st =>
    (getStatsData (dataResponse w (trace st) tableId orgId) tableId,
     observe (CallGetStatsData tableId orgId) st).

Definition wantsRaw (cfg : Configuration) : bool :=
  (outputFormat cfg =? "raw")%string || (outputFormat cfg =? "both")%string.

Definition wantsStructured (cfg : Configuration) : bool :=
  (outputFormat cfg =? "structured")%string
  || (outputFormat cfg =? "both")%string.

(** The metadata step.  [getMetaInfo] builds its answer without a request
    and cannot throw, so the [catch] around it is dead. *)
Definition fetchMetadata (cfg : Configuration) (tableId : jsvalue)
  : Run table_metadata :=
  if includeMetadata cfg
  then mark (CallGetMetaInfo tableId) ;;; ret (getMetaInfo tableId)
  else ret NoMetadata.

(** The two output blocks of the [try] block. *)
Definition emitTable (cfg : Configuration) (table tableId : jsvalue)
    (meta : table_metadata) (statsData : list jsvalue) : Run unit :=
  when (wantsRaw cfg) (emit (RawOutput tableId table meta statsData)) ;;;
  when (wantsStructured cfg)
    (let normalizedData :=
       normalizeStatisticalData (VArr statsData) meta tableId in
     modify (collect normalizedData) ;;;
     forEach normalizedData
       (fun dataPoint =>
          emit (DataPoint dataPoint) ;;; modify countDataPoint)).

(** The [try] block of one iteration. *)
Definition processTableBody (cfg : Configuration) (table : jsvalue)
  : Run unit :=
  modify countTable ;;;
  n <~ gets processedTables ;;
  tableId <~ lift (tableIdOf table n) ;;
  tableTitle <~ lift (tableTitleOf table) ;;
  lift (logLine tableTitle) ;;;
  meta <~ fetchMetadata cfg tableId ;;
  org_id <~ lift (getProp table "ORG_ID") ;;
  statsData <~ fetchStatsData tableId (js_or org_id (VStr "101")) ;;
  emitTable cfg table tableId meta statsData ;;;
  sleep (delayBetweenRequests cfg).

(** The [catch (tableError)] block of one iteration. *)
Definition processTableCatch (cfg : Configuration) (table : jsvalue)
    (tableError : Error) : Run unit :=
  n <~ gets processedTables ;;
  tableId <~ lift (tableIdOf table n) ;;
  tableTitle <~ lift (tableTitleOf table) ;;
  lift (logLine tableId) ;;;
  emit (TableError tableId tableTitle (message tableError)).

Definition processTable (cfg : Configuration) (table : jsvalue) : Run unit :=
  tryCatch (processTableBody cfg table) (processTableCatch cfg table).

(** *** [mainLogic] *)

(** [process.env.KOSIS_API_KEY || await Actor.getValue('KOSIS_API_KEY')] *)
Definition kosisApiKey : jsvalue :=
  match envKey w with
  | Some key => js_or (VStr key) (storedKey w)
  | None => storedKey w
  end.

(** [logProgress(`Found ${statsList.length} statistical tables`)]: the
    length of an array or of a string is a number; that of an object is
    what its [length] property holds, and is converted as it is. *)
Definition logFound (statsList : jsvalue) : result unit :=
  match statsList with
  | VUndefined | VNull => typeError (ReadOfNullish statsList "length")
  | VObj props => logLine (lookup "length" props)
  | _ => Ok tt
  end.

(** [statsList.length === 0] *)
Definition lengthIsZero (statsList : jsvalue) : result bool :=
  match statsList with
  | VUndefined | VNull => typeError (ReadOfNullish statsList "length")
  | VArr tables => Ok (match tables with [] => true | _ => false end)
  | VStr s => Ok (s =? "")%string
  | VObj props =>
      Ok (match lookup "length" props with
          | VNum (Finite q) => Qeq_bool q 0
          | _ => false
          end)
  | _ => Ok false
  end.

(** [statsList.slice(0, n)], as the sequence the loop iterates. *)
Definition sliceTables (statsList : jsvalue) (n : Z)
  : result (list jsvalue) :=
  match statsList with
  | VUndefined | VNull => typeError (ReadOfNullish statsList "slice")
  | VArr tables => Ok (slice0 tables n)
  | VStr s => Ok (map VStr (sliceChars s n))
  | _ => typeError (NotAFunction "statsList.slice")
  end.

(** [await renderChart(allNormalizedData)] *)
Definition chart (data : list NormalizedRecord) : Run unit :=
  fun st =>
    (match renderChart w (trace st) data with
     | None => Ok tt
     | Some e => Throw e
     end,
     observe (RenderChart data) st).

(** The outer [try] block. *)
Definition liveRun (cfg : Configuration) : Run unit :=
  lift (createKosisApiClient kosisApiKey) ;;;
  let searchParams := buildSearchParams cfg in
  mark (CallGetStatsList searchParams) ;;;
  statsList <~ lift (getStatsList (listResponse w searchParams)) ;;
  lift (logFound statsList) ;;;
  empty <~ lift (lengthIsZero statsList) ;;
  if empty then emit (NoData searchParams)
  else
    tablesToProcess <~ lift (sliceTables statsList (maxItems cfg)) ;;
    modify resetCounters ;;;
    forEach tablesToProcess (processTable cfg) ;;;
    data <~ gets allNormalizedData ;;
    when (negb (Nat.eqb (length data) 0)) (chart data) ;;;
    tables <~ gets processedTables ;;
    points <~ gets totalDataPoints ;;
    emit (Summary tables points cfg).

(** The test of the outer [catch]. *)
Definition authFailure (msg : string) : bool :=
  includes msg "403" || includes msg "401" || includes msg "API".

(** The outer [catch (error)] block. *)
Definition fallback (cfg : Configuration) (error : Error) : Run unit :=
  if authFailure (message error) then runDemoMode cfg
  else emit (RunError (message error) cfg) ;;; runDemoMode cfg.

Definition mainLogic : Run unit :=
  validatedInput <~ lift (validateInput (js_or (actorInput w) (VObj []))) ;;
  if negb (truthy kosisApiKey) then runDemoMode validatedInput
  else tryCatch (liveRun validatedInput) (fallback validatedInput).

End Main.

(** ** An executable host

    [node] computes the built-ins on the inputs of the worked examples, and
    is meant for nothing else.  It agrees with the engine on: ASCII letters
    and caseless scripts such as Hangul for [toLowerCase]; every string for
    [trim]; text of the Basic Multilingual Plane for [sliceChars]; the
    messages of V8 for engine errors.  Numbers are exact integers and
    rationals here and doubles in the engine, so [parseInt] and
    [parseFloat] agree with it only where the number written is a double
    (integers of magnitude up to 2^53, short decimals such as 12.5), and
    not where the engine rounds or overflows to [Infinity]; [toString]
    agrees with it on integers of magnitude below 1e21 and on fractions
    with a short decimal expansion, and not where the engine switches to
    exponent notation or to the shortest digits of a double. *)

Module Node.

Definition byte (c : ascii) : Z := Z.of_nat (nat_of_ascii c).

Definition bytes (codes : list nat) : string :=
  string_of_list_ascii (map ascii_of_nat codes).

Definition lowerAscii (c : ascii) : ascii :=
  if (65 <=? byte c) && (byte c <=? 90)
  then ascii_of_nat (nat_of_ascii c + 32) else c.

Fixpoint toLowerCase (s : string) : string :=
  match s with
  | EmptyString => EmptyString
  | String c rest => String (lowerAscii c) (toLowerCase rest)
  end.

(** White space and line terminators, in UTF-8. *)
Definition whiteSpace : list string :=
  map bytes
    [ [9]; [10]; [11]; [12]; [13]; [32]; [194; 160]; [225; 154; 128];
      [226; 128; 128]; [226; 128; 129]; [226; 128; 130]; [226; 128; 131];
      [226; 128; 132]; [226; 128; 133]; [226; 128; 134]; [226; 128; 135];
      [226; 128; 136]; [226; 128; 137]; [226; 128; 138]; [226; 128; 168];
      [226; 128; 169]; [226; 128; 175]; [226; 129; 159];
      [227; 128; 128]; [239; 187; 191] ]%nat.

Fixpoint dropBytes (n : nat) (s : string) : string :=
  match n, s with
  | S k, String _ rest => dropBytes k rest
  | _, _ => s
  end.

Fixpoint stripWith (marks : list string) (fuel : nat) (s : string) : string :=
  match fuel with
  | O => s
  | S fuel' =>
      match find (fun m => prefix m s) marks with
      | Some m => stripWith marks fuel' (dropBytes (String.length m) s)
      | None => s
      end
  end.

Definition reverse (s : string) : string :=
  string_of_list_ascii (rev (list_ascii_of_string s)).

Definition stripLeading (s : string) : string :=
  stripWith whiteSpace (String.length s) s.

Definition trim (s : string) : string :=
  let t := stripLeading s in
  reverse (stripWith (map reverse whiteSpace) (String.length t) (reverse t)).

Definition digitOf (radix : Z) (c : ascii) : option Z :=
  let n := byte c in
  let d := if (48 <=? n) && (n <=? 57) then n - 48
           else if (97 <=? n) && (n <=? 122) then n - 87
           else if (65 <=? n) && (n <=? 90) then n - 55
           else radix in
  if d <? radix then Some d else None.

(** The leading digits of [s], their count, and what follows them. *)
Fixpoint spanDigits (radix : Z) (s : string) (acc : Z) (count : nat)
  : Z * nat * string :=
  match s with
  | EmptyString => (acc, count, s)
  | String c rest =>
      match digitOf radix c with
      | Some d => spanDigits radix rest (acc * radix + d) (S count)
      | None => (acc, count, s)
      end
  end.

Definition takeSign (s : string) : bool * string :=
  match s with
  | String "-" rest => (true, rest)
  | String "+" rest => (false, rest)
  | _ => (false, s)
  end.

Definition parseIntString (s : string) : option Z :=
  let '(negative, body) := takeSign (stripLeading s) in
  let '(radix, body) :=
    if prefix "0x" body || prefix "0X" body then (16, dropBytes 2 body)
    else (10, body) in
  let '(n, count, _) := spanDigits radix body 0 0 in
  match count with
  | O => None
  | _ => Some (if negative then - n else n)
  end.

Definition pow10 (e : Z) : Q :=
  if e <? 0 then 1 # Z.to_pos (10 ^ (- e)) else inject_Z (10 ^ e).

Definition parseFloatString (s : string) : number :=
  let '(negative, body) := takeSign (stripLeading s) in
  if prefix "Infinity" body then Infinity negative
  else
    let '(whole, wholeCount, afterWhole) := spanDigits 10 body 0 0 in
    let '(frac, fracCount, afterFrac) :=
      match afterWhole with
      | String "." rest => spanDigits 10 rest 0 0
      | _ => (0, O, afterWhole)
      end in
    match wholeCount, fracCount with
    | O, O => NaN
    | _, _ =>
        let exponent :=
          match afterFrac with
          | String c rest =>
              if (byte c =? 101) || (byte c =? 69)
              then let '(expNegative, expBody) := takeSign rest in
                   let '(e, eCount, _) := spanDigits 10 expBody 0 0 in
                   match eCount with
                   | O => 0
                   | _ => if expNegative then - e else e
                   end
              else 0
          | EmptyString => 0
          end in
        let mantissa :=
          Qplus (inject_Z whole)
                (Qmult (inject_Z frac) (pow10 (- Z.of_nat fracCount))) in
        let magnitude := Qred (Qmult mantissa (pow10 exponent)) in
        Finite (if negative then Qopp magnitude else magnitude)
    end.

Definition decimal (z : Z) : string := NilZero.string_of_int (Z.to_int z).

(** The fractional digits of [r / d], at most [fuel] of them. *)
Fixpoint fraction (fuel : nat) (r d : Z) : string :=
  match fuel with
  | O => EmptyString
  | S fuel' =>
      if r =? 0 then EmptyString
      else (decimal ((r * 10 / d)%Z) ++ fraction fuel' ((r * 10) mod d)%Z d)%string
  end.

Definition numberToString (n : number) : string :=
  match n with
  | NaN => "NaN"
  | Infinity negative => if negative then "-Infinity" else "Infinity"
  | Finite q =>
      let num := Qnum (Qred q) in
      let den := Zpos (Qden (Qred q)) in
      let whole := Z.abs num / den in
      let rest := Z.abs num mod den in
      ((if (num <? 0)%Z then "-" else "") ++ decimal whole
       ++ (if (rest =? 0)%Z then "" else "." ++ fraction 20 rest den))%string
  end.

Fixpoint toString (v : jsvalue) : string :=
  match v with
  | VUndefined => "undefined"
  | VNull => "null"
  | VBool b => if b then "true" else "false"
  | VNum n => numberToString n
  | VStr s => s
  | VArr elems =>
      (fix join (xs : list jsvalue) : string :=
         match xs with
         | [] => ""
         | x :: rest =>
             ((match x with
               | VUndefined | VNull => ""
               | _ => toString x
               end)
              ++ match rest with
                 | [] => ""
                 | _ => "," ++ join rest
                 end)%string
         end) elems
  | VObj _ => "[object Object]"
  end.

Definition parseInt (v : jsvalue) : option Z := parseIntString (toString v).

Definition parseFloat (v : jsvalue) : number := parseFloatString (toString v).

Definition typeErrorMessage (t : type_error) : string :=
  match t with
  | ReadOfNullish base prop =>
      ("Cannot read properties of " ++ toString base
       ++ " (reading '" ++ prop ++ "')")%string
  | NotAFunction callee => (callee ++ " is not a function")%string
  | NotPrimitive => "Cannot convert object to primitive value"
  end.

Definition isContinuation (s : string) : bool :=
  match s with
  | String c _ => (128 <=? byte c) && (byte c <? 192)
  | EmptyString => false
  end.

(** The characters of UTF-8 text. *)
Fixpoint chars (s : string) : list string :=
  match s with
  | EmptyString => []
  | String c rest =>
      if isContinuation rest
      then match chars rest with
           | first :: others => String c first :: others
           | [] => [String c EmptyString]
           end
      else String c EmptyString :: chars rest
  end.

Definition sliceChars (s : string) (n : Z) : list string :=
  slice0 (chars s) n.

End Node.

#[export] Instance node : Host := {|
  toLowerCase := Node.toLowerCase;
  trim := Node.trim;
  parseInt := Node.parseInt;
  parseFloat := Node.parseFloat;
  toString := Node.toString;
  typeErrorMessage := Node.typeErrorMessage;
  sliceChars := Node.sliceChars;
  parseInt_undefined := eq_refl
|}.

(** * The vocabulary of the specification *)

(** ** The specification's view of the classifier *)

(** The keyword sets, in the order in which they are tried. *)
Definition keywordSets : list (string * list string) :=
  [ ("population", ["인구"; "population"]);
    ("economic", ["경제"; "gdp"; "경제성장"]);
    ("labor", ["노동"; "고용"; "취업"]);
    ("industry", ["산업"; "제조업"]);
    ("education", ["교육"; "학교"]);
    ("health", ["의료"; "보건"; "건강"]);
    ("environment", ["환경"; "오염"]);
    ("housing", ["주택"; "부동산"]);
    ("income", ["소득"; "소비"; "가계"]);
    ("prices", ["물가"; "가격"]) ].

(** First set with a keyword occurring in [name] wins; none: "general". *)
Fixpoint classify (sets : list (string * list string)) (name : string)
  : string :=
  match sets with
  | [] => "general"
  | (category, keywords) :: rest =>
      if existsb (includes name) keywords then category
      else classify rest name
  end.


(** ** Inputs of the validator *)

Definition isNullish (v : jsvalue) : bool :=
  match v with
  | VUndefined | VNull => true
  | _ => false
  end.

(** The value that [input.key] reads when [input] is not [null] or
    [undefined]. *)
Definition field (input : jsvalue) (key : string) : jsvalue :=
  match input with
  | VObj props => lookup key props
  | _ => VUndefined
  end.

(** Absent, [null] or a string: what [?.trim()] accepts. *)
Definition trimmable (v : jsvalue) : bool :=
  match v with
  | VUndefined | VNull | VStr _ => true
  | _ => false
  end.

Definition stringFieldsOk (input : jsvalue) : bool :=
  negb (isNullish input)
  && trimmable (field input "searchKeyword")
  && trimmable (field input "vwCd")
  && trimmable (field input "parentId").

(** The inputs on which nothing in [validateInput] throws: the text fields
    can be trimmed and the numeric fields can be handed to [parseInt]. *)
Definition validatable (input : jsvalue) : bool :=
  stringFieldsOk input
  && stringable (field input "maxItems")
  && stringable (field input "delayBetweenRequests").

(** A request error whose message [handleApiError] can put in a string. *)
Definition conveyable (error : RequestError) : bool :=
  match response error with
  | Some (_, data) => stringable (apiErrorMsg data)
  | None => true
  end.

(** What the [catch] block of [getStatsList] and of [getStatsData] hands to
    [handleApiError] when the request does not end in a body they take: the
    rejection, or their own complaint about the body. *)
Definition failureOf (http : axios_result) : RequestError :=
  match http with
  | Rejected error => error
  | Resolved _ => plainError "Invalid response format from KOSIS API"
  end.

(** A table descriptor that is not [null] and whose id and title, as the
    loop reads them, can be put in a log line. *)
Definition describable (table : jsvalue) : bool :=
  negb (isNullish table)
  && stringable (js_or (field table "TBL_ID") (field table "LIST_ID"))
  && stringable (js_or (field table "TBL_NM") (field table "LIST_NM")).

Section Vocabulary.
Context {host : Host}.

Definition trimmed (v : jsvalue) : option string :=
  match v with
  | VStr s => Some (trim s)
  | _ => None
  end.

(** The configuration that [validateInput] builds when it returns. *)
Definition configurationOf (input : jsvalue) : Configuration :=
  {| searchKeyword := strOr (trimmed (field input "searchKeyword")) "";
     vwCd := strOr (trimmed (field input "vwCd")) "MT_ZTITLE";
     parentId := strOr (trimmed (field input "parentId")) "A";
     maxItems :=
       Z.min (Z.max (intOr (parseInt (field input "maxItems")) 10) 1) 100;
     includeMetadata := notFalse (field input "includeMetadata");
     outputFormat := formatOf (field input "outputFormat");
     delayBetweenRequests :=
       Z.max (intOr (parseInt (field input "delayBetweenRequests")) 1000) 500
  |}.

(** ** Batches on which the normalizer raises *)

(** The rows of a batch that the callback turns into records. *)
Definition normalizedTo (tableId : jsvalue)
  : list jsvalue -> list NormalizedRecord -> Prop :=
  Forall2 (fun item r => normalizeItem tableId item = Ok r).


(** The exception that ends the [forEach] over the batch, if one does. *)
Definition raisedBy (tableId rawData : jsvalue) : option Error :=
  snd (forEachItem tableId (rowsOf rawData) []).

(** The specification's reading of the [catch] block: whenever the batch
    raises, the result is the sentinel record and nothing else. *)
Definition sentinelOnly : Prop :=
  forall rawData meta tableId e,
    raisedBy tableId rawData = Some e ->
    normalizeStatisticalData rawData meta tableId
    = [errorRecord tableId e rawData].

End Vocabulary.

(** ** What a run shows *)

(** The delays of a history, in order. *)
Definition sleepOf (e : event) : list Z :=
  match e with
  | Sleep ms => [ms]
  | _ => []
  end.

(** The calls of the table lister. *)
Definition listCallOf (e : event) : list SearchParams :=
  match e with
  | CallGetStatsList params => [params]
  | _ => []
  end.

(** The data requests, by table id. *)
Definition dataCallOf (e : event) : list jsvalue :=
  match e with
  | CallGetStatsData tableId _ => [tableId]
  | _ => []
  end.

Definition isError (o : output) : bool :=
  match outputType o with
  | Some kind => (kind =? "error")%string
  | None => false
  end.

(** The records of type "error" offered to the sink, accepted or not. *)
Definition errorPushOf (e : event) : list output :=
  match e with
  | Emit o | EmitFailed o _ => if isError o then [o] else []
  | _ => []
  end.

Definition sleeps (history : list event) : list Z := flat_map sleepOf history.

Definition listCalls (history : list event) : list SearchParams :=
  flat_map listCallOf history.

Definition dataCalls (history : list event) : list jsvalue :=
  flat_map dataCallOf history.

Definition errorPushes (history : list event) : list output :=
  flat_map errorPushOf history.

(** A computation leaves an observation of the state as it found it. *)
Definition keeps {X A : Type} (f : State -> X) (c : Run A) : Prop :=
  forall st, f (snd (c st)) = f st.

(** The sink takes every sample record and every demo summary. *)
Definition demoShaped (o : output) : bool :=
  match o with
  | DataPoint _ | DemoSummary _ _ _ => true
  | _ => false
  end.

Definition acceptsDemo (w : World) : Prop :=
  forall history o, demoShaped o = true -> pushData w history o = None.

(** The sink takes every per-table error record. *)
Definition acceptsTableErrors (w : World) : Prop :=
  forall history tableId tableTitle error,
    pushData w history (TableError tableId tableTitle error) = None.

Section DemoVocabulary.
Context {host : Host}.

(** What the demo fallback hands to the sink. *)
Definition demoOutputs (cfg : Configuration) : list output :=
  map DataPoint (filteredData cfg)
  ++ [DemoSummary (length (filteredData cfg)) cfg kosisRegistration].

(** The specification's selection: the records of the pool that match the
    keyword, case ignored, on name, category or data type (all of them for
    the empty keyword), cut to the first [maxItems], in pool order. *)
Definition matchesKeyword (keyword : string) (r : NormalizedRecord) : bool :=
  (keyword =? "")%string
  || lowerIncludes (statName r) (toLowerCase keyword)
  || lowerIncludes (category1 r) (toLowerCase keyword)
  || includes (toLowerCase (dataType r)) (toLowerCase keyword).

Definition selectBySpec (cfg : Configuration) : list NormalizedRecord :=
  firstn (Z.to_nat (maxItems cfg))
    (filter (matchesKeyword (searchKeyword cfg)) demoData).

End DemoVocabulary.

(** ** One iteration of the loop, for a descriptor that is not [null] *)

Section LoopVocabulary.
Context {host : Host}.
Variable w : World.

(** The id and the title under which a table is reported. *)
Definition tableLabel (table : jsvalue) (n : nat) : jsvalue :=
  js_or (js_or (field table "TBL_ID") (field table "LIST_ID"))
    (VStr ("table_" ++ toString (VNum (numberOfZ (Z.of_nat n))))).

Definition tableTitle (table : jsvalue) : jsvalue :=
  js_or (js_or (field table "TBL_NM") (field table "LIST_NM"))
    (VStr "Unknown Table").

Definition metadataFor (cfg : Configuration) (tableId : jsvalue)
  : table_metadata :=
  if includeMetadata cfg then getMetaInfo tableId else NoMetadata.

Definition afterMetadata (cfg : Configuration) (tableId : jsvalue)
    (st : State) : State :=
  if includeMetadata cfg then observe (CallGetMetaInfo tableId) st else st.

(** The ids of the tables of a loop that starts with [n] tables counted. *)
Fixpoint labels (tables : list jsvalue) (n : nat) : list jsvalue :=
  match tables with
  | [] => []
  | table :: rest => tableLabel table (S n) :: labels rest (S n)
  end.

(** A computation that sleeps [ms] as its last step, and not before, when
    it completes, and not at all when it throws. *)
Definition sleepsLast (ms : Z) (c : Run unit) : Prop :=
  forall st,
    match c st with
    | (Ok _, st') =>
        exists st1,
          st' = observe (Sleep ms) st1
          /\ sleeps (trace st1) = sleeps (trace st)
    | (Throw _, st') => sleeps (trace st') = sleeps (trace st)
    end.

End LoopVocabulary.

(** The specification's reading of the rate limit: one delay after each
    table but the last. *)
Definition claimedDelays (ms : Z) (tables : list jsvalue) : list Z :=
  repeat ms (length tables - 1).

Section RateLimitVocabulary.
Context {host : Host}.

(** The rate limit as the specification words it, over the loop of one
    run. *)
Definition rateLimitAsSpecified (w : World) : Prop :=
  forall cfg tables st,
    sleeps (trace (snd (forEach tables (processTable w cfg) st)))
    = (sleeps (trace st)
       ++ claimedDelays (delayBetweenRequests cfg) tables)%list.

End RateLimitVocabulary.

(** * Worked runs *)

(** A data row about population in a region. *)
Definition populationRow : jsvalue :=
  VObj [("TBL_NM", VStr "인구 Population"); ("DT", VStr "12.5");
        ("C1_NM", VStr "서울 지역")].

Definition tableA : jsvalue := VObj [("TBL_ID", VStr "A")].
Definition tableB : jsvalue := VObj [("TBL_ID", VStr "B")].

(** The configuration of an empty input. *)
Definition defaultConfiguration : Configuration :=
  {| searchKeyword := ""; vwCd := "MT_ZTITLE"; parentId := "A";
     maxItems := 10; includeMetadata := true; outputFormat := "structured";
     delayBetweenRequests := 1000 |}.

Definition serverError : RequestError :=
  {| response := Some (500, VObj [("message", VStr "boom")]);
     request := true;
     errorMessage := "Request failed with status code 500" |}.

Definition unauthorized : RequestError :=
  {| response := Some (401, VObj [("error", VStr "Unauthorized")]);
     request := true;
     errorMessage := "Request failed with status code 401" |}.

(** No credential; the input asks for "GDP". *)
Definition noKeyWorld : World :=
  {| actorInput := VObj [("searchKeyword", VStr " GDP ")];
     envKey := None;
     storedKey := VNull;
     listResponse := fun _ => Resolved (VArr []);
     dataResponse := fun _ _ _ => Resolved (VArr []);
     pushData := fun _ _ => None;
     renderChart := fun _ _ => None |}.

(** A credential, one table, every call succeeds. *)
Definition oneTableWorld : World :=
  {| actorInput := VNull;
     envKey := Some "key";
     storedKey := VNull;
     listResponse := fun _ => Resolved (VArr [tableA]);
     dataResponse := fun _ _ _ => Resolved (VArr [populationRow]);
     pushData := fun _ _ => None;
     renderChart := fun _ _ => None |}.

(** A credential, two tables; the data request of the first is answered
    with status 500. *)
Definition firstFailsWorld : World :=
  {| actorInput := VNull;
     envKey := Some "key";
     storedKey := VNull;
     listResponse := fun _ => Resolved (VArr [tableA; tableB]);
     dataResponse := fun _ tableId _ =>
       if strEq tableId "A" then Rejected serverError
       else Resolved (VArr [populationRow]);
     pushData := fun _ _ => None;
     renderChart := fun _ _ => None |}.

(** A credential that the listing endpoint refuses. *)
Definition unauthorizedWorld : World :=
  {| actorInput := VNull;
     envKey := None;
     storedKey := VStr "stale-key";
     listResponse := fun _ => Rejected unauthorized;
     dataResponse := fun _ _ _ => Resolved (VArr []);
     pushData := fun _ _ => None;
     renderChart := fun _ _ => None |}.

(** A credential, one table, and a chart renderer that fails. *)
Definition chartFailsWorld : World :=
  {| actorInput := VNull;
     envKey := Some "key";
     storedKey := VNull;
     listResponse := fun _ => Resolved (VArr [tableA]);
     dataResponse := fun _ _ _ => Resolved (VArr [populationRow]);
     pushData := fun _ _ => None;
     renderChart := fun _ _ =>
       Some (mkError "Actor.openCanvas is not a function") |}.

(** A credential, one table, both output formats, and a sink that refuses
    raw records. *)
Definition rawRefusedWorld : World :=
  {| actorInput := VObj [("outputFormat", VStr "both")];
     envKey := Some "key";
     storedKey := VNull;
     listResponse := fun _ => Resolved (VArr [tableA; tableB]);
     dataResponse := fun _ _ _ => Resolved (VArr [populationRow]);
     pushData := fun _ o =>
       match o with
       | RawOutput (VStr "A") _ _ _ => Some (mkError "Item is too large")
       | _ => None
       end;
     renderChart := fun _ _ => None |}.

(** A value that [ToString] cannot convert. *)
Definition unprintable : jsvalue := VObj [("toString", VNull)].

(** An answer of status 500 whose body carries such a value as its
    message. *)
Definition garbledError : RequestError :=
  {| response := Some (500, VObj [("message", unprintable)]);
     request := true;
     errorMessage := "Request failed with status code 500" |}.

(** A credential, and a listing endpoint that answers with it. *)
Definition garbledListingWorld : World :=
  {| actorInput := VNull;
     envKey := Some "key";
     storedKey := VNull;
     listResponse := fun _ => Rejected garbledError;
     dataResponse := fun _ _ _ => Resolved (VArr []);
     pushData := fun _ _ => None;
     renderChart := fun _ _ => None |}.

(** A descriptor whose id is such a value. *)
Definition tableX : jsvalue := VObj [("TBL_ID", unprintable)].

(** A credential, two tables; the data request of the first, whose id
    cannot be printed, is answered with status 500. *)
Definition unprintableIdWorld : World :=
  {| actorInput := VNull;
     envKey := Some "key";
     storedKey := VNull;
     listResponse := fun _ => Resolved (VArr [tableX; tableB]);
     dataResponse := fun _ tableId _ =>
       if strEq tableId "B" then Resolved (VArr [populationRow])
       else Rejected serverError;
     pushData := fun _ _ => None;
     renderChart := fun _ _ => None |}.

(** A credential, two tables, every call succeeds. *)
Definition twoTablesWorld : World :=
  {| actorInput := VNull;
     envKey := Some "key";
     storedKey := VNull;
     listResponse := fun _ => Resolved (VArr [tableA; tableB]);
     dataResponse := fun _ _ _ => Resolved (VArr [populationRow]);
     pushData := fun _ _ => None;
     renderChart := fun _ _ => None |}.

(** The same, for an input that asks for one table at most. *)
Definition truncatedWorld : World :=
  {| actorInput := VObj [("maxItems", VNum (numberOfZ 1))];
     envKey := Some "key";
     storedKey := VNull;
     listResponse := fun _ => Resolved (VArr [tableA; tableB]);
     dataResponse := fun _ _ _ => Resolved (VArr [populationRow]);
     pushData := fun _ _ => None;
     renderChart := fun _ _ => None |}.

(** The configurations of the inputs above. *)
Definition gdpConfiguration : Configuration :=
  {| searchKeyword := "GDP"; vwCd := "MT_ZTITLE"; parentId := "A";
     maxItems := 10; includeMetadata := true; outputFormat := "structured";
     delayBetweenRequests := 1000 |}.

Definition oneItemConfiguration : Configuration :=
  {| searchKeyword := ""; vwCd := "MT_ZTITLE"; parentId := "A";
     maxItems := 1; includeMetadata := true; outputFormat := "structured";
     delayBetweenRequests := 1000 |}.

(** The third record of the sample pool. *)
Definition gdpRecord : NormalizedRecord :=
  {| statName := VStr "국내총생산(GDP)";
     surveyDate := VStr "2023년";
     region := VStr "전국";
     category1 := VStr "실질GDP";
     category2 := VStr "연간";
     value := Finite (2080000 # 1);
     unit_ := VStr "십억원";
     sourceTableId := VStr "demo_003";
     dataType := "economic";
     lastUpdated := Provided (VStr "2024-03-26T00:00:00Z");
     metadata :=
       DemoMetadata "국내총생산(GDP)"
         [("type", "실질GDP"); ("period", "연간")]
         "This is demo data for Korean statistics";
     extractedAt := CurrentTime |}.

(** No credential, and an input whose keyword is a number. *)
Definition numericKeywordWorld : World :=
  {| actorInput := VObj [("searchKeyword", VNum (numberOfZ 123))];
     envKey := None;
     storedKey := VNull;
     listResponse := fun _ => Resolved (VArr []);
     dataResponse := fun _ _ _ => Resolved (VArr []);
     pushData := fun _ _ => None;
     renderChart := fun _ _ => None |}.

(** * Further vocabulary *)

(** ** Rows that the normalizer takes *)

Definition isString (v : jsvalue) : bool :=
  match v with
  | VStr _ => true
  | _ => false
  end.

(** A name field the classifier can lower-case: falsy (the default name is
    used) or a string. *)
Definition nameOk (v : jsvalue) : bool := negb (truthy v) || isString v.

(** A classification field on which [includes] can be called: falsy (the
    call is skipped), a string or an array. *)
Definition classOk (v : jsvalue) : bool :=
  negb (truthy v) || isString v || isArray v.

Definition rowOk (item : jsvalue) : bool :=
  negb (isNullish item)
  && stringable (field item "DT")
  && nameOk (field item "TBL_NM")
  && classOk (field item "C1_NM").

(** The categories the classifier can answer. *)
Definition categories : list string :=
  (map fst keywordSets ++ ["general"])%list.

(** ** More views of a history *)

Definition metaCallOf (e : event) : list jsvalue :=
  match e with
  | CallGetMetaInfo tableId => [tableId]
  | _ => []
  end.

(** The data points the sink accepted. *)
Definition pointOf (e : event) : list NormalizedRecord :=
  match e with
  | Emit (DataPoint r) => [r]
  | _ => []
  end.

(** The raw records offered to the sink, accepted or not. *)
Definition rawPushOf (e : event) : list output :=
  match e with
  | Emit (RawOutput a b c d) | EmitFailed (RawOutput a b c d) _ =>
      [RawOutput a b c d]
  | _ => []
  end.

Definition chartOf (e : event) : list (list NormalizedRecord) :=
  match e with
  | RenderChart data => [data]
  | _ => []
  end.

Definition metaCalls (history : list event) : list jsvalue :=
  flat_map metaCallOf history.

Definition points (history : list event) : list NormalizedRecord :=
  flat_map pointOf history.

Definition rawPushes (history : list event) : list output :=
  flat_map rawPushOf history.

Definition charts (history : list event) : list (list NormalizedRecord) :=
  flat_map chartOf history.

(** The events of an iteration of the loop outside its two output blocks. *)
Definition besideOutput (e : event) : bool :=
  match e with
  | CallGetMetaInfo _ | CallGetStatsData _ _ | Sleep _ => true
  | Emit (TableError _ _ _) | EmitFailed (TableError _ _ _) _ => true
  | _ => false
  end.

(** The records that close a run. *)
Definition closing (o : output) : bool :=
  match o with
  | NoData _ | Summary _ _ _ | DemoSummary _ _ _ => true
  | _ => false
  end.

(** A computation that, when it completes, has just had the sink accept a
    closing record. *)
Definition closes (c : Run unit) : Prop :=
  forall st,
    match c st with
    | (Ok _, st') =>
        exists st1 o, st' = observe (Emit o) st1 /\ closing o = true
    | (Throw _, _) => True
    end.

(** The count of data points is ahead of the accepted ones by what it was
    at the start. *)
Definition pointsLead (st : State) : Z :=
  Z.of_nat (totalDataPoints st) - Z.of_nat (length (points (trace st))).

Section MoreLoopVocabulary.
Context {host : Host}.
Variable w : World.

(** What the outer [try] block does once the loop is over. *)
Definition afterLoop (cfg : Configuration) : Run unit :=
  andThen (gets allNormalizedData) (fun data =>
  andThen (when (negb (Nat.eqb (length data) 0)) (chart w data)) (fun _ =>
  andThen (gets processedTables) (fun tables =>
  andThen (gets totalDataPoints) (fun points =>
  emit w (Summary tables points cfg))))).

(** The sink takes whatever it is offered. *)
Definition acceptsAll : Prop :=
  forall history o, pushData w history o = None.

(** Every data request is answered with an array. *)
Definition dataAvailable : Prop :=
  forall history tableId orgId,
    exists rows, dataResponse w history tableId orgId = Resolved (VArr rows).

Definition chartWorks : Prop :=
  forall history data, renderChart w history data = None.

End MoreLoopVocabulary.

(** ** More worked runs *)

(** The record the normalizer makes of [populationRow] for table "T1". *)
Definition populationRecord : NormalizedRecord :=
  {| statName := VStr "인구 Population";
     surveyDate := VStr "Unknown Period";
     region := VStr "서울 지역";
     category1 := VStr "서울 지역";
     category2 := VStr "";
     value := Finite (25 # 2);
     unit_ := VStr "";
     sourceTableId := VStr "T1";
     dataType := "population";
     lastUpdated := CurrentTime;
     metadata := RowMetadata (VStr "인구 Population") (VStr "서울 지역")
                   VUndefined VUndefined VUndefined populationRow;
     extractedAt := CurrentTime |}.

Definition rawConfiguration : Configuration :=
  {| searchKeyword := ""; vwCd := "MT_ZTITLE"; parentId := "A";
     maxItems := 10; includeMetadata := false; outputFormat := "raw";
     delayBetweenRequests := 1000 |}.

(** A credential and a listing that comes back empty. *)
Definition emptyListWorld : World :=
  {| actorInput := VNull;
     envKey := Some "key";
     storedKey := VNull;
     listResponse := fun _ => Resolved (VArr []);
     dataResponse := fun _ _ _ => Resolved (VArr []);
     pushData := fun _ _ => None;
     renderChart := fun _ _ => None |}.

(** A credential and a listing that comes back as text; at most two tables
    are asked for. *)
Definition textListWorld : World :=
  {| actorInput := VObj [("maxItems", VNum (numberOfZ 2))];
     envKey := Some "key";
     storedKey := VNull;
     listResponse := fun _ => Resolved (VStr "<html>");
     dataResponse := fun _ _ _ => Resolved (VArr []);
     pushData := fun _ _ => None;
     renderChart := fun _ _ => None |}.

(** A credential and a listing that comes back as an object with a
    [length]. *)
Definition arrayLikeWorld : World :=
  {| actorInput := VNull;
     envKey := Some "key";
     storedKey := VNull;
     listResponse := fun _ =>
       Resolved (VObj [("length", VNum (numberOfZ 3))]);
     dataResponse := fun _ _ _ => Resolved (VArr []);
     pushData := fun _ _ => None;
     renderChart := fun _ _ => None |}.
(** * Properties of [utils.js] *)

Local Open Scope list_scope.

(** ** Substring tests *)

Lemma prefix_app (needle hay extra : string) :
  prefix needle hay = true -> prefix needle (hay ++ extra)%string = true.
Proof.
  revert hay; induction needle as [|c needle IH]; intros hay H.
  - destruct (hay ++ extra)%string; reflexivity.
  - destruct hay as [|d hay]; simpl in *; [discriminate|].
    destruct (ascii_dec c d); [apply IH; exact H | discriminate].
Qed.

Lemma includes_empty (hay : string) : includes hay "" = true.
Proof. destruct hay; reflexivity. Qed.

Lemma includes_app_l (hay extra needle : string) :
  includes hay needle = true -> includes (hay ++ extra)%string needle = true.
Proof.
  induction hay as [|c hay IH]; intros H.
  - change (prefix needle "" || false = true) in H.
    rewrite orb_false_r in H.
    destruct needle; [apply includes_empty | discriminate H].
  - change (prefix needle (String c hay) || includes hay needle = true) in H.
    change (prefix needle (String c hay ++ extra)%string
            || includes (hay ++ extra)%string needle = true).
    apply orb_true_iff in H as [H | H].
    + rewrite (prefix_app _ _ extra H). reflexivity.
    + rewrite (IH H). apply orb_true_r.
Qed.

Section UtilsFacts.
Context {host : Host}.

Lemma determineDataType_classify (statName : string) :
  determineDataType (VStr statName)
  = Ok (classify keywordSets (toLowerCase statName)).
Proof.
  unfold determineDataType, toLowerCaseOf, bind, keywordSets, classify, existsb.
  generalize (toLowerCase statName) as name; intros name.
  repeat match goal with
         | |- context [includes name ?keyword] =>
             destruct (includes name keyword); cbn [orb]; try reflexivity
         end.
Qed.

(** C10.  On every string, [determineDataType] returns, without failing, the
    category of the first keyword set (population, economic, labor,
    industry, education, health, environment, housing, income, prices) one
    of whose keywords occurs in the lower-cased name, and "general" when
    none does.  Names with the same lower-casing, so names that differ only
    in case, are classified alike. *)
Theorem determineDataType_first_match (statName : string) :
  determineDataType (VStr statName)
  = Ok (classify keywordSets (toLowerCase statName))
  /\ forall other,
       toLowerCase other = toLowerCase statName ->
       determineDataType (VStr other) = determineDataType (VStr statName).
Proof.
  split; [apply determineDataType_classify|].
  intros other H. rewrite !determineDataType_classify, H. reflexivity.
Qed.

(** ** [handleApiError] *)

Lemma toStringOf_ok (v : jsvalue) :
  stringable v = true -> toStringOf v = Ok (toString v).
Proof. intros H. unfold toStringOf. rewrite H. reflexivity. Qed.

Lemma toStringOf_throws (v : jsvalue) :
  stringable v = false -> toStringOf v = typeError NotPrimitive.
Proof. intros H. unfold toStringOf. rewrite H. reflexivity. Qed.

Lemma logLine_ok (v : jsvalue) :
  stringable v = true -> logLine v = Ok tt.
Proof. intros H. unfold logLine. rewrite (toStringOf_ok v H). reflexivity. Qed.

Lemma logLine_throws (v : jsvalue) :
  stringable v = false -> logLine v = typeError NotPrimitive.
Proof.
  intros H. unfold logLine. rewrite (toStringOf_throws v H). reflexivity.
Qed.

(** Every falsy value is a primitive. *)
Lemma falsy_stringable (v : jsvalue) : truthy v = false -> stringable v = true.
Proof. destruct v; simpl; intros H; try reflexivity; discriminate H. Qed.

(** An error whose message can be put in a string leaves [handleApiError]
    with the tag. *)
Lemma handleApiError_tagged (error : RequestError) (context : string) :
  conveyable error = true ->
  includes (message (handleApiError error context)) "API" = true.
Proof.
  unfold handleApiError, conveyable.
  destruct (response error) as [[status data]|]; [|destruct (request error)];
    intros H; rewrite ?(toStringOf_ok _ H); simpl message;
    apply (includes_app_l "KOSIS API Error ("); reflexivity.
Qed.

(** One whose message cannot leaves it as the [TypeError] of the template
    literal. *)
Lemma handleApiError_untagged (error : RequestError) (context : string) :
  conveyable error = false ->
  handleApiError error context = mkError (typeErrorMessage NotPrimitive).
Proof.
  unfold handleApiError, conveyable.
  destruct (response error) as [[status data]|]; [|discriminate].
  intros H. rewrite (toStringOf_throws _ H). reflexivity.
Qed.

Lemma getStatsList_throws (http : axios_result) (e : Error) :
  getStatsList http = Throw e ->
  e = handleApiError (failureOf http) "getStatsList".
Proof.
  unfold getStatsList. destruct http as [data|error]; simpl.
  - destruct (truthy data && isArray data); [discriminate|].
    destruct (truthy data && hasLength data); [discriminate|].
    intros H; inversion H. reflexivity.
  - intros H; inversion H. reflexivity.
Qed.

Lemma getStatsList_throws_tagged (http : axios_result) (e : Error) :
  getStatsList http = Throw e ->
  conveyable (failureOf http) = true ->
  includes (message e) "API" = true.
Proof.
  intros H Hmsg. rewrite (getStatsList_throws http e H).
  apply handleApiError_tagged, Hmsg.
Qed.

End UtilsFacts.

Section ValidatorFacts.
Context {host : Host}.

Lemma getProp_field (input : jsvalue) (key : string) :
  isNullish input = false -> getProp input key = Ok (field input key).
Proof. destruct input; simpl; intros H; try discriminate; reflexivity. Qed.

Lemma optTrim_trimmable (expr : string) (v : jsvalue) :
  trimmable v = true -> optTrim expr v = Ok (trimmed v).
Proof. destruct v; simpl; intros H; try discriminate; reflexivity. Qed.

Lemma optTrim_untrimmable (expr : string) (v : jsvalue) :
  trimmable v = false -> optTrim expr v = typeError (NotAFunction expr).
Proof. destruct v; simpl; intros H; try discriminate; reflexivity. Qed.

Lemma parseIntOf_ok (v : jsvalue) :
  stringable v = true -> parseIntOf v = Ok (parseInt v).
Proof. intros H. unfold parseIntOf. rewrite H. reflexivity. Qed.

Lemma parseIntOf_throws (v : jsvalue) :
  stringable v = false -> parseIntOf v = typeError NotPrimitive.
Proof. intros H. unfold parseIntOf. rewrite H. reflexivity. Qed.

Lemma validateInput_ok (input : jsvalue) :
  validatable input = true ->
  validateInput input = Ok (configurationOf input).
Proof.
  unfold validatable, stringFieldsOk. intros H.
  repeat (apply andb_true_iff in H as [H ?]).
  apply negb_true_iff in H.
  unfold validateInput.
  repeat (rewrite (getProp_field input) by assumption; cbn [bind];
          rewrite ?optTrim_trimmable by assumption;
          rewrite ?parseIntOf_ok by assumption; cbn [bind]).
  reflexivity.
Qed.

Lemma clamp_maxItems (n : option Z) :
  1 <= Z.min (Z.max (intOr n 10) 1) 100 <= 100.
Proof. lia. Qed.

Lemma formatOf_cases (v : jsvalue) :
  In (formatOf v) ["structured"; "raw"; "both"].
Proof.
  destruct v; simpl; auto.
  destruct (String.eqb_spec s "structured"); [subst; simpl; auto|].
  destruct (String.eqb_spec s "raw"); [subst; simpl; auto|].
  destruct (String.eqb_spec s "both"); [subst; simpl; auto|].
  simpl; auto.
Qed.

(** Whenever [validateInput] returns, every field is within its bounds. *)
Lemma validateInput_bounds (input : jsvalue) (cfg : Configuration) :
  validateInput input = Ok cfg ->
  1 <= maxItems cfg <= 100
  /\ 500 <= delayBetweenRequests cfg
  /\ In (outputFormat cfg) ["structured"; "raw"; "both"].
Proof.
  unfold validateInput, bind. intros H.
  repeat match type of H with
         | match ?c with Ok _ => _ | Throw _ => _ end = _ =>
             destruct c; [|discriminate H]
         end.
  inversion H; subst; clear H; simpl.
  split; [apply clamp_maxItems|].
  split; [lia | apply formatOf_cases].
Qed.

(** C3.  [validateInput] does not survive a wrongly typed text field: on an
    input whose [searchKeyword] is the number 123, and on one whose [vwCd]
    is [true], it throws the engine's "is not a function" error instead of
    returning a configuration. *)
Theorem validateInput_throws_on_wrong_type :
  validateInput (VObj [("searchKeyword", VNum (numberOfZ 123))])
  = Throw (mkError
             (typeErrorMessage (NotAFunction "input.searchKeyword?.trim")))
  /\ validateInput (VObj [("vwCd", VBool true)])
     = Throw (mkError (typeErrorMessage (NotAFunction "input.vwCd?.trim"))).
Proof. split; reflexivity. Qed.

(** C7.  [validateInput] does not give every input a [maxItems]: on an
    input whose [maxItems] is an object that cannot be converted to a
    string, here one with a [toString] entry of its own, or an array that
    holds one, [parseInt] throws the engine's "Cannot convert object to
    primitive value" and no configuration is returned, where the default
    10 is expected.  The same happens for [delayBetweenRequests]. *)
Theorem validateInput_throws_on_unprintable_maxItems :
  validateInput (VObj [("maxItems", VObj [("toString", VNull)])])
  = Throw (mkError (typeErrorMessage NotPrimitive))
  /\ validateInput (VObj [("maxItems", VArr [VObj [("toString", VNull)]])])
     = Throw (mkError (typeErrorMessage NotPrimitive))
  /\ validateInput
       (VObj [("delayBetweenRequests", VObj [("toString", VNull)])])
     = Throw (mkError (typeErrorMessage NotPrimitive)).
Proof. repeat split; reflexivity. Qed.

(** X24.  On the inputs that validation lets through, [maxItems] lies in
    [1, 100]: 100 when [parseInt] of the field is above 100, 1 when it is
    below 1 and not zero, the parsed value in between, and the default 10
    when the field is absent or parses to zero or to nothing. *)
Theorem validateInput_maxItems_clamped (input : jsvalue) :
  validatable input = true ->
  exists cfg,
    validateInput input = Ok cfg
    /\ 1 <= maxItems cfg <= 100
    /\ (forall n, parseInt (field input "maxItems") = Some n ->
          (100 < n -> maxItems cfg = 100)
          /\ (n < 1 -> n <> 0 -> maxItems cfg = 1)
          /\ (1 <= n <= 100 -> maxItems cfg = n)
          /\ (n = 0 -> maxItems cfg = 10))
    /\ (parseInt (field input "maxItems") = None -> maxItems cfg = 10)
    /\ (field input "maxItems" = VUndefined -> maxItems cfg = 10).
Proof.
  intros H. exists (configurationOf input).
  split; [apply validateInput_ok; exact H|].
  split; [apply clamp_maxItems|].
  simpl. split; [|split].
  - intros n Hn. rewrite Hn. unfold intOr.
    destruct n; repeat split; intros; try lia; try discriminate.
  - intros Hn. rewrite Hn. reflexivity.
  - intros Hn. rewrite Hn, parseInt_undefined. reflexivity.
Qed.

End ValidatorFacts.

Section NormalizerFacts.
Context {host : Host}.

Lemma forEachItem_spec (tableId : jsvalue) (rows : list jsvalue) :
  forall acc,
    match forEachItem tableId rows acc with
    | (out, None) =>
        exists records,
          normalizedTo tableId rows records /\ out = (acc ++ records)%list
    | (out, Some e) =>
        exists good bad rest records,
          rows = (good ++ bad :: rest)%list
          /\ normalizedTo tableId good records
          /\ normalizeItem tableId bad = Throw e
          /\ out = (acc ++ records)%list
    end.
Proof.
  induction rows as [|item rows IH]; intros acc; simpl.
  - exists []. split; [constructor | symmetry; apply app_nil_r].
  - destruct (normalizeItem tableId item) as [r|e] eqn:Hitem.
    + specialize (IH (acc ++ [r])).
      destruct (forEachItem tableId rows (acc ++ [r])) as [out [e|]].
      * destruct IH as (good & bad & rest & records & -> & Hgood & Hbad & ->).
        exists (item :: good), bad, rest, (r :: records).
        repeat split; try assumption.
        -- constructor; assumption.
        -- rewrite <- app_assoc. reflexivity.
      * destruct IH as (records & Hall & ->).
        exists (r :: records). split; [constructor; assumption|].
        rewrite <- app_assoc. reflexivity.
    + exists [], item, rows, []. repeat split; try assumption.
      * constructor.
      * symmetry; apply app_nil_r.
Qed.

(** C1, as the code has it.  When a row of the batch raises, the result
    keeps the records of the rows before it and ends with one sentinel
    record: its [dataType] is "error", its metadata holds the message of
    the exception and the batch as iterated (a value that is not an array
    is wrapped in one).  Nothing is thrown; when the first row raises the
    sentinel is the whole result. *)
Theorem normalize_failure_appends_sentinel
    (rawData : jsvalue) (meta : table_metadata) (tableId : jsvalue)
    (e : Error) :
  raisedBy tableId rawData = Some e ->
  exists good bad rest records,
    rowsOf rawData = (good ++ bad :: rest)%list
    /\ normalizedTo tableId good records
    /\ normalizeItem tableId bad = Throw e
    /\ normalizeStatisticalData rawData meta tableId
       = (records ++ [errorRecord tableId e (VArr (rowsOf rawData))])%list
    /\ dataType (errorRecord tableId e (VArr (rowsOf rawData))) = "error"
    /\ metadata (errorRecord tableId e (VArr (rowsOf rawData)))
       = ErrorMetadata (message e) (VArr (rowsOf rawData))
    /\ (good = [] ->
        normalizeStatisticalData rawData meta tableId
        = [errorRecord tableId e (VArr (rowsOf rawData))]).
Proof.
  unfold raisedBy, normalizeStatisticalData. intros H.
  change (rowsOf (VArr (rowsOf rawData))) with (rowsOf rawData).
  pose proof (forEachItem_spec tableId (rowsOf rawData) []) as Hspec.
  destruct (forEachItem tableId (rowsOf rawData) []) as [out [e'|]];
    simpl in H; [|discriminate H].
  inversion H; subst e'; clear H.
  destruct Hspec as (good & bad & rest & records & Hrows & Hgood & Hbad & ->).
  exists good, bad, rest, records. simpl app.
  repeat split; try assumption.
  intros ->. inversion Hgood. reflexivity.
Qed.

End NormalizerFacts.

(** * Properties of [main.js] *)

(** ** Histories *)

Lemma extend_nil (st : State) : extend [] st = st.
Proof. destruct st; unfold extend; simpl. rewrite app_nil_r. reflexivity. Qed.

Lemma extend_extend (a b : list event) (st : State) :
  extend b (extend a st) = extend (a ++ b) st.
Proof. unfold extend; simpl. rewrite app_assoc. reflexivity. Qed.

Lemma observe_extend (e : event) (evs : list event) (st : State) :
  extend evs (observe e st) = extend (e :: evs) st.
Proof. unfold observe. rewrite extend_extend. reflexivity. Qed.

Section KeepsFacts.
Context {X : Type} (f : State -> X).

Lemma keeps_ret {A : Type} (a : A) : keeps f (ret a).
Proof. intros st; reflexivity. Qed.

Lemma keeps_lift {A : Type} (r : result A) : keeps f (lift r).
Proof. intros st; reflexivity. Qed.

Lemma keeps_gets {A : Type} (g : State -> A) : keeps f (gets g).
Proof. intros st; reflexivity. Qed.

Lemma keeps_modify (g : State -> State) :
  (forall st, f (g st) = f st) -> keeps f (modify g).
Proof. intros H st; apply H. Qed.

Lemma keeps_andThen {A B : Type} (c : Run A) (k : A -> Run B) :
  keeps f c -> (forall a, keeps f (k a)) -> keeps f (andThen c k).
Proof.
  intros Hc Hk st. unfold andThen. specialize (Hc st).
  destruct (c st) as [[a|e] st']; simpl in *.
  - rewrite Hk. exact Hc.
  - exact Hc.
Qed.

Lemma keeps_tryCatch {A : Type} (body : Run A) (handler : Error -> Run A) :
  keeps f body -> (forall e, keeps f (handler e)) ->
  keeps f (tryCatch body handler).
Proof.
  intros Hb Hh st. unfold tryCatch. specialize (Hb st).
  destruct (body st) as [[a|e] st']; simpl in *.
  - exact Hb.
  - rewrite Hh. exact Hb.
Qed.

Lemma keeps_when (b : bool) (c : Run unit) :
  keeps f c -> keeps f (when b c).
Proof. intros H. destruct b; [exact H | apply keeps_ret]. Qed.

Lemma keeps_forEach {A : Type} (xs : list A) (body : A -> Run unit) :
  (forall x, keeps f (body x)) -> keeps f (forEach xs body).
Proof.
  intros H. induction xs as [|x xs IH]; simpl.
  - apply keeps_ret.
  - apply keeps_andThen; [apply H | intros _; exact IH].
Qed.

End KeepsFacts.

Section MainFacts.
Context {host : Host}.
Variable w : World.

(** ** Observations that a computation leaves alone *)

Section Primitives.
Context {X : Type} (f : State -> X).

Lemma keeps_mark (e : event) :
  (forall st, f (observe e st) = f st) -> keeps f (mark e).
Proof. intros H st. apply H. Qed.

Lemma keeps_emit (o : output) :
  (forall st, f (observe (Emit o) st) = f st) ->
  (forall e st, f (observe (EmitFailed o e) st) = f st) ->
  keeps f (emit w o).
Proof.
  intros Hok Hfail st. unfold emit.
  destruct (pushData w (trace st) o); simpl; auto.
Qed.

Lemma keeps_fetchStatsData (tableId orgId : jsvalue) :
  (forall st, f (observe (CallGetStatsData tableId orgId) st) = f st) ->
  keeps f (fetchStatsData w tableId orgId).
Proof. intros H st. apply H. Qed.

Lemma keeps_chart (data : list NormalizedRecord) :
  (forall st, f (observe (RenderChart data) st) = f st) ->
  keeps f (chart w data).
Proof. intros H st. apply H. Qed.

End Primitives.

Lemma view_extend {X : Type} (g : event -> list X)
    (evs : list event) (st : State) :
  flat_map g (trace (extend evs st)) = flat_map g (trace st) ++ flat_map g evs.
Proof. unfold extend; simpl. apply flat_map_app. Qed.

Lemma view_observe {X : Type} (g : event -> list X) (e : event) (st : State) :
  g e = [] -> flat_map g (trace (observe e st)) = flat_map g (trace st).
Proof.
  intros H. unfold observe. rewrite view_extend. simpl.
  rewrite H. simpl. apply app_nil_r.
Qed.

(** Discharges [keeps f c] for the computations of [main.js], when [f] is a
    counter or a view of the history that the events of [c] do not show. *)
Ltac keeps_step :=
  lazymatch goal with
  | |- keeps _ (ret _) => apply keeps_ret
  | |- keeps _ (lift _) => apply keeps_lift
  | |- keeps _ (gets _) => apply keeps_gets
  | |- keeps _ (modify _) => apply keeps_modify; intros; reflexivity
  | |- keeps _ (when _ _) => apply keeps_when
  | |- keeps _ (forEach _ _) => apply keeps_forEach; intros
  | |- keeps _ (andThen _ _) => apply keeps_andThen; [|intros]
  | |- keeps _ (tryCatch _ _) => apply keeps_tryCatch; [|intros]
  | |- keeps _ (mark _) => apply keeps_mark; intros
  | |- keeps _ (emit _ _) => apply keeps_emit; intros
  | |- keeps _ (fetchStatsData _ _ _) => apply keeps_fetchStatsData; intros
  | |- keeps _ (chart _ _) => apply keeps_chart; intros
  | |- _ = _ => first [ reflexivity | apply view_observe; reflexivity ]
  end.

Ltac keeps_auto := repeat keeps_step.

Lemma keeps_runDemoMode {X : Type} (g : event -> list X)
    (cfg : Configuration) :
  (forall o, demoShaped o = true ->
             g (Emit o) = [] /\ forall e, g (EmitFailed o e) = []) ->
  keeps (fun st => flat_map g (trace st)) (runDemoMode w cfg).
Proof.
  intros H. unfold runDemoMode.
  apply keeps_andThen; [apply keeps_forEach; intros r | intros _];
    apply keeps_emit; intros; apply view_observe;
    first [ apply (H (DataPoint r)) | apply (H (DemoSummary _ _ _)) ];
    reflexivity.
Qed.

(** ** The demo fallback *)

Lemma emit_accepted (o : output) (st : State) :
  pushData w (trace st) o = None ->
  emit w o st = (Ok tt, observe (Emit o) st).
Proof. intros H. unfold emit. rewrite H. reflexivity. Qed.

Lemma forEach_emit_accepted (rs : list NormalizedRecord) :
  acceptsDemo w ->
  forall st,
    forEach rs (fun r => emit w (DataPoint r)) st
    = (Ok tt, extend (map (fun r => Emit (DataPoint r)) rs) st).
Proof.
  intros Hsink. induction rs as [|r rs IH]; intros st; simpl.
  - unfold ret. rewrite extend_nil. reflexivity.
  - unfold andThen. rewrite emit_accepted by (apply Hsink; reflexivity).
    rewrite IH, observe_extend. reflexivity.
Qed.

Lemma runDemoMode_accepted (cfg : Configuration) (st : State) :
  acceptsDemo w ->
  runDemoMode w cfg st = (Ok tt, extend (map Emit (demoOutputs cfg)) st).
Proof.
  intros Hsink. unfold runDemoMode, andThen.
  rewrite forEach_emit_accepted by exact Hsink.
  rewrite emit_accepted by (apply Hsink; reflexivity).
  unfold observe, demoOutputs. rewrite extend_extend, map_app, map_map.
  reflexivity.
Qed.

Lemma filter_all {A : Type} (f : A -> bool) (xs : list A) :
  (forall x, f x = true) -> filter f xs = xs.
Proof.
  intros H. induction xs as [|x xs IH]; simpl; [reflexivity|].
  rewrite H, IH. reflexivity.
Qed.

Lemma slice0_firstn {A : Type} (xs : list A) (n : Z) :
  0 <= n -> slice0 xs n = firstn (Z.to_nat n) xs.
Proof.
  intros H. unfold slice0.
  destruct (Z.ltb_spec n 0); [lia | reflexivity].
Qed.

Lemma filteredData_selectBySpec (cfg : Configuration) :
  0 <= maxItems cfg -> filteredData cfg = selectBySpec cfg.
Proof.
  intros H. unfold filteredData, selectBySpec.
  rewrite slice0_firstn by exact H. f_equal.
  unfold matchesKeyword.
  destruct (String.eqb_spec (searchKeyword cfg) "") as [Hkw|Hkw];
    cbn [negb].
  - symmetry. apply filter_all. reflexivity.
  - apply filter_ext. intros r. unfold demoMatch.
    cbn [orb]. reflexivity.
Qed.

(** C8.  For a configuration that [validateInput] returned and a sink that
    takes what it is offered, the demo fallback emits the records of the
    four-record pool that match the keyword on [statName], [category1] or
    [dataType], case ignored (all of them for the empty keyword), cut to
    the first [maxItems], in pool order; then one [demo_summary] whose
    [demoDataPoints] is the number of records just emitted, with the
    configuration and the registration guidance; and nothing else. *)
Theorem runDemoMode_emits_selection
    (input : jsvalue) (cfg : Configuration) (st : State) :
  validateInput input = Ok cfg ->
  acceptsDemo w ->
  length demoData = 4%nat
  /\ runDemoMode w cfg st
     = (Ok tt,
        extend (map (fun r => Emit (DataPoint r)) (selectBySpec cfg)
                ++ [Emit (DemoSummary (length (selectBySpec cfg)) cfg
                            kosisRegistration)]) st).
Proof.
  intros Hcfg Hsink. split; [reflexivity|].
  rewrite runDemoMode_accepted by exact Hsink.
  unfold demoOutputs.
  rewrite filteredData_selectBySpec
    by (apply validateInput_bounds in Hcfg; lia).
  rewrite map_app, map_map. reflexivity.
Qed.

(** C9.  A run that finds no credential never calls the table lister; when
    validation lets the input through and the sink takes what it is
    offered, the run emits the records of the sample pool that match the
    keyword, cut to the first [maxItems], and then one [demo_summary] that
    counts them and carries the registration information, and nothing
    else. *)
Theorem no_credential_runs_demo :
  truthy (kosisApiKey w) = false ->
  listCalls (trace (snd (mainLogic w initial))) = []
  /\ forall cfg,
       validateInput (js_or (actorInput w) (VObj [])) = Ok cfg ->
       acceptsDemo w ->
       mainLogic w initial
       = (Ok tt,
          extend (map (fun r => Emit (DataPoint r)) (selectBySpec cfg)
                  ++ [Emit (DemoSummary (length (selectBySpec cfg)) cfg
                              kosisRegistration)]) initial).
Proof.
  intros Hkey. split.
  - unfold mainLogic, andThen, lift.
    destruct (validateInput (js_or (actorInput w) (VObj []))) as [cfg|e];
      [|reflexivity].
    rewrite Hkey. cbn [negb].
    apply (keeps_runDemoMode listCallOf). intros o Ho. split; reflexivity.
  - intros cfg Hcfg Hsink. unfold mainLogic, andThen, lift.
    rewrite Hcfg, Hkey. cbn [negb].
    rewrite runDemoMode_accepted by exact Hsink.
    unfold demoOutputs.
    rewrite filteredData_selectBySpec
      by (apply validateInput_bounds in Hcfg; lia).
    rewrite map_app, map_map. reflexivity.
Qed.

(** ** The outer [catch] *)

Lemma authFailure_tagged (msg : string) :
  includes msg "API" = true -> authFailure msg = true.
Proof. intros H. unfold authFailure. rewrite H. apply orb_true_r. Qed.

Lemma liveRun_listing_throws (cfg : Configuration) (st : State) (e : Error) :
  truthy (kosisApiKey w) = true ->
  getStatsList (listResponse w (buildSearchParams cfg)) = Throw e ->
  liveRun w cfg st
  = (Throw e, observe (CallGetStatsList (buildSearchParams cfg)) st).
Proof.
  intros Hkey Hlist.
  unfold liveRun, andThen, lift, createKosisApiClient, mark.
  rewrite Hkey. cbn [negb]. rewrite Hlist. reflexivity.
Qed.

Lemma liveRun_listing_fails (cfg : Configuration) (st : State) (e : Error) :
  truthy (kosisApiKey w) = true ->
  getStatsList (listResponse w (buildSearchParams cfg)) = Throw e ->
  tryCatch (liveRun w cfg) (fallback w cfg) st
  = fallback w cfg e (observe (CallGetStatsList (buildSearchParams cfg)) st).
Proof.
  intros Hkey Hlist. unfold tryCatch.
  rewrite (liveRun_listing_throws cfg st e Hkey Hlist). reflexivity.
Qed.

(** C4.  Not every error that [getStatsList] raises carries "API" in its
    message.  When the listing request is answered with an error status
    and a body whose [message] (or, failing that, [error]) cannot be
    converted to a string, the template literal of [handleApiError] throws
    the engine's [TypeError] in place of the tagged error.  When the text
    of that [TypeError] has none of the three marks, the outer [catch]
    takes its second branch: it pushes a top-level record of type "error"
    and only then runs the demo fallback. *)
Theorem listing_error_can_lose_its_tag
    (cfg : Configuration) (st : State) (error : RequestError)
    (status : Z) (data : jsvalue) :
  truthy (kosisApiKey w) = true ->
  listResponse w (buildSearchParams cfg) = Rejected error ->
  response error = Some (status, data) ->
  stringable (apiErrorMsg data) = false ->
  getStatsList (Rejected error)
  = Throw (mkError (typeErrorMessage NotPrimitive))
  /\ (authFailure (typeErrorMessage NotPrimitive) = false ->
      tryCatch (liveRun w cfg) (fallback w cfg) st
      = andThen (emit w (RunError (typeErrorMessage NotPrimitive) cfg))
                (fun _ => runDemoMode w cfg)
                (observe (CallGetStatsList (buildSearchParams cfg)) st)).
Proof.
  intros Hkey Hlist Hresponse Hdata.
  assert (Hthrown : getStatsList (Rejected error)
                    = Throw (mkError (typeErrorMessage NotPrimitive))).
  { cbn [getStatsList]. rewrite handleApiError_untagged; [reflexivity|].
    unfold conveyable. rewrite Hresponse. exact Hdata. }
  split; [exact Hthrown|].
  intros Hmarks. rewrite <- Hlist in Hthrown.
  rewrite (liveRun_listing_fails cfg st _ Hkey Hthrown).
  unfold fallback. cbn [message]. rewrite Hmarks. reflexivity.
Qed.

(** X22.  An error that [getStatsList] raises carries "API" in its message
    whenever [handleApiError] can put the message of the provider in a
    string: always for a request that got no answer, that could not be set
    up, or that was answered with a body of the wrong shape.  A
    credentialed run whose listing fails so continues, in the outer
    [catch], straight with the demo fallback: the branch that would push a
    top-level record of type "error" is not taken, and the run offers no
    such record to the sink. *)
Theorem listing_error_takes_auth_branch
    (cfg : Configuration) (st : State) (e : Error) :
  truthy (kosisApiKey w) = true ->
  getStatsList (listResponse w (buildSearchParams cfg)) = Throw e ->
  conveyable (failureOf (listResponse w (buildSearchParams cfg))) = true ->
  includes (message e) "API" = true
  /\ tryCatch (liveRun w cfg) (fallback w cfg) st
     = runDemoMode w cfg
         (observe (CallGetStatsList (buildSearchParams cfg)) st)
  /\ errorPushes (trace (snd (tryCatch (liveRun w cfg) (fallback w cfg) st)))
     = errorPushes (trace st).
Proof.
  intros Hkey Hlist Hmsg.
  pose proof (getStatsList_throws_tagged _ _ Hlist Hmsg) as Htag.
  assert (Hrun : tryCatch (liveRun w cfg) (fallback w cfg) st
                 = runDemoMode w cfg
                     (observe (CallGetStatsList (buildSearchParams cfg)) st)).
  { rewrite (liveRun_listing_fails cfg st e Hkey Hlist).
    unfold fallback. rewrite (authFailure_tagged _ Htag). reflexivity. }
  split; [exact Htag|]. split; [exact Hrun|].
  rewrite Hrun. unfold errorPushes.
  rewrite (keeps_runDemoMode errorPushOf).
  - apply (view_observe errorPushOf). reflexivity.
  - intros o Ho. destruct o; try discriminate Ho; split; reflexivity.
Qed.

(** C6.  In a credentialed run whose outer [try] block fails with an error
    [e], and with a sink that takes the demo records: when the message of
    [e] contains "403", "401" or "API", the run goes on with the demo
    fallback alone, which ends with a [demo_summary], and pushes no
    top-level error record; otherwise it first pushes one record of type
    "error" with the message of [e] and the configuration, and then, that
    record taken, runs the same demo fallback. *)
Theorem failure_falls_back_to_demo
    (cfg : Configuration) (e : Error) (st1 : State) :
  validateInput (js_or (actorInput w) (VObj [])) = Ok cfg ->
  truthy (kosisApiKey w) = true ->
  liveRun w cfg initial = (Throw e, st1) ->
  acceptsDemo w ->
  (authFailure (message e) = true ->
   mainLogic w initial
   = (Ok tt,
      extend (map (fun r => Emit (DataPoint r)) (filteredData cfg)
              ++ [Emit (DemoSummary (length (filteredData cfg)) cfg
                          kosisRegistration)]) st1))
  /\ (authFailure (message e) = false ->
      pushData w (trace st1) (RunError (message e) cfg) = None ->
      outputType (RunError (message e) cfg) = Some "error"
      /\ mainLogic w initial
         = (Ok tt,
            extend (Emit (RunError (message e) cfg)
                    :: map (fun r => Emit (DataPoint r)) (filteredData cfg)
                    ++ [Emit (DemoSummary (length (filteredData cfg)) cfg
                                kosisRegistration)]) st1)).
Proof.
  intros Hcfg Hkey Hlive Hsink.
  assert (Hmain : mainLogic w initial
                  = tryCatch (liveRun w cfg) (fallback w cfg) initial).
  { unfold mainLogic, andThen, lift. rewrite Hcfg, Hkey. reflexivity. }
  rewrite Hmain. unfold tryCatch. rewrite Hlive. unfold fallback.
  split; intros Hauth; rewrite Hauth.
  - rewrite runDemoMode_accepted by exact Hsink.
    unfold demoOutputs. rewrite map_app, map_map. reflexivity.
  - intros Hpush. split; [reflexivity|].
    unfold andThen. rewrite emit_accepted by exact Hpush.
    rewrite runDemoMode_accepted by exact Hsink.
    rewrite observe_extend.
    unfold demoOutputs. rewrite map_app, map_map. reflexivity.
Qed.

(** ** One iteration of the loop *)

Lemma keeps_emitTable {X : Type} (g : event -> list X) (cfg : Configuration)
    (table tableId : jsvalue) (meta : table_metadata) (rows : list jsvalue) :
  (forall o, isError o = false ->
             g (Emit o) = [] /\ forall e, g (EmitFailed o e) = []) ->
  keeps (fun st => flat_map g (trace st))
        (emitTable w cfg table tableId meta rows).
Proof.
  intros H. unfold emitTable.
  apply keeps_andThen; [|intros _]; apply keeps_when.
  - apply keeps_emit; intros; apply view_observe;
      apply (H (RawOutput _ _ _ _)); reflexivity.
  - cbv zeta. apply keeps_andThen; [keeps_auto | intros _].
    apply keeps_forEach; intros r.
    apply keeps_andThen; [|intros; keeps_auto].
    apply keeps_emit; intros; apply view_observe;
      apply (H (DataPoint r)); reflexivity.
Qed.

Lemma keeps_fetchMetadata {X : Type} (f : State -> X) (cfg : Configuration)
    (tableId : jsvalue) :
  (forall st, f (observe (CallGetMetaInfo tableId) st) = f st) ->
  keeps f (fetchMetadata cfg tableId).
Proof.
  intros H. unfold fetchMetadata.
  destruct (includeMetadata cfg); [|apply keeps_ret].
  apply keeps_andThen; [apply keeps_mark; exact H | intros; apply keeps_ret].
Qed.

Lemma tableIdOf_label (table : jsvalue) (n : nat) :
  isNullish table = false -> tableIdOf table n = Ok (tableLabel table n).
Proof.
  intros H. unfold tableIdOf.
  rewrite !(getProp_field table) by exact H. reflexivity.
Qed.

Lemma tableTitleOf_title (table : jsvalue) :
  isNullish table = false -> tableTitleOf table = Ok (tableTitle table).
Proof.
  intros H. unfold tableTitleOf.
  rewrite !(getProp_field table) by exact H. reflexivity.
Qed.

(** The number of a table does not decide whether its id can be printed. *)
Lemma stringable_tableLabel (table : jsvalue) (n : nat) :
  stringable (tableLabel table n)
  = stringable (js_or (field table "TBL_ID") (field table "LIST_ID")).
Proof.
  unfold tableLabel.
  set (id := js_or (field table "TBL_ID") (field table "LIST_ID")).
  unfold js_or at 1. destruct (truthy id) eqn:Hid; [reflexivity|].
  rewrite (falsy_stringable id Hid). reflexivity.
Qed.

Lemma stringable_tableTitle (table : jsvalue) :
  stringable (tableTitle table)
  = stringable (js_or (field table "TBL_NM") (field table "LIST_NM")).
Proof.
  unfold tableTitle.
  set (title := js_or (field table "TBL_NM") (field table "LIST_NM")).
  unfold js_or at 1. destruct (truthy title) eqn:Htitle; [reflexivity|].
  rewrite (falsy_stringable title Htitle). reflexivity.
Qed.

Lemma describable_parts (table : jsvalue) :
  describable table = true ->
  isNullish table = false
  /\ (forall n, stringable (tableLabel table n) = true)
  /\ stringable (tableTitle table) = true.
Proof.
  unfold describable. intros H.
  repeat (apply andb_true_iff in H as [H ?]).
  apply negb_true_iff in H.
  split; [exact H|]. split.
  - intros n. rewrite stringable_tableLabel. assumption.
  - rewrite stringable_tableTitle. assumption.
Qed.

(** The [try] block, for a descriptor that is not [null] or [undefined] and
    whose title can be logged: it counts the table, asks for the metadata
    if wanted, requests the data, and either fails there or goes on to emit
    and to sleep. *)
Lemma processTableBody_unfold (cfg : Configuration) (table : jsvalue)
    (st : State) :
  isNullish table = false ->
  stringable (tableTitle table) = true ->
  let tableId := tableLabel table (S (processedTables st)) in
  let orgId := js_or (field table "ORG_ID") (VStr "101") in
  let st2 := afterMetadata cfg tableId (countTable st) in
  processTableBody w cfg table st
  = match getStatsData (dataResponse w (trace st2) tableId orgId) tableId with
    | Ok rows =>
        andThen (emitTable w cfg table tableId (metadataFor cfg tableId) rows)
                (fun _ => sleep (delayBetweenRequests cfg))
                (observe (CallGetStatsData tableId orgId) st2)
    | Throw e => (Throw e, observe (CallGetStatsData tableId orgId) st2)
    end.
Proof.
  intros H Htitle tableId orgId st2. subst tableId orgId st2.
  cbv [processTableBody andThen modify gets lift fetchMetadata
       afterMetadata metadataFor fetchStatsData mark ret].
  cbn [processedTables countTable].
  rewrite (tableIdOf_label table _ H), (tableTitleOf_title table H).
  rewrite (logLine_ok _ Htitle).
  rewrite (getProp_field table "ORG_ID" H).
  destruct (includeMetadata cfg);
    match goal with
    | |- context [getStatsData ?http ?id] =>
        destruct (getStatsData http id); reflexivity
    end.
Qed.

(** The same block, for a title that cannot be logged: it throws before
    anything is asked of the provider. *)
Lemma processTableBody_unlogged (cfg : Configuration) (table : jsvalue)
    (st : State) :
  isNullish table = false ->
  stringable (tableTitle table) = false ->
  processTableBody w cfg table st
  = (typeError NotPrimitive, countTable st).
Proof.
  intros H Htitle.
  cbv [processTableBody andThen modify gets lift].
  cbn [processedTables countTable].
  rewrite (tableIdOf_label table _ H), (tableTitleOf_title table H).
  rewrite (logLine_throws _ Htitle). reflexivity.
Qed.

Lemma keeps_processTableBody {X : Type} (g : event -> list X)
    (cfg : Configuration) (table : jsvalue) :
  (forall o, isError o = false ->
             g (Emit o) = [] /\ forall e, g (EmitFailed o e) = []) ->
  (forall ms, g (Sleep ms) = []) ->
  (forall tableId, g (CallGetMetaInfo tableId) = []) ->
  (forall tableId orgId, g (CallGetStatsData tableId orgId) = []) ->
  keeps (fun st => flat_map g (trace st)) (processTableBody w cfg table).
Proof.
  intros Hout Hsleep Hmeta Hdata. unfold processTableBody, sleep.
  repeat first
    [ apply keeps_emitTable; exact Hout
    | apply keeps_fetchMetadata; intros; apply view_observe; apply Hmeta
    | apply keeps_fetchStatsData; intros; apply view_observe; apply Hdata
    | apply keeps_mark; intros; apply view_observe; apply Hsleep
    | keeps_step ].
Qed.

Lemma keeps_processTableCatch {X : Type} (g : event -> list X)
    (cfg : Configuration) (table : jsvalue) (e : Error) :
  (forall tableId tableTitle error,
     g (Emit (TableError tableId tableTitle error)) = []
     /\ forall e', g (EmitFailed (TableError tableId tableTitle error) e')
                   = []) ->
  keeps (fun st => flat_map g (trace st)) (processTableCatch w cfg table e).
Proof.
  intros H. unfold processTableCatch.
  repeat first
    [ apply keeps_emit; intros; apply view_observe; apply H
    | keeps_step ].
Qed.

Lemma processedTables_emitTable (cfg : Configuration)
    (table tableId : jsvalue) (meta : table_metadata) (rows : list jsvalue) :
  keeps processedTables (emitTable w cfg table tableId meta rows).
Proof. unfold emitTable. cbv zeta. keeps_auto. Qed.

Lemma processTableCatch_ok (cfg : Configuration) (table : jsvalue)
    (e : Error) (st : State) :
  isNullish table = false ->
  stringable (tableLabel table (processedTables st)) = true ->
  acceptsTableErrors w ->
  processTableCatch w cfg table e st
  = (Ok tt,
     observe (Emit (TableError (tableLabel table (processedTables st))
                      (tableTitle table) (message e))) st).
Proof.
  intros H Hid Hsink. cbv [processTableCatch andThen gets lift].
  rewrite (tableIdOf_label table _ H), (tableTitleOf_title table H).
  rewrite (logLine_ok _ Hid).
  apply emit_accepted, Hsink.
Qed.

(** The [catch] block, for an id that cannot be logged: it throws before
    the error record is pushed. *)
Lemma processTableCatch_unlogged (cfg : Configuration) (table : jsvalue)
    (e : Error) (st : State) :
  isNullish table = false ->
  stringable (tableLabel table (processedTables st)) = false ->
  processTableCatch w cfg table e st = (typeError NotPrimitive, st).
Proof.
  intros H Hid. cbv [processTableCatch andThen gets lift].
  rewrite (tableIdOf_label table _ H), (tableTitleOf_title table H).
  rewrite (logLine_throws _ Hid). reflexivity.
Qed.

(** What one iteration does for a descriptor whose id and title can be
    logged, with a sink that takes error records: it does not throw and
    counts the table; it requests the data once. *)
Lemma processTable_step (cfg : Configuration) (table : jsvalue) (st : State) :
  describable table = true ->
  acceptsTableErrors w ->
  exists st',
    processTable w cfg table st = (Ok tt, st')
    /\ processedTables st' = S (processedTables st)
    /\ dataCalls (trace st')
       = dataCalls (trace st) ++ [tableLabel table (S (processedTables st))].
Proof.
  intros Hd Hsink.
  destruct (describable_parts table Hd) as (H & Hid & Htitle).
  unfold processTable, tryCatch.
  rewrite (processTableBody_unfold cfg table st H Htitle). cbv zeta.
  set (tableId := tableLabel table (S (processedTables st))).
  set (orgId := js_or (field table "ORG_ID") (VStr "101")).
  set (st3 := observe (CallGetStatsData tableId orgId)
                (afterMetadata cfg tableId (countTable st))).
  assert (Hcount : processedTables st3 = S (processedTables st)).
  { unfold st3, afterMetadata. destruct (includeMetadata cfg); reflexivity. }
  assert (Hcalls : dataCalls (trace st3) = dataCalls (trace st) ++ [tableId]).
  { unfold st3, dataCalls, observe. rewrite view_extend. f_equal.
    unfold afterMetadata. destruct (includeMetadata cfg); [|reflexivity].
    exact (view_observe dataCallOf (CallGetMetaInfo tableId) (countTable st)
             eq_refl). }
  destruct (getStatsData _ tableId) as [rows|e].
  - unfold andThen.
    pose proof (processedTables_emitTable cfg table tableId
                  (metadataFor cfg tableId) rows st3) as Hkeep.
    pose proof (keeps_emitTable dataCallOf cfg table tableId
                  (metadataFor cfg tableId) rows
                  (fun o _ => conj eq_refl (fun _ => eq_refl)) st3) as Hview.
    destruct (emitTable w cfg table tableId (metadataFor cfg tableId) rows st3)
      as [[[]|e] st4]; cbn [snd] in Hkeep, Hview.
    + eexists. split; [reflexivity|]. split.
      * simpl. congruence.
      * unfold dataCalls. rewrite (view_observe dataCallOf) by reflexivity.
        rewrite Hview. exact Hcalls.
    + rewrite (processTableCatch_ok cfg table e st4 H (Hid _) Hsink).
      eexists. split; [reflexivity|]. split.
      * simpl. congruence.
      * unfold dataCalls. rewrite (view_observe dataCallOf) by reflexivity.
        rewrite Hview. exact Hcalls.
  - rewrite (processTableCatch_ok cfg table e st3 H (Hid _) Hsink).
    eexists. split; [reflexivity|]. split.
    + simpl. exact Hcount.
    + unfold dataCalls. rewrite (view_observe dataCallOf) by reflexivity.
      exact Hcalls.
Qed.

Lemma processTableBody_counts (cfg : Configuration) (table : jsvalue)
    (st : State) :
  processedTables (snd (processTableBody w cfg table st))
  = S (processedTables st).
Proof.
  unfold processTableBody. unfold andThen at 1, modify.
  match goal with
  | |- processedTables (snd (?c (countTable st))) = _ =>
      assert (Hkeep : keeps processedTables c)
  end.
  { unfold sleep.
    repeat first
      [ apply processedTables_emitTable
      | apply keeps_fetchMetadata; intros; reflexivity
      | keeps_step ]. }
  rewrite Hkeep. reflexivity.
Qed.

(** ** The rate limit *)

Lemma sleepsLast_sleep (ms : Z) : sleepsLast ms (sleep ms).
Proof. intros st. exists st. split; reflexivity. Qed.

Lemma sleepsLast_andThen {A : Type} (ms : Z) (c : Run A) (k : A -> Run unit) :
  keeps (fun st => flat_map sleepOf (trace st)) c ->
  (forall a, sleepsLast ms (k a)) ->
  sleepsLast ms (andThen c k).
Proof.
  intros Hc Hk st. unfold andThen. specialize (Hc st).
  destruct (c st) as [[a|e] st0]; simpl in Hc; [|exact Hc].
  specialize (Hk a st0). destruct (k a st0) as [[u|e] st'].
  - destruct Hk as (st1 & -> & H1). exists st1.
    split; [reflexivity | unfold sleeps in *; congruence].
  - unfold sleeps in *; congruence.
Qed.

Lemma processTableBody_sleepsLast (cfg : Configuration) (table : jsvalue) :
  sleepsLast (delayBetweenRequests cfg) (processTableBody w cfg table).
Proof.
  unfold processTableBody.
  repeat (apply sleepsLast_andThen; [|intros]);
    try apply sleepsLast_sleep;
    lazymatch goal with
    | |- keeps _ (fetchMetadata _ _) =>
        apply keeps_fetchMetadata; intros; apply view_observe; reflexivity
    | |- keeps _ (emitTable _ _ _ _ _ _) =>
        apply keeps_emitTable; intros o _; split; reflexivity
    | |- _ => keeps_auto
    end.
Qed.

Lemma sleeps_observe_sleep (ms : Z) (st : State) :
  sleeps (trace (observe (Sleep ms) st)) = sleeps (trace st) ++ [ms].
Proof. unfold sleeps, observe. rewrite view_extend. reflexivity. Qed.

(** C2, as the code has it.  The delay of [delayBetweenRequests]
    milliseconds is the last step of the [try] block of an iteration: it
    follows every table whose processing completes, the last table of the
    list included, once and after everything else that is done for the
    table.  The demo fallback does not sleep, and neither does a run whose
    table list is empty. *)
Theorem delay_follows_completed_tables (cfg : Configuration) :
  (forall table st st',
     processTableBody w cfg table st = (Ok tt, st') ->
     processTable w cfg table st = (Ok tt, st')
     /\ (forall rest,
           forEach (table :: rest) (processTable w cfg) st
           = forEach rest (processTable w cfg) st')
     /\ exists st1,
          st' = observe (Sleep (delayBetweenRequests cfg)) st1
          /\ sleeps (trace st1) = sleeps (trace st)
          /\ sleeps (trace st')
             = sleeps (trace st) ++ [delayBetweenRequests cfg])
  /\ (forall st,
        sleeps (trace (snd (runDemoMode w cfg st))) = sleeps (trace st))
  /\ (forall st statsList,
        getStatsList (listResponse w (buildSearchParams cfg)) = Ok statsList ->
        lengthIsZero statsList = Ok true ->
        sleeps (trace (snd (liveRun w cfg st))) = sleeps (trace st)).
Proof.
  split; [|split].
  - intros table st st' Hbody.
    pose proof (processTableBody_sleepsLast cfg table st) as H.
    rewrite Hbody in H.
    assert (Hrun : processTable w cfg table st = (Ok tt, st'))
      by (unfold processTable, tryCatch; rewrite Hbody; reflexivity).
    split; [exact Hrun|]. split.
    + intros rest. simpl. unfold andThen. rewrite Hrun. reflexivity.
    + destruct H as (st1 & -> & H1). exists st1.
      split; [reflexivity|]. split; [exact H1|].
      rewrite sleeps_observe_sleep, H1. reflexivity.
  - intros st. apply (keeps_runDemoMode sleepOf).
    intros o Ho. split; reflexivity.
  - intros st statsList Hlist Hzero.
    cbv [liveRun andThen lift mark].
    destruct (createKosisApiClient (kosisApiKey w)); [|reflexivity].
    rewrite Hlist.
    destruct (logFound statsList);
      [|apply (view_observe sleepOf); reflexivity].
    rewrite Hzero.
    assert (Hk : keeps (fun st => flat_map sleepOf (trace st))
                   (emit w (NoData (buildSearchParams cfg))))
      by keeps_auto.
    unfold sleeps. rewrite Hk. apply (view_observe sleepOf). reflexivity.
Qed.

(** ** Isolation of a failing table *)

Lemma errorPushOf_quiet (o : output) :
  isError o = false ->
  errorPushOf (Emit o) = [] /\ forall e, errorPushOf (EmitFailed o e) = [].
Proof. intros H. unfold errorPushOf. rewrite H. split; reflexivity. Qed.

Lemma errorPushes_processTableBody (cfg : Configuration) (table : jsvalue)
    (st : State) :
  errorPushes (trace (snd (processTableBody w cfg table st)))
  = errorPushes (trace st).
Proof.
  exact (keeps_processTableBody errorPushOf cfg table
           errorPushOf_quiet (fun _ => eq_refl) (fun _ => eq_refl)
           (fun _ _ => eq_refl) st).
Qed.

(** C5.  A failing table is not always isolated.  When the [try] block of
    an iteration fails, at the data request or anywhere else, on a
    descriptor whose id cannot be converted to a string, the [catch] block
    throws the engine's [TypeError] while it builds its log line, before
    it pushes the error record: no record of type "error" is offered to
    the sink for the table, the loop ends with that [TypeError], and the
    tables that remain are not processed. *)
Theorem failure_of_unprintable_table_ends_loop
    (cfg : Configuration) (table : jsvalue) (rest : list jsvalue)
    (st st1 : State) (e : Error) :
  isNullish table = false ->
  stringable (tableLabel table (S (processedTables st))) = false ->
  processTableBody w cfg table st = (Throw e, st1) ->
  processTable w cfg table st = (typeError NotPrimitive, st1)
  /\ errorPushes (trace st1) = errorPushes (trace st)
  /\ forEach (table :: rest) (processTable w cfg) st
     = (typeError NotPrimitive, st1).
Proof.
  intros Htable Hid Hbody.
  pose proof (processTableBody_counts cfg table st) as Hn.
  pose proof (errorPushes_processTableBody cfg table st) as Hquiet.
  rewrite Hbody in Hn, Hquiet. cbn [snd] in Hn, Hquiet.
  assert (Hrun : processTable w cfg table st
                 = (typeError NotPrimitive, st1)).
  { unfold processTable, tryCatch. rewrite Hbody.
    apply processTableCatch_unlogged; [exact Htable|].
    rewrite Hn. exact Hid. }
  split; [exact Hrun|]. split; [exact Hquiet|].
  simpl. unfold andThen. rewrite Hrun. reflexivity.
Qed.

(** X23.  With a sink that takes error records, and for table descriptors
    that are not [null] and whose id and title can be converted to
    strings: when the [try] block of an iteration fails with an error [e],
    whether at the data request or at a push of the raw or of a normalized
    record, the iteration pushes one record of type "error" with the id
    and the title of the table and the message of [e], the only such
    record of the iteration, and the loop goes on with the tables that
    remain.  So the loop does not throw, and it counts and requests the
    data of every table of its list, in order. *)
Theorem table_failure_is_isolated (cfg : Configuration) :
  acceptsTableErrors w ->
  (forall table st e st1,
     describable table = true ->
     processTableBody w cfg table st = (Throw e, st1) ->
     let report :=
       TableError (tableLabel table (S (processedTables st)))
         (tableTitle table) (message e) in
     processTable w cfg table st = (Ok tt, observe (Emit report) st1)
     /\ outputType report = Some "error"
     /\ errorPushes (trace (observe (Emit report) st1))
        = errorPushes (trace st) ++ [report]
     /\ forall rest,
          forEach (table :: rest) (processTable w cfg) st
          = forEach rest (processTable w cfg) (observe (Emit report) st1))
  /\ (forall tables st,
        Forall (fun table => describable table = true) tables ->
        let final := forEach tables (processTable w cfg) st in
        fst final = Ok tt
        /\ processedTables (snd final)
           = (processedTables st + length tables)%nat
        /\ dataCalls (trace (snd final))
           = dataCalls (trace st) ++ labels tables (processedTables st)).
Proof.
  intros Hsink. split.
  - intros table st e st1 Hd Hbody report.
    destruct (describable_parts table Hd) as (Htable & Hid & _).
    assert (Hrun : processTable w cfg table st
                   = (Ok tt, observe (Emit report) st1)).
    { unfold processTable, tryCatch. rewrite Hbody.
      rewrite (processTableCatch_ok cfg table e st1 Htable (Hid _) Hsink).
      pose proof (processTableBody_counts cfg table st) as Hn.
      rewrite Hbody in Hn. simpl in Hn. rewrite Hn. reflexivity. }
    split; [exact Hrun|]. split; [reflexivity|]. split.
    + unfold errorPushes, observe. rewrite view_extend. f_equal.
      pose proof (errorPushes_processTableBody cfg table st) as Hkeep.
      rewrite Hbody in Hkeep. exact Hkeep.
    + intros rest. simpl. unfold andThen. rewrite Hrun. reflexivity.
  - intros tables st Hall. revert st.
    induction Hall as [|table tables Htable Hall IH]; intros st; simpl.
    + repeat split. * lia. * symmetry; apply app_nil_r.
    + destruct (processTable_step cfg table st Htable Hsink)
        as (st' & Hrun & Hcount & Hcalls).
      unfold andThen. rewrite Hrun.
      destruct (IH st') as (Hok & Hn & Hd).
      split; [exact Hok|]. split.
      * rewrite Hn, Hcount. lia.
      * rewrite Hd, Hcalls, Hcount, <- app_assoc. reflexivity.
Qed.

End MainFacts.

(** * Worked runs on the executable host *)

Lemma determineDataType_first_match_witness :
  determineDataType (host := node) (VStr "Real GDP") = Ok "economic"
  /\ determineDataType (host := node) (VStr "REAL gdp")
     = determineDataType (host := node) (VStr "Real GDP").
Proof.
  destruct (determineDataType_first_match (host := node) "Real GDP")
    as [Hfirst Hcase].
  split; [rewrite Hfirst; reflexivity | apply Hcase; reflexivity].
Defined.

Lemma validateInput_maxItems_clamped_witness :
  exists cfg,
    validateInput (host := node) (VObj [("maxItems", VStr "200")]) = Ok cfg
    /\ maxItems cfg = 100.
Proof.
  destruct (validateInput_maxItems_clamped (host := node)
              (VObj [("maxItems", VStr "200")]) eq_refl)
    as (cfg & Hcfg & _ & Hparsed & _).
  exists cfg. split; [exact Hcfg|].
  apply (Hparsed 200); [reflexivity | lia].
Defined.

Lemma normalize_failure_appends_sentinel_witness :
  exists records,
    length records = 1%nat
    /\ normalizeStatisticalData (host := node)
         (VArr [populationRow; VNull]) NoMetadata (VStr "T1")
       = records
         ++ [errorRecord (VStr "T1")
               (mkError "Cannot read properties of null (reading 'TBL_NM')")
               (VArr [populationRow; VNull])].
Proof.
  destruct (normalize_failure_appends_sentinel (host := node)
              (VArr [populationRow; VNull]) NoMetadata (VStr "T1")
              (mkError "Cannot read properties of null (reading 'TBL_NM')")
              eq_refl)
    as (good & bad & rest & records & Hrows & Hgood & Hbad & Hout & _).
  exists records. split; [|exact Hout].
  apply (f_equal (@length _)) in Hout.
  rewrite length_app in Hout. simpl in Hout. lia.
Defined.

(** The batch of the witness above: the record of the first row survives
    the failure of the second. *)
Lemma normalize_keeps_partial_output : ~ sentinelOnly (host := node).
Proof.
  intros H.
  specialize (H (VArr [populationRow; VNull]) NoMetadata (VStr "T1")
                (mkError "Cannot read properties of null (reading 'TBL_NM')")
                eq_refl).
  apply (f_equal (@length _)) in H. vm_compute in H. discriminate H.
Qed.

Lemma quiet_sink_acceptsDemo (w : World) :
  (forall history o, pushData w history o = None) -> acceptsDemo w.
Proof. intros H history o _. apply H. Qed.

Lemma runDemoMode_emits_selection_witness :
  exists cfg record,
    validateInput (host := node) (actorInput noKeyWorld) = Ok cfg
    /\ searchKeyword cfg = "GDP"
    /\ statName record = VStr "국내총생산(GDP)"
    /\ runDemoMode (host := node) noKeyWorld cfg initial
       = (Ok tt,
          extend [Emit (DataPoint record);
                  Emit (DemoSummary 1 cfg kosisRegistration)] initial).
Proof.
  exists (configurationOf (host := node) (actorInput noKeyWorld)).
  eexists. split; [reflexivity|]. split; [reflexivity|].
  split;
    [| apply (runDemoMode_emits_selection (host := node) noKeyWorld
                (actorInput noKeyWorld) _ initial eq_refl
                (quiet_sink_acceptsDemo noKeyWorld (fun _ _ => eq_refl))) ].
  reflexivity.
Defined.

Lemma no_credential_runs_demo_witness :
  listCalls (trace (snd (mainLogic (host := node) noKeyWorld initial))) = []
  /\ mainLogic (host := node) noKeyWorld initial
     = (Ok tt,
        extend [Emit (DataPoint gdpRecord);
                Emit (DemoSummary 1 gdpConfiguration kosisRegistration)]
          initial).
Proof.
  destruct (no_credential_runs_demo (host := node) noKeyWorld eq_refl)
    as [Hlist Hrun].
  split; [exact Hlist|].
  rewrite (Hrun gdpConfiguration eq_refl
             (quiet_sink_acceptsDemo noKeyWorld (fun _ _ => eq_refl))).
  reflexivity.
Defined.

Lemma listing_error_can_lose_its_tag_witness :
  getStatsList (host := node) (Rejected garbledError)
  = Throw (mkError "Cannot convert object to primitive value")
  /\ mainLogic (host := node) garbledListingWorld initial
     = (Ok tt,
        extend
          ([CallGetStatsList (buildSearchParams defaultConfiguration);
            Emit (RunError "Cannot convert object to primitive value"
                    defaultConfiguration)]
           ++ map (fun r => Emit (DataPoint r)) demoData
           ++ [Emit (DemoSummary 4 defaultConfiguration kosisRegistration)])
          initial).
Proof.
  destruct (listing_error_can_lose_its_tag (host := node) garbledListingWorld
              defaultConfiguration initial garbledError 500
              (VObj [("message", unprintable)])
              eq_refl eq_refl eq_refl eq_refl)
    as [Hthrown Hrun].
  split; [exact Hthrown|].
  change (mainLogic (host := node) garbledListingWorld initial)
    with (tryCatch (liveRun (host := node) garbledListingWorld
                      defaultConfiguration)
                   (fallback (host := node) garbledListingWorld
                      defaultConfiguration) initial).
  rewrite (Hrun eq_refl). reflexivity.
Defined.

Lemma listing_error_takes_auth_branch_witness :
  includes
    (message (handleApiError (host := node) unauthorized "getStatsList"))
    "API" = true
  /\ errorPushes
       (trace (snd (tryCatch
                      (liveRun (host := node) unauthorizedWorld
                         defaultConfiguration)
                      (fallback (host := node) unauthorizedWorld
                         defaultConfiguration) initial))) = [].
Proof.
  destruct (listing_error_takes_auth_branch (host := node) unauthorizedWorld
              defaultConfiguration initial
              (handleApiError (host := node) unauthorized "getStatsList")
              eq_refl eq_refl eq_refl)
    as (Htag & _ & Hquiet).
  split; [exact Htag | exact Hquiet].
Defined.

Lemma failure_falls_back_to_demo_witness :
  (exists st,
     mainLogic (host := node) unauthorizedWorld initial = (Ok tt, st)
     /\ errorPushes (trace st) = [])
  /\ (exists st,
        mainLogic (host := node) chartFailsWorld initial = (Ok tt, st)
        /\ errorPushes (trace st)
           = [RunError "Actor.openCanvas is not a function"
                defaultConfiguration]).
Proof.
  split.
  - destruct (failure_falls_back_to_demo (host := node) unauthorizedWorld
                defaultConfiguration
                (handleApiError (host := node) unauthorized "getStatsList")
                (observe (CallGetStatsList
                            (buildSearchParams defaultConfiguration)) initial)
                eq_refl eq_refl eq_refl
                (quiet_sink_acceptsDemo unauthorizedWorld
                   (fun _ _ => eq_refl)))
      as [Hauth _].
    eexists. split; [apply Hauth; reflexivity | reflexivity].
  - destruct (failure_falls_back_to_demo (host := node) chartFailsWorld
                defaultConfiguration
                (mkError "Actor.openCanvas is not a function")
                (snd (liveRun (host := node) chartFailsWorld
                        defaultConfiguration initial))
                eq_refl eq_refl eq_refl
                (quiet_sink_acceptsDemo chartFailsWorld (fun _ _ => eq_refl)))
      as [_ Hother].
    eexists. split; [apply (Hother eq_refl eq_refl) | reflexivity].
Defined.

Lemma quiet_sink_acceptsTableErrors (w : World) :
  (forall history o, pushData w history o = None) -> acceptsTableErrors w.
Proof. intros H history tableId tableTitle error. apply H. Qed.

Lemma two_describable : Forall (fun table => describable table = true)
                          [tableA; tableB].
Proof. repeat constructor. Qed.

Lemma table_failure_is_isolated_witness :
  errorPushes
    (trace (snd (processTable (host := node) firstFailsWorld
                   defaultConfiguration tableA initial)))
  = [TableError (VStr "A") (VStr "Unknown Table")
       "KOSIS API Error (getStatsData for A): Status 500 - boom"]
  /\ dataCalls
       (trace (snd (forEach [tableA; tableB]
                      (processTable (host := node) firstFailsWorld
                         defaultConfiguration) initial)))
     = [VStr "A"; VStr "B"].
Proof.
  destruct (table_failure_is_isolated (host := node) firstFailsWorld
              defaultConfiguration
              (quiet_sink_acceptsTableErrors firstFailsWorld
                 (fun _ _ => eq_refl)))
    as [Hone Hloop].
  split.
  - destruct (Hone tableA initial
                (handleApiError (host := node) serverError
                   "getStatsData for A")
                (snd (processTableBody (host := node) firstFailsWorld
                        defaultConfiguration tableA initial))
                eq_refl eq_refl)
      as (Hrun & _ & Hpushes & _).
    rewrite Hrun. exact Hpushes.
  - destruct (Hloop [tableA; tableB] initial two_describable)
      as (_ & _ & Hcalls).
    exact Hcalls.
Defined.

(** The data request of the first table fails, its id cannot be printed:
    the loop ends there, without an error record and without a request for
    the second table. *)
Lemma failure_of_unprintable_table_ends_loop_witness :
  exists st1,
    forEach [tableX; tableB]
      (processTable (host := node) unprintableIdWorld defaultConfiguration)
      initial
    = (Throw (mkError "Cannot convert object to primitive value"), st1)
    /\ errorPushes (trace st1) = []
    /\ dataCalls (trace st1) = [unprintable].
Proof.
  exists (snd (processTableBody (host := node) unprintableIdWorld
                 defaultConfiguration tableX initial)).
  destruct (failure_of_unprintable_table_ends_loop (host := node)
              unprintableIdWorld defaultConfiguration tableX [tableB]
              initial
              (snd (processTableBody (host := node) unprintableIdWorld
                      defaultConfiguration tableX initial))
              (mkError "Cannot convert object to primitive value")
              eq_refl eq_refl eq_refl)
    as (_ & Hquiet & Hloop).
  split; [exact Hloop|]. split; [exact Hquiet | reflexivity].
Defined.

Lemma delay_follows_completed_tables_witness :
  sleeps
    (trace (snd (forEach [tableA]
                   (processTable (host := node) oneTableWorld
                      defaultConfiguration) initial)))
  = [1000]
  /\ sleeps (trace (snd (mainLogic (host := node) noKeyWorld initial))) = [].
Proof.
  destruct (delay_follows_completed_tables (host := node) oneTableWorld
              defaultConfiguration)
    as (Htable & _ & _).
  destruct (Htable tableA initial
              (snd (processTableBody (host := node) oneTableWorld
                      defaultConfiguration tableA initial)) eq_refl)
    as (_ & Hloop & st1 & _ & _ & Hsleeps).
  split; [|reflexivity].
  rewrite (Hloop []). exact Hsleeps.
Defined.

(** One table that succeeds is followed by a delay although it is the
    last. *)
Lemma delay_is_not_between_tables :
  ~ rateLimitAsSpecified (host := node) oneTableWorld.
Proof.
  intros H.
  specialize (H defaultConfiguration [tableA] initial).
  vm_compute in H. discriminate H.
Qed.

(** ** Further runs *)

(** The validator on the input of the repository's unit test. *)
Example validateInput_unit_test :
  validateInput (host := node)
    (VObj [("searchKeyword", VStr "  test  "); ("maxItems", VStr "200");
           ("outputFormat", VStr "invalid")])
  = Ok {| searchKeyword := "test"; vwCd := "MT_ZTITLE"; parentId := "A";
          maxItems := 100; includeMetadata := true;
          outputFormat := "structured"; delayBetweenRequests := 1000 |}.
Proof. reflexivity. Qed.

(** [maxItems: 0], [maxItems: "abc"] and [maxItems: -5]. *)
Example validateInput_maxItems_defaults :
  map (fun v => option_map maxItems
                  (match validateInput (host := node)
                           (VObj [("maxItems", v)]) with
                   | Ok cfg => Some cfg
                   | Throw _ => None
                   end))
      [VNum (numberOfZ 0); VStr "abc"; VNum (numberOfZ (-5))]
  = [Some 10; Some 10; Some 1].
Proof. reflexivity. Qed.

(** A run whose input has a numeric keyword ends in validation, with the
    exception and without output. *)
Example numeric_keyword_ends_the_run :
  mainLogic (host := node) numericKeywordWorld initial
  = (Throw (mkError "input.searchKeyword?.trim is not a function"), initial).
Proof. reflexivity. Qed.

(** A name that carries keywords of two sets goes to the first. *)
Example determineDataType_order :
  determineDataType (host := node) (VStr "경제활동인구조사 취업자수")
  = Ok "population".
Proof. reflexivity. Qed.

(** A table whose raw record the sink refuses is reported once, and the
    next table is processed in full. *)
Example raw_refusal_is_reported :
  let history := trace (snd (mainLogic (host := node) rawRefusedWorld initial))
  in
  errorPushes history = [TableError (VStr "A") (VStr "Unknown Table")
                           "Item is too large"]
  /\ dataCalls history = [VStr "A"; VStr "B"]
  /\ sleeps history = [1000].
Proof. vm_compute. repeat split. Qed.

(** A run whose first table has an id that cannot be printed, and whose
    data request fails: the failure reaches the outer [catch], which
    reports it and falls back to the samples; the second table is never
    asked for. *)
Example unprintable_id_reaches_outer_catch :
  let history :=
    trace (snd (mainLogic (host := node) unprintableIdWorld initial)) in
  errorPushes history
  = [RunError "Cannot convert object to primitive value"
       defaultConfiguration]
  /\ dataCalls history = [unprintable]
  /\ sleeps history = [].
Proof. vm_compute. repeat split. Qed.

(** * Further properties of [utils.js] *)

Section MoreValidatorFacts.
Context {host : Host}.

Lemma validateInput_throws (input : jsvalue) :
  validatable input = false -> exists e, validateInput input = Throw e.
Proof.
  unfold validatable, stringFieldsOk, validateInput. intros H.
  destruct (isNullish input) eqn:Hnull.
  - destruct input; try discriminate Hnull; eexists; reflexivity.
  - cbn [negb andb] in H.
    rewrite !(getProp_field input) by exact Hnull. cbn [bind].
    destruct (trimmable (field input "searchKeyword")) eqn:H1;
      [|rewrite (optTrim_untrimmable _ _ H1); eexists; reflexivity].
    rewrite (optTrim_trimmable _ _ H1). cbn [bind andb] in *.
    destruct (trimmable (field input "vwCd")) eqn:H2;
      [|rewrite (optTrim_untrimmable _ _ H2); eexists; reflexivity].
    rewrite (optTrim_trimmable _ _ H2). cbn [bind andb] in *.
    destruct (trimmable (field input "parentId")) eqn:H3;
      [|rewrite (optTrim_untrimmable _ _ H3); eexists; reflexivity].
    rewrite (optTrim_trimmable _ _ H3). cbn [bind andb] in *.
    destruct (stringable (field input "maxItems")) eqn:H4;
      [|rewrite (parseIntOf_throws _ H4); eexists; reflexivity].
    rewrite (parseIntOf_ok _ H4). cbn [bind andb] in *.
    rewrite (parseIntOf_throws _ H). eexists; reflexivity.
Qed.

Lemma validateInput_inv (input : jsvalue) (cfg : Configuration) :
  validateInput input = Ok cfg ->
  validatable input = true /\ cfg = configurationOf input.
Proof.
  intros H. destruct (validatable input) eqn:Hok.
  - split; [reflexivity|].
    rewrite (validateInput_ok input Hok) in H. inversion H. reflexivity.
  - destruct (validateInput_throws input Hok) as [e He].
    rewrite He in H. discriminate H.
Qed.

(** X1.  [validateInput] returns a configuration exactly on the inputs that
    are not [null] or [undefined], whose [searchKeyword], [vwCd] and
    [parentId] are each absent, [null] or a string, and whose [maxItems]
    and [delayBetweenRequests] can be converted to strings (every value
    but an object with a [toString] entry of its own and an array that
    holds one); on every other input it throws. *)
Theorem validateInput_returns_iff (input : jsvalue) :
  (exists cfg, validateInput input = Ok cfg) <-> validatable input = true.
Proof.
  split.
  - intros [cfg H]. apply (validateInput_inv input cfg H).
  - intros H. exists (configurationOf input). apply validateInput_ok, H.
Qed.

(** X2.  On an input that validation lets through, the delay between
    requests is at least 500: a parsed value of 500 or more is kept, a
    smaller one other than zero becomes 500, and an absent, zero or
    unparseable value gives the default 1000. *)
Theorem validateInput_floors_delay (input : jsvalue) :
  validatable input = true ->
  exists cfg,
    validateInput input = Ok cfg
    /\ 500 <= delayBetweenRequests cfg
    /\ (forall n, parseInt (field input "delayBetweenRequests") = Some n ->
          (500 <= n -> delayBetweenRequests cfg = n)
          /\ (n < 500 -> n <> 0 -> delayBetweenRequests cfg = 500)
          /\ (n = 0 -> delayBetweenRequests cfg = 1000))
    /\ (parseInt (field input "delayBetweenRequests") = None ->
        delayBetweenRequests cfg = 1000)
    /\ (field input "delayBetweenRequests" = VUndefined ->
        delayBetweenRequests cfg = 1000).
Proof.
  intros H. exists (configurationOf input).
  split; [apply validateInput_ok; exact H|].
  simpl. split; [lia|]. split; [|split].
  - intros n Hn. rewrite Hn. unfold intOr.
    destruct n; repeat split; intros; try lia; try discriminate.
  - intros Hn. rewrite Hn. reflexivity.
  - intros Hn. rewrite Hn, parseInt_undefined. reflexivity.
Qed.

(** X3.  In a configuration that [validateInput] returns, the output format
    is the input's when that is one of "structured", "raw" and "both", and
    "structured" for every other value, of whatever type; metadata is
    switched off by the boolean [false] and by nothing else. *)
Theorem validateInput_coerces_flags (input : jsvalue) (cfg : Configuration) :
  validateInput input = Ok cfg ->
  (forall s, field input "outputFormat" = VStr s ->
             In s ["structured"; "raw"; "both"] -> outputFormat cfg = s)
  /\ ((forall s, In s ["structured"; "raw"; "both"] ->
                 field input "outputFormat" <> VStr s) ->
      outputFormat cfg = "structured")
  /\ (includeMetadata cfg = false
      <-> field input "includeMetadata" = VBool false).
Proof.
  intros H. apply validateInput_inv in H as [_ ->]. simpl.
  split; [|split].
  - intros s -> Hs. simpl in Hs.
    destruct Hs as [<-|[<-|[<-|[]]]]; reflexivity.
  - intros Hnot. destruct (field input "outputFormat"); try reflexivity.
    simpl.
    destruct (String.eqb_spec s "structured");
      [exfalso; apply (Hnot s); simpl; auto; congruence|].
    destruct (String.eqb_spec s "raw");
      [exfalso; apply (Hnot s); simpl; auto; congruence|].
    destruct (String.eqb_spec s "both");
      [exfalso; apply (Hnot s); simpl; auto; congruence|].
    reflexivity.
  - destruct (field input "includeMetadata") as [| |[]| | | |]; simpl;
      split; intros Hx; try discriminate Hx; reflexivity.
Qed.

Lemma strOr_nonempty (t : option string) (d : string) :
  d <> "" -> strOr t d <> "".
Proof.
  intros Hd. unfold strOr. destruct t as [s|]; [|exact Hd].
  destruct (String.eqb_spec s ""); assumption.
Qed.

(** X4.  For a configuration that [validateInput] returns, the view code
    and the parent id are never empty, so [buildSearchParams] passes them on
    as they are and its own defaults are never used; the keyword is passed
    on exactly when it is not empty. *)
Theorem buildSearchParams_of_validated
    (input : jsvalue) (cfg : Configuration) :
  validateInput input = Ok cfg ->
  vwCd cfg <> "" /\ parentId cfg <> ""
  /\ buildSearchParams cfg
     = {| sp_vwCd := vwCd cfg;
          sp_parentId := parentId cfg;
          sp_searchKeyword :=
            if (searchKeyword cfg =? "")%string then None
            else Some (searchKeyword cfg) |}.
Proof.
  intros H. apply validateInput_inv in H as [_ ->].
  assert (Hvw : vwCd (configurationOf input) <> "")
    by (apply strOr_nonempty; discriminate).
  assert (Hpid : parentId (configurationOf input) <> "")
    by (apply strOr_nonempty; discriminate).
  split; [exact Hvw|]. split; [exact Hpid|].
  unfold buildSearchParams.
  destruct (String.eqb_spec (vwCd (configurationOf input)) "");
    [contradiction|].
  destruct (String.eqb_spec (parentId (configurationOf input)) "");
    [contradiction|].
  reflexivity.
Qed.

End MoreValidatorFacts.

Lemma prefix_self_app (p extra : string) : prefix p (p ++ extra)%string = true.
Proof.
  induction p as [|c p IH]; simpl.
  - destruct extra; reflexivity.
  - destruct (ascii_dec c c); [exact IH | contradiction].
Qed.

Lemma string_app_assoc (a b c : string) :
  ((a ++ b) ++ c = a ++ (b ++ c))%string.
Proof. induction a as [|x a IH]; simpl; [reflexivity | rewrite IH; reflexivity]. Qed.

Lemma prefix_tag (a c b rest : string) :
  prefix (a ++ c ++ b)%string (a ++ c ++ b ++ rest)%string = true.
Proof.
  replace (a ++ c ++ b ++ rest)%string with ((a ++ c ++ b) ++ rest)%string
    by (rewrite !string_app_assoc; reflexivity).
  apply prefix_self_app.
Qed.

Section RequestFacts.
Context {host : Host}.

(** The tag that an error built by [handleApiError] starts with. *)
Lemma handleApiError_prefix (error : RequestError) (context : string) :
  conveyable error = true ->
  prefix ("KOSIS API Error (" ++ context ++ "): ")%string
         (message (handleApiError error context)) = true.
Proof.
  unfold handleApiError, conveyable.
  destruct (response error) as [[status data]|]; [|destruct (request error)];
    intros H; rewrite ?(toStringOf_ok _ H); cbn [message].
  - exact (prefix_tag "KOSIS API Error (" context "): "
             ("Status " ++ toString (VNum (numberOfZ status)) ++ " - "
              ++ toString (apiErrorMsg data))%string).
  - exact (prefix_tag "KOSIS API Error (" context "): "
             "No response received from server.").
  - exact (prefix_tag "KOSIS API Error (" context "): "
             (errorMessage error)).
Qed.

(** X5.  [getStatsData] returns the rows exactly when the request resolves
    with an array, an empty one included.  In every other case, a rejected
    request or a body of any other shape, it throws: an error whose message
    starts with "KOSIS API Error (getStatsData for <table id>): " when the
    table id and the message of the provider can both be converted to
    strings, and the engine's "Cannot convert object to primitive value"
    when one of them cannot. *)
Theorem getStatsData_rows_or_tagged_error
    (http : axios_result) (tableId : jsvalue) :
  match http with
  | Resolved (VArr rows) => getStatsData http tableId = Ok rows
  | _ =>
      if stringable tableId && conveyable (failureOf http)
      then exists e,
             getStatsData http tableId = Throw e
             /\ prefix ("KOSIS API Error (getStatsData for "
                        ++ toString tableId ++ "): ")%string (message e)
                = true
      else getStatsData http tableId
           = Throw (mkError (typeErrorMessage NotPrimitive))
  end.
Proof.
  assert (Hcatch : forall error,
             if stringable tableId && conveyable error
             then exists e,
                    getStatsDataCatch (A := list jsvalue) error tableId
                    = Throw e
                    /\ prefix ("KOSIS API Error (getStatsData for "
                               ++ toString tableId ++ "): ")%string
                              (message e) = true
             else getStatsDataCatch (A := list jsvalue) error tableId
                  = Throw (mkError (typeErrorMessage NotPrimitive))).
  { intros error. unfold getStatsDataCatch.
    destruct (stringable tableId) eqn:Hid; cbn [andb].
    - rewrite (toStringOf_ok _ Hid). cbn [bind].
      destruct (conveyable error) eqn:Hmsg.
      + eexists. split; [reflexivity|].
        pose proof (handleApiError_prefix error
                      ("getStatsData for " ++ toString tableId)%string Hmsg)
          as H.
        rewrite string_app_assoc in H. exact H.
      + rewrite (handleApiError_untagged _ _ Hmsg). reflexivity.
    - rewrite (toStringOf_throws _ Hid). reflexivity. }
  destruct http as [data|error].
  - destruct data; try reflexivity; apply Hcatch.
  - apply Hcatch.
Qed.

(** X6.  When the listing request resolves, [getStatsList] hands the body
    back unchanged if it is an array (an empty one included) or a truthy
    value with a [length]; for every other body it throws
    "KOSIS API Error (getStatsList): Invalid response format from KOSIS
    API", its own error passed through [handleApiError]. *)
Theorem getStatsList_body_or_invalid_format (data : jsvalue) :
  (isArray data || truthy data && hasLength data = true
   /\ getStatsList (Resolved data) = Ok data)
  \/ (isArray data || truthy data && hasLength data = false
      /\ getStatsList (Resolved data)
         = Throw (mkError "KOSIS API Error (getStatsList): Invalid response format from KOSIS API")).
Proof.
  unfold getStatsList.
  destruct data as [| |b|n|s|elems|props]; simpl; auto.
  - destruct b; auto.
  - destruct (numberTruthy n); auto.
  - destruct (negb (s =? "")%string); auto.
  - destruct (lookup "length" props); auto.
Qed.

End RequestFacts.

Section MoreNormalizerFacts.
Context {host : Host}.

Lemma classify_in (sets : list (string * list string)) (name : string) :
  In (classify sets name) (map fst sets ++ ["general"]).
Proof.
  induction sets as [|[category keywords] sets IH]; simpl.
  - left; reflexivity.
  - destruct (existsb (includes name) keywords); [left; reflexivity|].
    right; exact IH.
Qed.

Lemma determineDataType_inv (v : jsvalue) (kind : string) :
  determineDataType v = Ok kind ->
  exists name,
    v = VStr name /\ kind = classify keywordSets (toLowerCase name).
Proof.
  intros H. destruct v; try discriminate H.
  rewrite determineDataType_classify in H. inversion H.
  eexists; split; reflexivity.
Qed.

(** What the callback makes of a row, when it returns. *)
Lemma normalizeItem_inv (tableId item : jsvalue) (r : NormalizedRecord) :
  normalizeItem tableId item = Ok r ->
  isNullish item = false
  /\ stringable (field item "DT") = true
  /\ exists name isRegion,
       js_or (field item "TBL_NM") (VStr "Unknown Statistic") = VStr name
       /\ (if truthy (field item "C1_NM")
           then includesOf "item.C1_NM" (field item "C1_NM") "지역"
           else Ok false) = Ok isRegion
       /\ r = {| statName := VStr name;
                 surveyDate := js_or (field item "PRD_DE")
                                 (VStr "Unknown Period");
                 region := if isRegion then field item "C1_NM"
                           else VStr "Korea";
                 category1 := js_or (js_or (field item "C1_NM")
                                       (field item "ITM_NM"))
                                (VStr "General");
                 category2 := js_or (field item "C2_NM") (VStr "");
                 value := if numberTruthy (parseFloat (field item "DT"))
                          then parseFloat (field item "DT")
                          else numberOfZ 0;
                 unit_ := js_or (field item "UNIT_NM") (VStr "");
                 sourceTableId := tableId;
                 dataType := classify keywordSets (toLowerCase name);
                 lastUpdated :=
                   if truthy (field item "LST_CHN_DE")
                   then Provided (field item "LST_CHN_DE")
                   else CurrentTime;
                 metadata :=
                   RowMetadata (VStr name) (field item "C1_NM")
                     (field item "C2_NM") (field item "C3_NM")
                     (field item "ITM_NM") item;
                 extractedAt := CurrentTime |}.
Proof.
  intros H. destruct (isNullish item) eqn:Hnull.
  - destruct item; try discriminate Hnull; discriminate H.
  - split; [reflexivity|].
    unfold normalizeItem, parseFloatOf in H.
    rewrite !(getProp_field item) in H by exact Hnull. cbn [bind] in H.
    destruct (stringable (field item "DT")); [|discriminate H].
    split; [reflexivity|]. cbn [bind] in H.
    destruct (if truthy (field item "C1_NM")
              then includesOf "item.C1_NM" (field item "C1_NM") "지역"
              else Ok false) as [isRegion|e]; [|discriminate H].
    cbn [bind] in H.
    destruct (determineDataType
                (js_or (field item "TBL_NM") (VStr "Unknown Statistic")))
      as [kind|e] eqn:Hkind; [|discriminate H].
    cbn [bind] in H.
    apply determineDataType_inv in Hkind as (name & Hname & ->).
    rewrite Hname in H. inversion H.
    exists name, isRegion. repeat split; assumption.
Qed.

(** X7.  The callback of the normalizer makes a record of a row exactly
    when the row is not [null] or [undefined], its [DT] can be converted
    to a string, its [TBL_NM] is falsy or a string, and its [C1_NM] is
    falsy, a string or an array; every other row raises. *)
Theorem normalizeItem_returns_iff (tableId item : jsvalue) :
  (exists r, normalizeItem tableId item = Ok r) <-> rowOk item = true.
Proof.
  unfold rowOk. split.
  - intros [r H]. apply normalizeItem_inv in H
      as (Hnull & Hdt & name & isRegion & Hname & Hregion & _).
    rewrite Hnull, Hdt. cbn [negb andb].
    apply andb_true_iff. split.
    + unfold nameOk, js_or in *.
      destruct (truthy (field item "TBL_NM")); [|reflexivity].
      rewrite Hname. reflexivity.
    + unfold classOk.
      destruct (truthy (field item "C1_NM")); [|reflexivity].
      destruct (field item "C1_NM"); try discriminate Hregion; reflexivity.
  - intros H. repeat (apply andb_true_iff in H as [H ?]).
    apply negb_true_iff in H.
    unfold normalizeItem, parseFloatOf.
    rewrite !(getProp_field item) by exact H. cbn [bind].
    match goal with
    | Hdt : stringable (field item "DT") = true |- _ => rewrite Hdt
    end.
    cbn [bind].
    assert (Hregion : exists isRegion,
               (if truthy (field item "C1_NM")
                then includesOf "item.C1_NM" (field item "C1_NM") "지역"
                else Ok false) = Ok isRegion).
    { unfold classOk in *.
      destruct (truthy (field item "C1_NM")); [|eexists; reflexivity].
      destruct (field item "C1_NM"); try discriminate;
        eexists; reflexivity. }
    destruct Hregion as [isRegion ->]. cbn [bind].
    assert (Hname : exists name,
               js_or (field item "TBL_NM") (VStr "Unknown Statistic")
               = VStr name).
    { unfold nameOk, js_or in *.
      destruct (truthy (field item "TBL_NM")); [|eexists; reflexivity].
      destruct (field item "TBL_NM"); try discriminate;
        eexists; reflexivity. }
    destruct Hname as [name ->].
    rewrite determineDataType_classify. cbn [bind].
    eexists; reflexivity.
Qed.

Lemma classify_not_error (name : string) :
  classify keywordSets name <> "error".
Proof.
  pose proof (classify_in keywordSets name) as Hin.
  set (kind := classify keywordSets name) in *.
  intros Herr. rewrite Herr in Hin. cbv in Hin.
  repeat (destruct Hin as [Hin|Hin]; [discriminate Hin|]). exact Hin.
Qed.

Lemma normalizeItem_kind (tableId item : jsvalue) (r : NormalizedRecord) :
  normalizeItem tableId item = Ok r ->
  sourceTableId r = tableId /\ dataType r <> "error".
Proof.
  intros H. apply normalizeItem_inv in H
    as (_ & _ & name & isRegion & _ & _ & ->).
  cbn [sourceTableId dataType].
  split; [reflexivity | apply classify_not_error].
Qed.

(** X8.  A record made of a row carries the table id it was made for and
    the row itself as [originalData]; its [value] is never [NaN], and is 0
    whenever [parseFloat] of the row's [DT] is [NaN] or zero; its name is a
    string, and its [dataType] is the classifier's answer for that name, so
    one of the eleven categories and never "error". *)
Theorem normalizeItem_record (tableId item : jsvalue) (r : NormalizedRecord) :
  normalizeItem tableId item = Ok r ->
  sourceTableId r = tableId
  /\ value r <> NaN
  /\ (numberTruthy (parseFloat (field item "DT")) = false ->
      value r = numberOfZ 0)
  /\ (exists name,
        statName r = VStr name
        /\ dataType r = classify keywordSets (toLowerCase name)
        /\ metadata r
           = RowMetadata (VStr name) (field item "C1_NM")
               (field item "C2_NM") (field item "C3_NM")
               (field item "ITM_NM") item)
  /\ In (dataType r) categories
  /\ dataType r <> "error".
Proof.
  intros H. apply normalizeItem_inv in H
    as (_ & _ & name & isRegion & _ & _ & ->).
  cbn [sourceTableId value statName dataType metadata].
  assert (Hin : In (classify keywordSets (toLowerCase name)) categories)
    by apply classify_in.
  set (kind := classify keywordSets (toLowerCase name)) in *.
  repeat split.
  - destruct (numberTruthy (parseFloat (field item "DT"))) eqn:Ht;
      [|discriminate].
    intros Hn. rewrite Hn in Ht. discriminate Ht.
  - intros ->. reflexivity.
  - exists name. repeat split.
  - exact Hin.
  - apply classify_not_error.
Qed.

Lemma normalizedTo_length (tableId : jsvalue) (rows : list jsvalue)
    (records : list NormalizedRecord) :
  normalizedTo tableId rows records -> length records = length rows.
Proof. intros H. symmetry. apply (Forall2_length H). Qed.

Lemma normalizedTo_In (tableId : jsvalue) (rows : list jsvalue)
    (records : list NormalizedRecord) (r : NormalizedRecord) :
  normalizedTo tableId rows records -> In r records ->
  exists item, In item rows /\ normalizeItem tableId item = Ok r.
Proof.
  intros H. induction H as [|item r' rows records Hr _ IH]; intros Hin.
  - destruct Hin.
  - destruct Hin as [<-|Hin].
    + exists item. split; [left; reflexivity | exact Hr].
    + destruct (IH Hin) as (item' & Hi & Hn).
      exists item'. split; [right; exact Hi | exact Hn].
Qed.

(** X9.  On a batch none of whose rows raises, the normalizer returns one
    record for each row, in the order of the rows, and no sentinel: the
    result is as long as the batch and none of its records has [dataType]
    "error".  A value that is not an array counts as a batch of one. *)
Theorem normalize_clean_batch
    (rawData : jsvalue) (meta : table_metadata) (tableId : jsvalue) :
  raisedBy tableId rawData = None ->
  normalizedTo tableId (rowsOf rawData)
    (normalizeStatisticalData rawData meta tableId)
  /\ length (normalizeStatisticalData rawData meta tableId)
     = length (rowsOf rawData)
  /\ Forall (fun r => dataType r <> "error" /\ sourceTableId r = tableId)
       (normalizeStatisticalData rawData meta tableId).
Proof.
  unfold raisedBy, normalizeStatisticalData. intros H.
  change (rowsOf (VArr (rowsOf rawData))) with (rowsOf rawData).
  pose proof (forEachItem_spec tableId (rowsOf rawData) []) as Hspec.
  destruct (forEachItem tableId (rowsOf rawData) []) as [out [e|]];
    simpl in H; [discriminate H|].
  destruct Hspec as (records & Hall & ->). simpl app.
  split; [exact Hall|]. split; [apply (normalizedTo_length _ _ _ Hall)|].
  apply Forall_forall. intros r Hin.
  destruct (normalizedTo_In _ _ _ r Hall Hin) as (item & _ & Hr).
  destruct (normalizeItem_kind _ _ _ Hr) as [Hid Hkind].
  split; assumption.
Qed.

End MoreNormalizerFacts.

Section MoreNormalizerInvariants.
Context {host : Host}.

(** X10.  Whatever the batch, every record of the result carries the table
    id; the result has at most as many records as the batch has rows; and a
    record whose [dataType] is "error" is the sentinel of a batch that
    raised. *)
Theorem normalize_output_invariant
    (rawData : jsvalue) (meta : table_metadata) (tableId : jsvalue) :
  let out := normalizeStatisticalData rawData meta tableId in
  Forall (fun r => sourceTableId r = tableId) out
  /\ (length out <= length (rowsOf rawData))%nat
  /\ forall r,
       In r out -> dataType r = "error" ->
       exists e,
         raisedBy tableId rawData = Some e
         /\ r = errorRecord tableId e (VArr (rowsOf rawData)).
Proof.
  unfold raisedBy, normalizeStatisticalData.
  change (rowsOf (VArr (rowsOf rawData))) with (rowsOf rawData).
  pose proof (forEachItem_spec tableId (rowsOf rawData) []) as Hspec.
  destruct (forEachItem tableId (rowsOf rawData) []) as [out [e|]];
    cbn [snd].
  - destruct Hspec as (good & bad & rest & records & Hrows & Hgood & _ & ->).
    simpl app. split; [|split].
    + apply Forall_app. split; [|repeat constructor].
      apply Forall_forall. intros r Hin.
      destruct (normalizedTo_In _ _ _ r Hgood Hin) as (item & _ & Hr).
      apply (normalizeItem_kind _ _ _ Hr).
    + rewrite Hrows, !length_app, (normalizedTo_length _ _ _ Hgood).
      simpl. lia.
    + intros r Hin Herr. exists e. split; [reflexivity|].
      apply in_app_or in Hin as [Hin|[<-|[]]]; [|reflexivity].
      destruct (normalizedTo_In _ _ _ r Hgood Hin) as (item & _ & Hr).
      exfalso. apply (normalizeItem_kind _ _ _ Hr). exact Herr.
  - destruct Hspec as (records & Hall & ->). simpl app. split; [|split].
    + apply Forall_forall. intros r Hin.
      destruct (normalizedTo_In _ _ _ r Hall Hin) as (item & _ & Hr).
      apply (normalizeItem_kind _ _ _ Hr).
    + rewrite (normalizedTo_length _ _ _ Hall). lia.
    + intros r Hin Herr.
      destruct (normalizedTo_In _ _ _ r Hall Hin) as (item & _ & Hr).
      exfalso. apply (normalizeItem_kind _ _ _ Hr). exact Herr.
Qed.

End MoreNormalizerInvariants.

(** * Further properties of [main.js] *)

Section MoreMainFacts.
Context {host : Host}.
Variable w : World.

Ltac run_keeps :=
  repeat
    lazymatch goal with
    | |- keeps _ (ret _) => apply keeps_ret
    | |- keeps _ (lift _) => apply keeps_lift
    | |- keeps _ (gets _) => apply keeps_gets
    | |- keeps _ (modify _) => apply keeps_modify; intros; reflexivity
    | |- keeps _ (when _ _) => apply keeps_when
    | |- keeps _ (forEach _ _) => apply keeps_forEach; intros
    | |- keeps _ (andThen _ _) => apply keeps_andThen; [|intros]
    | |- keeps _ (tryCatch _ _) => apply keeps_tryCatch; [|intros]
    | |- keeps _ (mark _) => apply keeps_mark; intros
    | |- keeps _ (sleep _) => apply keeps_mark; intros
    | |- keeps _ (emit _ _) => apply keeps_emit; intros
    | |- keeps _ (fetchStatsData _ _ _) => apply keeps_fetchStatsData; intros
    | |- keeps _ (chart _ _) => apply keeps_chart; intros
    | |- keeps _ (if ?b then _ else _) => destruct b
    | |- _ = _ => first [ reflexivity | apply view_observe; reflexivity ]
    end.

(** ** A descriptor that is [null] *)

(** X11.  A table descriptor that is [null] or [undefined] is not isolated:
    reading its id throws in the [try] block and again in the [catch]
    block, so the iteration throws the engine's error, pushes no error
    record, and the loop ends there without touching the tables that
    follow. *)
Theorem null_descriptor_aborts_loop
    (cfg : Configuration) (table : jsvalue) (rest : list jsvalue)
    (st : State) :
  isNullish table = true ->
  processTable w cfg table st
  = (Throw (mkError (typeErrorMessage (ReadOfNullish table "TBL_ID"))),
     countTable st)
  /\ forEach (table :: rest) (processTable w cfg) st
     = (Throw (mkError (typeErrorMessage (ReadOfNullish table "TBL_ID"))),
        countTable st)
  /\ trace (countTable st) = trace st.
Proof.
  intros H.
  assert (Hrun : processTable w cfg table st
                 = (Throw (mkError
                             (typeErrorMessage (ReadOfNullish table "TBL_ID"))),
                    countTable st)).
  { destruct table; try discriminate H; reflexivity. }
  split; [exact Hrun|]. split; [|reflexivity].
  simpl. unfold andThen. rewrite Hrun. reflexivity.
Qed.

(** ** The shape of the outer [try] block *)

Lemma liveRun_tables (cfg : Configuration) (st : State)
    (statsList : jsvalue) (tables : list jsvalue) :
  truthy (kosisApiKey w) = true ->
  getStatsList (listResponse w (buildSearchParams cfg)) = Ok statsList ->
  logFound statsList = Ok tt ->
  lengthIsZero statsList = Ok false ->
  sliceTables statsList (maxItems cfg) = Ok tables ->
  liveRun w cfg st
  = andThen (forEach tables (processTable w cfg)) (fun _ => afterLoop w cfg)
      (resetCounters
         (observe (CallGetStatsList (buildSearchParams cfg)) st)).
Proof.
  intros Hkey Hlist Hlog Hzero Hslice.
  unfold liveRun, createKosisApiClient. rewrite Hkey. cbn [negb].
  unfold andThen at 1, lift at 1. unfold andThen at 1, mark.
  rewrite Hlist. unfold andThen at 1, lift at 1.
  rewrite Hlog. unfold andThen at 1, lift at 1.
  rewrite Hzero. unfold andThen at 1, lift at 1.
  rewrite Hslice. unfold andThen at 1, lift at 1.
  unfold andThen at 1, modify. reflexivity.
Qed.

Lemma mainLogic_live (cfg : Configuration) :
  validateInput (js_or (actorInput w) (VObj [])) = Ok cfg ->
  truthy (kosisApiKey w) = true ->
  mainLogic w initial = tryCatch (liveRun w cfg) (fallback w cfg) initial.
Proof.
  intros Hcfg Hkey. unfold mainLogic, andThen, lift.
  rewrite Hcfg, Hkey. reflexivity.
Qed.

(** X12.  A credentialed run whose listing comes back as an empty array
    pushes one record, the no-data message with the search parameters, and
    is over: no table is processed, no summary is written and the demo
    fallback is not run. *)
Theorem empty_list_run (cfg : Configuration) :
  validateInput (js_or (actorInput w) (VObj [])) = Ok cfg ->
  truthy (kosisApiKey w) = true ->
  listResponse w (buildSearchParams cfg) = Resolved (VArr []) ->
  pushData w [CallGetStatsList (buildSearchParams cfg)]
    (NoData (buildSearchParams cfg)) = None ->
  mainLogic w initial
  = (Ok tt,
     extend [CallGetStatsList (buildSearchParams cfg);
             Emit (NoData (buildSearchParams cfg))] initial).
Proof.
  intros Hcfg Hkey Hlist Hpush.
  rewrite (mainLogic_live cfg Hcfg Hkey).
  unfold tryCatch, liveRun, createKosisApiClient. rewrite Hkey. cbn [negb].
  cbv [andThen lift mark]. rewrite Hlist. cbn.
  unfold emit. cbn. rewrite Hpush. reflexivity.
Qed.

(** ** The loop, for a sink that takes error records *)

Lemma forEach_processTable_steps (cfg : Configuration)
    (tables : list jsvalue) :
  acceptsTableErrors w ->
  Forall (fun table => describable table = true) tables ->
  forall st,
    exists st',
      forEach tables (processTable w cfg) st = (Ok tt, st')
      /\ processedTables st' = (processedTables st + length tables)%nat
      /\ dataCalls (trace st')
         = dataCalls (trace st) ++ labels tables (processedTables st).
Proof.
  intros Hsink Hall.
  induction Hall as [|table tables Htable Hall IH]; intros st; simpl.
  - exists st. repeat split. + lia. + symmetry; apply app_nil_r.
  - destruct (processTable_step w cfg table st Htable Hsink)
      as (st1 & Hrun & Hcount & Hcalls).
    unfold andThen. rewrite Hrun.
    destruct (IH st1) as (st' & Hloop & Hn & Hd).
    exists st'. split; [exact Hloop|]. split.
    + rewrite Hn, Hcount. lia.
    + rewrite Hd, Hcalls, Hcount, <- app_assoc. reflexivity.
Qed.

(** ** The metadata switch *)

Lemma processTable_metaCalls (cfg : Configuration) (table : jsvalue)
    (st : State) :
  describable table = true ->
  acceptsTableErrors w ->
  metaCalls (trace (snd (processTable w cfg table st)))
  = metaCalls (trace st)
    ++ (if includeMetadata cfg
        then [tableLabel table (S (processedTables st))] else []).
Proof.
  intros Hd Hsink.
  destruct (describable_parts table Hd) as (H & Hid & Htitle).
  unfold processTable, tryCatch.
  rewrite (processTableBody_unfold w cfg table st H Htitle). cbv zeta.
  set (tableId := tableLabel table (S (processedTables st))).
  set (orgId := js_or (field table "ORG_ID") (VStr "101")).
  set (st3 := observe (CallGetStatsData tableId orgId)
                (afterMetadata cfg tableId (countTable st))).
  assert (Hcalls : metaCalls (trace st3)
                   = metaCalls (trace st)
                     ++ (if includeMetadata cfg then [tableId] else [])).
  { unfold st3, metaCalls.
    rewrite (view_observe metaCallOf) by reflexivity.
    unfold afterMetadata. destruct (includeMetadata cfg).
    - unfold observe. rewrite view_extend. reflexivity.
    - symmetry; apply app_nil_r. }
  assert (Hcatch : forall e st4,
             metaCalls (trace (snd (processTableCatch w cfg table e st4)))
             = metaCalls (trace st4)).
  { intros e st4.
    rewrite (processTableCatch_ok w cfg table e st4 H (Hid _) Hsink).
    apply (view_observe metaCallOf). reflexivity. }
  destruct (getStatsData _ tableId) as [rows|e].
  - unfold andThen.
    pose proof (keeps_emitTable w metaCallOf cfg table tableId
                  (metadataFor cfg tableId) rows
                  (fun o _ => conj eq_refl (fun _ => eq_refl)) st3) as Hview.
    destruct (emitTable w cfg table tableId (metadataFor cfg tableId) rows st3)
      as [[[]|e] st4]; cbn [snd] in Hview.
    + unfold sleep, mark. cbn [snd]. unfold metaCalls in *.
      rewrite (view_observe metaCallOf) by reflexivity.
      rewrite Hview. exact Hcalls.
    + rewrite Hcatch. unfold metaCalls in *. rewrite Hview. exact Hcalls.
  - rewrite Hcatch. exact Hcalls.
Qed.

(** X13.  Over the loop, for table descriptors that are not [null] and
    whose id and title can be converted to strings, and a sink that takes
    error records: with [includeMetadata] on, metadata is asked for once
    per table, under the id under which its data is requested, whether the
    table then succeeds or fails; with it off, metadata is never asked
    for. *)
Theorem metadata_follows_the_switch
    (cfg : Configuration) (tables : list jsvalue) :
  acceptsTableErrors w ->
  Forall (fun table => describable table = true) tables ->
  forall st,
    metaCalls (trace (snd (forEach tables (processTable w cfg) st)))
    = metaCalls (trace st)
      ++ (if includeMetadata cfg then labels tables (processedTables st)
          else []).
Proof.
  intros Hsink Hall.
  induction Hall as [|table tables Htable Hall IH]; intros st; simpl.
  - destruct (includeMetadata cfg); symmetry; apply app_nil_r.
  - destruct (processTable_step w cfg table st Htable Hsink)
      as (st1 & Hrun & Hcount & _).
    pose proof (processTable_metaCalls cfg table st Htable Hsink) as Hmeta.
    unfold andThen. rewrite Hrun in *. cbn [snd] in Hmeta.
    rewrite IH, Hmeta, Hcount.
    destruct (includeMetadata cfg); rewrite <- app_assoc; reflexivity.
Qed.

(** ** The output format *)

Lemma emitTable_unstructured (cfg : Configuration) (table tableId : jsvalue)
    (meta : table_metadata) (rows : list jsvalue) :
  wantsStructured cfg = false ->
  emitTable w cfg table tableId meta rows
  = andThen (when (wantsRaw cfg) (emit w (RawOutput tableId table meta rows)))
            (fun _ => ret tt).
Proof. intros H. unfold emitTable. rewrite H. reflexivity. Qed.

Lemma emitTable_not_raw (cfg : Configuration) (table tableId : jsvalue)
    (meta : table_metadata) (rows : list jsvalue) :
  wantsRaw cfg = false ->
  keeps (fun st => flat_map rawPushOf (trace st))
        (emitTable w cfg table tableId meta rows).
Proof.
  intros H. unfold emitTable. rewrite H. cbv zeta. unfold when at 1.
  run_keeps.
Qed.

Lemma keeps_processTable_parts {X : Type} (f : State -> X)
    (cfg : Configuration) (table : jsvalue) :
  (forall st, f (countTable st) = f st) ->
  (forall e st, besideOutput e = true -> f (observe e st) = f st) ->
  (forall tableId meta rows,
     keeps f (emitTable w cfg table tableId meta rows)) ->
  keeps f (processTable w cfg table).
Proof.
  intros Hcount Hobs Hemit.
  unfold processTable, processTableBody, processTableCatch, fetchMetadata.
  apply keeps_tryCatch; [|intros].
  - apply keeps_andThen; [apply keeps_modify; exact Hcount | intros].
    repeat lazymatch goal with
           | |- keeps _ (emitTable _ _ _ _ _ _) => apply Hemit
           | |- keeps _ (andThen _ _) => apply keeps_andThen; [|intros]
           | |- keeps _ (if ?b then _ else _) => destruct b
           | |- keeps _ (ret _) => apply keeps_ret
           | |- keeps _ (lift _) => apply keeps_lift
           | |- keeps _ (gets _) => apply keeps_gets
           | |- keeps _ (mark _) =>
               apply keeps_mark; intros; apply Hobs; reflexivity
           | |- keeps _ (sleep _) =>
               apply keeps_mark; intros; apply Hobs; reflexivity
           | |- keeps _ (fetchStatsData _ _ _) =>
               apply keeps_fetchStatsData; intros; apply Hobs; reflexivity
           end.
  - repeat lazymatch goal with
           | |- keeps _ (andThen _ _) => apply keeps_andThen; [|intros]
           | |- keeps _ (lift _) => apply keeps_lift
           | |- keeps _ (gets _) => apply keeps_gets
           | |- keeps _ (emit _ _) =>
               apply keeps_emit; intros; apply Hobs; reflexivity
           end.
Qed.

(** X14.  Over the loop, whatever the tables and the sink: when the output
    format is neither "structured" nor "both", nothing is normalized, so no
    record is collected for the chart and the count of data points does not
    move; when it is neither "raw" nor "both", no raw record is offered to
    the sink. *)
Theorem output_format_selects_blocks
    (cfg : Configuration) (tables : list jsvalue) (st : State) :
  (wantsStructured cfg = false ->
   allNormalizedData (snd (forEach tables (processTable w cfg) st))
   = allNormalizedData st
   /\ totalDataPoints (snd (forEach tables (processTable w cfg) st))
      = totalDataPoints st)
  /\ (wantsRaw cfg = false ->
      rawPushes (trace (snd (forEach tables (processTable w cfg) st)))
      = rawPushes (trace st)).
Proof.
  split.
  - intros H. split.
    + apply (keeps_forEach allNormalizedData). intros table.
      apply keeps_processTable_parts; try reflexivity.
      intros. rewrite (emitTable_unstructured _ _ _ _ _ H). run_keeps.
    + apply (keeps_forEach totalDataPoints). intros table.
      apply keeps_processTable_parts; try reflexivity.
      intros. rewrite (emitTable_unstructured _ _ _ _ _ H). run_keeps.
  - intros H. unfold rawPushes.
    apply (keeps_forEach (fun st => flat_map rawPushOf (trace st))).
    intros table. apply keeps_processTable_parts.
    + reflexivity.
    + intros e st' He. apply view_observe.
      destruct e as [| | |[]|[]| |]; try discriminate He; reflexivity.
    + intros. apply emitTable_not_raw, H.
Qed.

(** ** The count of data points *)

Lemma pointsLead_observe (e : event) (st : State) :
  pointOf e = [] -> pointsLead (observe e st) = pointsLead st.
Proof.
  intros H. unfold pointsLead, points.
  rewrite (view_observe pointOf e st H). reflexivity.
Qed.

Lemma pointsLead_emit_point (r : NormalizedRecord) :
  keeps pointsLead
        (andThen (emit w (DataPoint r)) (fun _ => modify countDataPoint)).
Proof.
  intros st. unfold andThen, emit, modify.
  destruct (pushData w (trace st) (DataPoint r)); cbn [snd].
  - apply pointsLead_observe. reflexivity.
  - unfold pointsLead, points, observe.
    cbn [totalDataPoints countDataPoint trace extend].
    rewrite flat_map_app, length_app.
    cbn [flat_map pointOf app length]. lia.
Qed.

Lemma pointsLead_emitTable (cfg : Configuration) (table tableId : jsvalue)
    (meta : table_metadata) (rows : list jsvalue) :
  keeps pointsLead (emitTable w cfg table tableId meta rows).
Proof.
  unfold emitTable. cbv zeta.
  apply keeps_andThen; [|intros _]; apply keeps_when.
  - apply keeps_emit; intros; apply pointsLead_observe; reflexivity.
  - apply keeps_andThen; [apply keeps_modify; reflexivity | intros _].
    apply keeps_forEach. intros r. apply pointsLead_emit_point.
Qed.

Lemma pointsLead_processTable (cfg : Configuration) (table : jsvalue) :
  keeps pointsLead (processTable w cfg table).
Proof.
  apply keeps_processTable_parts.
  - reflexivity.
  - intros e st He. apply pointsLead_observe.
    destruct e as [| | |[]|[]| |]; try discriminate He; reflexivity.
  - intros. apply pointsLead_emitTable.
Qed.

(** X15.  Over the loop, whatever the tables and the sink,
    [totalDataPoints] grows by exactly the number of normalized records
    that the sink accepted: a record whose push is refused is not counted,
    and neither is a raw record or an error record. *)
Theorem totalDataPoints_counts_accepted_points
    (cfg : Configuration) (tables : list jsvalue) (st : State) :
  let st' := snd (forEach tables (processTable w cfg) st) in
  (totalDataPoints st' + length (points (trace st))
   = totalDataPoints st + length (points (trace st')))%nat.
Proof.
  cbv zeta.
  pose proof (keeps_forEach pointsLead tables (processTable w cfg)
                (pointsLead_processTable cfg) st) as H.
  unfold pointsLead in H. lia.
Qed.

(** ** How a run ends *)

Lemma closes_emit (o : output) : closing o = true -> closes (emit w o).
Proof.
  intros H st. unfold emit.
  destruct (pushData w (trace st) o); [exact I|].
  exists st, o. split; [reflexivity | exact H].
Qed.

Lemma closes_andThen {A : Type} (c : Run A) (k : A -> Run unit) :
  (forall a, closes (k a)) -> closes (andThen c k).
Proof.
  intros Hk st. unfold andThen.
  destruct (c st) as [[a|e] st0]; [apply Hk | exact I].
Qed.

Lemma closes_tryCatch (body : Run unit) (handler : Error -> Run unit) :
  closes body -> (forall e, closes (handler e)) ->
  closes (tryCatch body handler).
Proof.
  intros Hb Hh st. unfold tryCatch. specialize (Hb st).
  destruct (body st) as [[[]|e] st0]; [exact Hb | apply Hh].
Qed.

Lemma closes_runDemoMode (cfg : Configuration) : closes (runDemoMode w cfg).
Proof.
  unfold runDemoMode. apply closes_andThen. intros _.
  apply closes_emit. reflexivity.
Qed.

Lemma closes_liveRun (cfg : Configuration) : closes (liveRun w cfg).
Proof.
  unfold liveRun. cbv zeta.
  repeat lazymatch goal with
         | |- closes (andThen _ _) => apply closes_andThen; intros
         | |- closes (if ?b then _ else _) => destruct b
         | |- closes (emit _ _) => apply closes_emit; reflexivity
         end.
Qed.

Lemma closes_fallback (cfg : Configuration) (e : Error) :
  closes (fallback w cfg e).
Proof.
  unfold fallback. destruct (authFailure (message e)).
  - apply closes_runDemoMode.
  - apply closes_andThen. intros _. apply closes_runDemoMode.
Qed.

(** X16.  A run of [mainLogic] that completes without an exception has, as
    its last step, had the sink accept a closing record: the summary, the
    demo summary or the no-data message.  No completed run is without
    output. *)
Theorem completed_run_ends_with_closing_record (st st' : State) :
  mainLogic w st = (Ok tt, st') ->
  exists st1 o,
    st' = observe (Emit o) st1
    /\ closing o = true
    /\ trace st' <> [].
Proof.
  intros H.
  assert (Hc : closes (mainLogic w)).
  { unfold mainLogic. apply closes_andThen. intros cfg.
    destruct (negb (truthy (kosisApiKey w))).
    - apply closes_runDemoMode.
    - apply closes_tryCatch; [apply closes_liveRun | apply closes_fallback]. }
  specialize (Hc st). rewrite H in Hc.
  destruct Hc as (st1 & o & -> & Ho).
  exists st1, o. repeat split; try assumption.
  unfold observe, extend. cbn [trace]. intros Hnil.
  apply app_eq_nil in Hnil as [_ Hnil]. discriminate Hnil.
Qed.

(** ** Which tables a run requests *)

Lemma keeps_afterLoop {X : Type} (g : event -> list X) (cfg : Configuration) :
  (forall data, g (RenderChart data) = []) ->
  (forall o, g (Emit o) = [] /\ forall e, g (EmitFailed o e) = []) ->
  keeps (fun st => flat_map g (trace st)) (afterLoop w cfg).
Proof.
  intros Hchart Hout. unfold afterLoop.
  repeat lazymatch goal with
         | |- keeps _ (andThen _ _) => apply keeps_andThen; [|intros]
         | |- keeps _ (gets _) => apply keeps_gets
         | |- keeps _ (when _ _) => apply keeps_when
         | |- keeps _ (chart _ _) =>
             apply keeps_chart; intros; apply view_observe; apply Hchart
         | |- keeps _ (emit _ _) =>
             apply keeps_emit; intros; apply view_observe; apply Hout
         end.
Qed.

Lemma keeps_fallback {X : Type} (g : event -> list X) (cfg : Configuration)
    (e : Error) :
  (forall o, g (Emit o) = [] /\ forall e, g (EmitFailed o e) = []) ->
  keeps (fun st => flat_map g (trace st)) (fallback w cfg e).
Proof.
  intros Hout. unfold fallback.
  destruct (authFailure (message e)).
  - apply keeps_runDemoMode. intros o _. apply Hout.
  - apply keeps_andThen; [|intros _].
    + apply keeps_emit; intros; apply view_observe; apply Hout.
    + apply keeps_runDemoMode. intros o _. apply Hout.
Qed.

Lemma run_dataCalls (cfg : Configuration) (statsList : jsvalue)
    (tables : list jsvalue) :
  validateInput (js_or (actorInput w) (VObj [])) = Ok cfg ->
  truthy (kosisApiKey w) = true ->
  getStatsList (listResponse w (buildSearchParams cfg)) = Ok statsList ->
  logFound statsList = Ok tt ->
  lengthIsZero statsList = Ok false ->
  sliceTables statsList (maxItems cfg) = Ok tables ->
  Forall (fun table => describable table = true) tables ->
  acceptsTableErrors w ->
  dataCalls (trace (snd (mainLogic w initial))) = labels tables 0.
Proof.
  intros Hcfg Hkey Hlist Hlog Hzero Hslice Hall Hsink.
  rewrite (mainLogic_live cfg Hcfg Hkey). unfold tryCatch.
  rewrite (liveRun_tables cfg initial statsList tables Hkey Hlist Hlog Hzero
             Hslice).
  set (st0 := resetCounters
                (observe (CallGetStatsList (buildSearchParams cfg)) initial)).
  destruct (forEach_processTable_steps cfg tables Hsink Hall st0)
    as (st1 & Hloop & _ & Hcalls).
  unfold andThen. rewrite Hloop.
  change (dataCalls (trace st0)) with (@nil jsvalue) in Hcalls.
  simpl app in Hcalls.
  pose proof (keeps_afterLoop dataCallOf cfg (fun _ => eq_refl)
                (fun _ => conj eq_refl (fun _ => eq_refl)) st1) as Hafter.
  destruct (afterLoop w cfg st1) as [[[]|e] st2]; cbn [snd] in Hafter.
  - cbn [snd]. unfold dataCalls in *. congruence.
  - unfold dataCalls in *.
    rewrite (keeps_fallback dataCallOf cfg e
               (fun _ => conj eq_refl (fun _ => eq_refl)) st2).
    congruence.
Qed.

Lemma Forall_firstn {A : Type} (P : A -> Prop) (n : nat) (xs : list A) :
  Forall P xs -> Forall P (firstn n xs).
Proof.
  intros H. revert n. induction H as [|x xs Hx _ IH]; intros [|n]; simpl;
    constructor; auto.
Qed.

Lemma labels_length (tables : list jsvalue) (n : nat) :
  length (labels tables n) = length tables.
Proof.
  revert n. induction tables as [|t tables IH]; intros n; simpl;
    [reflexivity | rewrite IH; reflexivity].
Qed.

(** X17.  A credentialed run whose listing is a non-empty array of table
    descriptors (none [null], and each with an id and a title that can be
    converted to strings), with a sink that takes error records, requests
    the data of the first [maxItems] tables of the list, in list order,
    once each, and of no other: never of more than 100 tables.  This holds
    whatever fails later in the run. *)
Theorem live_run_requests_first_maxItems
    (cfg : Configuration) (all : list jsvalue) :
  validateInput (js_or (actorInput w) (VObj [])) = Ok cfg ->
  truthy (kosisApiKey w) = true ->
  listResponse w (buildSearchParams cfg) = Resolved (VArr all) ->
  all <> [] ->
  Forall (fun table => describable table = true) all ->
  acceptsTableErrors w ->
  dataCalls (trace (snd (mainLogic w initial)))
  = labels (firstn (Z.to_nat (maxItems cfg)) all) 0
  /\ (length (dataCalls (trace (snd (mainLogic w initial)))) <= 100)%nat
  /\ (length (dataCalls (trace (snd (mainLogic w initial)))) <= length all)%nat.
Proof.
  intros Hcfg Hkey Hlist Hne Hall Hsink.
  pose proof (validateInput_bounds _ _ Hcfg) as (Hmax & _).
  assert (Hcalls : dataCalls (trace (snd (mainLogic w initial)))
                   = labels (firstn (Z.to_nat (maxItems cfg)) all) 0).
  { apply (run_dataCalls cfg (VArr all)); try assumption.
    - rewrite Hlist. reflexivity.
    - reflexivity.
    - destruct all; [contradiction | reflexivity].
    - simpl. rewrite slice0_firstn by lia. reflexivity.
    - apply Forall_firstn, Hall. }
  split; [exact Hcalls|].
  rewrite Hcalls, labels_length, length_firstn. split; lia.
Qed.

Lemma labels_text (chars : list string) (n : nat) :
  labels (map VStr chars) n
  = map (fun k => VStr ("table_"
                        ++ toString (VNum (numberOfZ (Z.of_nat k))))%string)
        (seq (S n) (length chars)).
Proof.
  revert n. induction chars as [|c chars IH]; intros n; simpl;
    [reflexivity|].
  rewrite IH. reflexivity.
Qed.

(** X18.  When the listing request resolves with text instead of an array
    (an error page, say), the lister lets it through for its [length] and
    the run treats each character of its first [maxItems] code units as a
    table descriptor: it requests data for the ids "table_1", "table_2",
    ... one per character. *)
Theorem text_listing_is_iterated_by_character
    (cfg : Configuration) (body : string) :
  validateInput (js_or (actorInput w) (VObj [])) = Ok cfg ->
  truthy (kosisApiKey w) = true ->
  listResponse w (buildSearchParams cfg) = Resolved (VStr body) ->
  body <> "" ->
  acceptsTableErrors w ->
  dataCalls (trace (snd (mainLogic w initial)))
  = map (fun k => VStr ("table_"
                        ++ toString (VNum (numberOfZ (Z.of_nat k))))%string)
        (seq 1 (length (sliceChars body (maxItems cfg)))).
Proof.
  intros Hcfg Hkey Hlist Hne Hsink.
  rewrite <- labels_text.
  assert (Hfalse : (body =? "")%string = false)
    by (apply String.eqb_neq; exact Hne).
  apply (run_dataCalls cfg (VStr body)); try assumption.
  - rewrite Hlist. unfold getStatsList. simpl. rewrite Hfalse. reflexivity.
  - reflexivity.
  - simpl. rewrite Hfalse. reflexivity.
  - reflexivity.
  - apply Forall_forall. intros t Hin.
    apply in_map_iff in Hin as (c & <- & _). reflexivity.
Qed.

(** X19.  An object with a [length] that is not zero and can be converted
    to a string passes the lister as array-like but has no [slice]: the
    outer [try] block throws the engine's "is not a function" error right
    after the listing, before any table is processed and before anything
    is pushed. *)
Theorem array_like_object_cannot_be_sliced
    (cfg : Configuration) (props : list (string * jsvalue)) (st : State) :
  truthy (kosisApiKey w) = true ->
  listResponse w (buildSearchParams cfg) = Resolved (VObj props) ->
  lookup "length" props <> VUndefined ->
  stringable (lookup "length" props) = true ->
  lengthIsZero (VObj props) = Ok false ->
  liveRun w cfg st
  = (Throw (mkError (typeErrorMessage (NotAFunction "statsList.slice"))),
     observe (CallGetStatsList (buildSearchParams cfg)) st).
Proof.
  intros Hkey Hlist Hlen Hprint Hzero.
  unfold liveRun, createKosisApiClient. rewrite Hkey. cbn [negb].
  cbv [andThen lift mark]. rewrite Hlist.
  assert (Hok : getStatsList (Resolved (VObj props)) = Ok (VObj props)).
  { unfold getStatsList. simpl.
    destruct (lookup "length" props); try reflexivity. contradiction. }
  assert (Hlog : logFound (VObj props) = Ok tt).
  { unfold logFound. apply logLine_ok, Hprint. }
  rewrite Hok, Hlog, Hzero. reflexivity.
Qed.

(** ** The size of the demo output *)

(** X20.  For a configuration whose [maxItems] is not negative, the demo
    fallback shows at most four records and at most [maxItems]; without a
    keyword it shows exactly the smaller of the two numbers. *)
Theorem demo_output_size (cfg : Configuration) :
  0 <= maxItems cfg ->
  (length (filteredData cfg) <= 4)%nat
  /\ Z.of_nat (length (filteredData cfg)) <= maxItems cfg
  /\ (searchKeyword cfg = "" ->
      Z.of_nat (length (filteredData cfg)) = Z.min 4 (maxItems cfg)).
Proof.
  intros H. unfold filteredData.
  rewrite slice0_firstn by exact H. rewrite length_firstn.
  destruct (String.eqb_spec (searchKeyword cfg) "") as [Hkw|Hkw]; cbn [negb].
  - change (length demoData) with 4%nat. repeat split; lia.
  - pose proof (filter_length_le
                  (demoMatch (toLowerCase (searchKeyword cfg))) demoData) as Hf.
    change (length demoData) with 4%nat in Hf.
    repeat split; try lia. intros Hkw'. contradiction.
Qed.

(** ** A run in which nothing fails *)

Lemma forEach_points_ok (rs : list NormalizedRecord) :
  acceptsAll w ->
  forall st,
    exists st',
      forEach rs
        (fun dataPoint =>
           andThen (emit w (DataPoint dataPoint))
                   (fun _ => modify countDataPoint)) st
      = (Ok tt, st').
Proof.
  intros Hsink. induction rs as [|r rs IH]; intros st; simpl.
  - exists st. reflexivity.
  - unfold andThen at 1 2. rewrite (emit_accepted w _ _ (Hsink _ _)).
    unfold modify at 1. apply IH.
Qed.

Lemma emitTable_ok (cfg : Configuration) (table tableId : jsvalue)
    (meta : table_metadata) (rows : list jsvalue) (st : State) :
  acceptsAll w ->
  exists st', emitTable w cfg table tableId meta rows st = (Ok tt, st').
Proof.
  intros Hsink. unfold emitTable, when. cbv zeta. unfold andThen at 1.
  assert (Hraw : exists st1,
             (if wantsRaw cfg
              then emit w (RawOutput tableId table meta rows)
              else ret tt) st = (Ok tt, st1)).
  { destruct (wantsRaw cfg).
    - eexists. apply emit_accepted, Hsink.
    - eexists. reflexivity. }
  destruct Hraw as [st1 ->].
  destruct (wantsStructured cfg); [|eexists; reflexivity].
  unfold andThen at 1, modify at 1.
  apply forEach_points_ok, Hsink.
Qed.

Lemma processTable_clean (cfg : Configuration) (table : jsvalue)
    (st : State) :
  describable table = true ->
  acceptsAll w -> dataAvailable w ->
  exists st1,
    processTable w cfg table st
    = (Ok tt, observe (Sleep (delayBetweenRequests cfg)) st1)
    /\ sleeps (trace st1) = sleeps (trace st)
    /\ errorPushes (trace st1) = errorPushes (trace st)
    /\ processedTables st1 = S (processedTables st).
Proof.
  intros Hd Hsink Hdata.
  destruct (describable_parts table Hd) as (H & _ & Htitle).
  assert (Hbody : exists st', processTableBody w cfg table st = (Ok tt, st')).
  { rewrite (processTableBody_unfold w cfg table st H Htitle). cbv zeta.
    match goal with
    | |- context [dataResponse w ?h ?id ?org] =>
        destruct (Hdata h id org) as [rows ->]
    end.
    cbn [getStatsData]. unfold andThen.
    match goal with
    | |- context [emitTable w cfg table ?id ?meta rows ?s] =>
        destruct (emitTable_ok cfg table id meta rows s Hsink) as [st4 ->]
    end.
    eexists. reflexivity. }
  destruct Hbody as [st' Hbody].
  pose proof (processTableBody_sleepsLast w cfg table st) as Hsleep.
  pose proof (errorPushes_processTableBody w cfg table st) as Herr.
  unfold errorPushes in Herr.
  pose proof (processTableBody_counts w cfg table st) as Hcount.
  rewrite Hbody in Hsleep, Herr, Hcount. cbn [snd] in Herr, Hcount.
  destruct Hsleep as (st1 & -> & Hs).
  exists st1. unfold processTable, tryCatch. rewrite Hbody.
  split; [reflexivity|]. split; [exact Hs|]. split.
  - unfold errorPushes. rewrite <- Herr.
    symmetry. apply (view_observe errorPushOf). reflexivity.
  - exact Hcount.
Qed.

Lemma forEach_processTable_clean (cfg : Configuration)
    (tables : list jsvalue) :
  acceptsAll w -> dataAvailable w ->
  Forall (fun table => describable table = true) tables ->
  forall st,
    exists st',
      forEach tables (processTable w cfg) st = (Ok tt, st')
      /\ sleeps (trace st')
         = sleeps (trace st)
           ++ repeat (delayBetweenRequests cfg) (length tables)
      /\ errorPushes (trace st') = errorPushes (trace st)
      /\ processedTables st' = (processedTables st + length tables)%nat.
Proof.
  intros Hsink Hdata Hall.
  induction Hall as [|table tables Htable Hall IH]; intros st; simpl.
  - exists st. repeat split.
    + symmetry; apply app_nil_r.
    + lia.
  - destruct (processTable_clean cfg table st Htable Hsink Hdata)
      as (st1 & Hrun & Hs & He & Hn).
    unfold andThen. rewrite Hrun.
    destruct (IH (observe (Sleep (delayBetweenRequests cfg)) st1))
      as (st' & Hloop & Hs' & He' & Hn').
    exists st'. split; [exact Hloop|]. split; [|split].
    + rewrite Hs', sleeps_observe_sleep, Hs, <- app_assoc. reflexivity.
    + rewrite He'. unfold errorPushes.
      rewrite (view_observe errorPushOf) by reflexivity. exact He.
    + rewrite Hn'. cbn [processedTables observe extend]. lia.
Qed.

(** X21.  A credentialed run in which nothing fails (the listing is a
    non-empty array of descriptors, none [null] and each with an id and a
    title that can be converted to strings, every data request is answered
    with an array, the sink takes every record and the chart is rendered)
    completes
    with the summary as its last record.  The summary counts the tables
    processed, which are the first [maxItems] of the list, and the data
    points that were pushed; the run pushes no error record and sleeps once
    after each table. *)
Theorem clean_run_ends_with_summary
    (cfg : Configuration) (all : list jsvalue) :
  validateInput (js_or (actorInput w) (VObj [])) = Ok cfg ->
  truthy (kosisApiKey w) = true ->
  listResponse w (buildSearchParams cfg) = Resolved (VArr all) ->
  all <> [] ->
  Forall (fun table => describable table = true) all ->
  acceptsAll w -> dataAvailable w -> chartWorks w ->
  let tables := firstn (Z.to_nat (maxItems cfg)) all in
  exists st,
    mainLogic w initial
    = (Ok tt,
       observe (Emit (Summary (length tables) (length (points (trace st)))
                        cfg)) st)
    /\ errorPushes (trace st) = []
    /\ sleeps (trace st)
       = repeat (delayBetweenRequests cfg) (length tables).
Proof.
  intros Hcfg Hkey Hlist Hne Hall Hsink Hdata Hchart tables.
  pose proof (validateInput_bounds _ _ Hcfg) as (Hmax & _).
  rewrite (mainLogic_live cfg Hcfg Hkey). unfold tryCatch.
  rewrite (liveRun_tables cfg initial (VArr all) tables Hkey).
  2: { rewrite Hlist. reflexivity. }
  2: { reflexivity. }
  2: { destruct all; [contradiction | reflexivity]. }
  2: { simpl. rewrite slice0_firstn by lia. reflexivity. }
  set (st0 := resetCounters
                (observe (CallGetStatsList (buildSearchParams cfg)) initial)).
  destruct (forEach_processTable_clean cfg tables Hsink Hdata
              (Forall_firstn _ _ _ Hall) st0)
    as (st1 & Hloop & Hs & He & Hn).
  pose proof (keeps_forEach pointsLead tables (processTable w cfg)
                (pointsLead_processTable cfg) st0) as Hlead.
  rewrite Hloop in Hlead. cbn [snd] in Hlead.
  unfold andThen at 1. rewrite Hloop.
  unfold afterLoop, andThen, gets, when.
  set (st2 := if negb (Nat.eqb (length (allNormalizedData st1)) 0)
              then observe (RenderChart (allNormalizedData st1)) st1
              else st1).
  assert (Hchart' :
            (if negb (Nat.eqb (length (allNormalizedData st1)) 0)
             then chart w (allNormalizedData st1) else ret tt) st1
            = (Ok tt, st2)).
  { unfold st2, chart.
    destruct (negb (Nat.eqb (length (allNormalizedData st1)) 0));
      [rewrite Hchart|]; reflexivity. }
  rewrite Hchart'.
  assert (Hview : forall {X : Type} (g : event -> list X),
             (forall data, g (RenderChart data) = []) ->
             flat_map g (trace st2) = flat_map g (trace st1)).
  { intros X g Hg. unfold st2.
    destruct (negb (Nat.eqb (length (allNormalizedData st1)) 0));
      [apply view_observe, Hg | reflexivity]. }
  assert (Hsame : processedTables st2 = processedTables st1
                  /\ totalDataPoints st2 = totalDataPoints st1).
  { unfold st2.
    destruct (negb (Nat.eqb (length (allNormalizedData st1)) 0));
      split; reflexivity. }
  destruct Hsame as [Hp Ht].
  rewrite (emit_accepted w _ _ (Hsink _ _)).
  exists st2. split; [|split].
  - rewrite Hp, Ht, Hn. do 3 f_equal.
    unfold pointsLead in Hlead.
    change (totalDataPoints st0) with 0%nat in Hlead.
    change (points (trace st0)) with (@nil NormalizedRecord) in Hlead.
    unfold points in *. rewrite (Hview _ pointOf (fun _ => eq_refl)).
    cbn [length] in Hlead. change (processedTables st0) with 0%nat.
    f_equal; lia.
  - unfold errorPushes in *.
    rewrite (Hview _ errorPushOf (fun _ => eq_refl)). exact He.
  - unfold sleeps in *.
    rewrite (Hview _ sleepOf (fun _ => eq_refl)). exact Hs.
Qed.

End MoreMainFacts.

(** * Further worked runs on the executable host *)

Lemma validateInput_returns_iff_witness :
  exists cfg,
    validateInput (host := node) (VObj [("vwCd", VStr " MT_OTITLE ")])
    = Ok cfg.
Proof.
  apply (proj2 (validateInput_returns_iff (host := node)
                  (VObj [("vwCd", VStr " MT_OTITLE ")]))).
  reflexivity.
Defined.

Lemma validateInput_floors_delay_witness :
  exists cfg,
    validateInput (host := node)
      (VObj [("delayBetweenRequests", VStr "100")]) = Ok cfg
    /\ delayBetweenRequests cfg = 500.
Proof.
  destruct (validateInput_floors_delay (host := node)
              (VObj [("delayBetweenRequests", VStr "100")]) eq_refl)
    as (cfg & Hcfg & _ & Hparsed & _).
  exists cfg. split; [exact Hcfg|].
  apply (Hparsed 100); [reflexivity | lia | lia].
Defined.

Lemma validateInput_coerces_flags_witness :
  outputFormat
    (configurationOf (host := node)
       (VObj [("outputFormat", VStr "raw"); ("includeMetadata", VNum NaN)]))
  = "raw".
Proof.
  destruct (validateInput_coerces_flags (host := node)
              (VObj [("outputFormat", VStr "raw");
                     ("includeMetadata", VNum NaN)])
              _ eq_refl)
    as (Hkept & _).
  apply (Hkept "raw"); [reflexivity | simpl; auto].
Defined.

Lemma buildSearchParams_of_validated_witness :
  buildSearchParams defaultConfiguration
  = {| sp_vwCd := "MT_ZTITLE"; sp_parentId := "A";
       sp_searchKeyword := None |}.
Proof.
  destruct (buildSearchParams_of_validated (host := node) (VObj [])
              defaultConfiguration eq_refl)
    as (_ & _ & Hparams).
  exact Hparams.
Defined.

Lemma normalizeItem_returns_iff_witness :
  exists r, normalizeItem (host := node) (VStr "T1") populationRow = Ok r.
Proof.
  apply (proj2 (normalizeItem_returns_iff (host := node) (VStr "T1")
                  populationRow)).
  reflexivity.
Defined.

Lemma normalizeItem_record_witness :
  value populationRecord <> NaN /\ dataType populationRecord <> "error".
Proof.
  destruct (normalizeItem_record (host := node) (VStr "T1") populationRow
              populationRecord eq_refl)
    as (_ & Hvalue & _ & _ & _ & Hkind).
  split; assumption.
Defined.

Lemma normalize_clean_batch_witness :
  length (normalizeStatisticalData (host := node) populationRow NoMetadata
            (VStr "T1")) = 1%nat.
Proof.
  destruct (normalize_clean_batch (host := node) populationRow NoMetadata
              (VStr "T1") eq_refl)
    as (_ & Hlength & _).
  exact Hlength.
Defined.

Lemma normalize_output_invariant_witness :
  Forall (fun r => sourceTableId r = VStr "T1")
    (normalizeStatisticalData (host := node) (VArr [populationRow; VNull])
       NoMetadata (VStr "T1")).
Proof.
  destruct (normalize_output_invariant (host := node)
              (VArr [populationRow; VNull]) NoMetadata (VStr "T1"))
    as (Hid & _).
  exact Hid.
Defined.

Lemma null_descriptor_aborts_loop_witness :
  fst (forEach [VNull; tableB]
         (processTable (host := node) oneTableWorld defaultConfiguration)
         initial)
  = Throw (mkError "Cannot read properties of null (reading 'TBL_ID')").
Proof.
  destruct (null_descriptor_aborts_loop (host := node) oneTableWorld
              defaultConfiguration VNull [tableB] initial eq_refl)
    as (_ & Hloop & _).
  rewrite Hloop. reflexivity.
Defined.

Lemma empty_list_run_witness :
  trace (snd (mainLogic (host := node) emptyListWorld initial))
  = [CallGetStatsList (buildSearchParams defaultConfiguration);
     Emit (NoData (buildSearchParams defaultConfiguration))].
Proof.
  rewrite (empty_list_run (host := node) emptyListWorld defaultConfiguration
             eq_refl eq_refl eq_refl eq_refl).
  reflexivity.
Defined.

Lemma two_descriptors_listed : [tableA; tableB] <> [].
Proof. discriminate. Qed.

Lemma metadata_follows_the_switch_witness :
  metaCalls
    (trace (snd (forEach [tableA; tableB]
                   (processTable (host := node) firstFailsWorld
                      defaultConfiguration) initial)))
  = [VStr "A"; VStr "B"].
Proof.
  rewrite (metadata_follows_the_switch (host := node) firstFailsWorld
             defaultConfiguration [tableA; tableB]
             (quiet_sink_acceptsTableErrors firstFailsWorld
                (fun _ _ => eq_refl))
             two_describable initial).
  reflexivity.
Defined.

Lemma output_format_selects_blocks_witness :
  totalDataPoints
    (snd (forEach [tableA; tableB]
            (processTable (host := node) oneTableWorld rawConfiguration)
            initial)) = 0%nat.
Proof.
  destruct (output_format_selects_blocks (host := node) oneTableWorld
              rawConfiguration [tableA; tableB] initial)
    as (Hraw & _).
  destruct (Hraw eq_refl) as (_ & Hpoints). rewrite Hpoints. reflexivity.
Defined.

Lemma completed_run_ends_with_closing_record_witness :
  trace (snd (mainLogic (host := node) noKeyWorld initial)) <> [].
Proof.
  destruct (completed_run_ends_with_closing_record (host := node) noKeyWorld
              initial (snd (mainLogic (host := node) noKeyWorld initial))
              eq_refl)
    as (st1 & o & _ & _ & Hout).
  exact Hout.
Defined.

(** Two tables are listed and one is asked for: only the first is
    requested. *)
Lemma live_run_requests_first_maxItems_witness :
  dataCalls (trace (snd (mainLogic (host := node) truncatedWorld initial)))
  = [VStr "A"].
Proof.
  destruct (live_run_requests_first_maxItems (host := node) truncatedWorld
              oneItemConfiguration [tableA; tableB]
              eq_refl eq_refl eq_refl two_descriptors_listed
              two_describable
              (quiet_sink_acceptsTableErrors truncatedWorld
                 (fun _ _ => eq_refl)))
    as (Hcalls & _).
  rewrite Hcalls. reflexivity.
Defined.

Lemma text_listing_is_iterated_by_character_witness :
  dataCalls (trace (snd (mainLogic (host := node) textListWorld initial)))
  = [VStr "table_1"; VStr "table_2"].
Proof.
  rewrite (text_listing_is_iterated_by_character (host := node) textListWorld
             (configurationOf (host := node) (actorInput textListWorld))
             "<html>" eq_refl eq_refl eq_refl).
  - reflexivity.
  - discriminate.
  - intros history tableId tableTitle error. reflexivity.
Defined.

Lemma array_like_object_cannot_be_sliced_witness :
  liveRun (host := node) arrayLikeWorld defaultConfiguration initial
  = (Throw (mkError "statsList.slice is not a function"),
     observe (CallGetStatsList (buildSearchParams defaultConfiguration))
       initial).
Proof.
  apply (array_like_object_cannot_be_sliced (host := node) arrayLikeWorld
           defaultConfiguration [("length", VNum (numberOfZ 3))] initial
           eq_refl eq_refl).
  - discriminate.
  - reflexivity.
  - reflexivity.
Defined.

Lemma demo_output_size_witness :
  Z.of_nat (length (filteredData (host := node) defaultConfiguration)) = 4.
Proof.
  destruct (demo_output_size (host := node) defaultConfiguration)
    as (_ & _ & Hall).
  - discriminate.
  - rewrite Hall; reflexivity.
Defined.

Lemma clean_run_ends_with_summary_witness :
  exists st,
    mainLogic (host := node) twoTablesWorld initial
    = (Ok tt, observe (Emit (Summary 2 2 defaultConfiguration)) st)
    /\ errorPushes (trace st) = []
    /\ sleeps (trace st) = [1000; 1000].
Proof.
  destruct (clean_run_ends_with_summary (host := node) twoTablesWorld
              defaultConfiguration [tableA; tableB]
              eq_refl eq_refl eq_refl two_descriptors_listed two_describable
              (fun _ _ => eq_refl)
              (fun _ _ _ => ex_intro _ [populationRow] eq_refl)
              (fun _ _ => eq_refl))
    as (st & Hrun & Herrors & Hsleeps).
  exists st. split; [|split; [exact Herrors | exact Hsleeps]].
  assert (Hlast : last (trace (snd (mainLogic (host := node) twoTablesWorld
                                      initial))) (Sleep 0)
                  = Emit (Summary 2 2 defaultConfiguration))
    by (vm_compute; reflexivity).
  rewrite Hrun in Hlast. unfold observe, extend in Hlast.
  cbn [snd trace] in Hlast. rewrite last_last in Hlast.
  rewrite Hrun, Hlast. reflexivity.
Defined.
